(** * parse_vcf: a shallow embedding of [parse_vcf.py]

    The classes [VcfHeader], [VcfRecord] and [AltAllele] of
    [src/parse_vcf.py] are embedded as records; their methods become
    functions in a small state-and-exception monad, because every lazy
    property of a record writes its cache cell and several methods rewrite
    the raw columns.  A Python [str] is a [string] whose characters are the
    code points below 256.  Dictionaries whose order is never observed are
    [gmap]s; [OrderedDict]s and dictionaries that are iterated are
    association lists in insertion order. *)

From Stdlib Require Import String Ascii ZArith List Bool Lia DecimalString.
From stdpp Require Import base option list gmap strings.
From Equations Require Import Equations.

Open Scope string_scope.
Open Scope list_scope.
Open Scope stdpp_scope.

(** ** Exceptions and the two monads *)

(** The exception classes that the embedded methods can raise: the two
    classes defined at the end of the module and the built-in ones that
    escape from indexing, conversion and name lookup. *)
Inductive exn : Type :=
| ParseError | HeaderError
| ValueError | TypeError | KeyError | IndexError | AttributeError | NameError.

Inductive result (A : Type) : Type :=
| Ok (a : A)
| Raise (e : exn).
Arguments Ok {A} a.
Arguments Raise {A} e.

Definition bindR {A B} (m : result A) (k : A -> result B) : result B :=
  match m with
  | Ok a => k a
  | Raise e => Raise e
  end.

(** A method of an object with state [S]: the state is returned also when
    the method raises, as the writes done before the [raise] persist. *)
Definition M (S A : Type) : Type := S -> S * result A.

Definition ret {S A} (a : A) : M S A := fun s => (s, Ok a).
Definition raise {S A} (e : exn) : M S A := fun s => (s, Raise e).
Definition bindM {S A B} (m : M S A) (k : A -> M S B) : M S B :=
  fun s => match m s with
           | (s', Ok a) => k a s'
           | (s', Raise e) => (s', Raise e)
           end.
Definition get {S} : M S S := fun s => (s, Ok s).
Definition gets {S A} (f : S -> A) : M S A := fun s => (s, Ok (f s)).
Definition modify {S} (f : S -> S) : M S unit := fun s => (f s, Ok tt).
Definition liftR {S A} (m : result A) : M S A := fun s => (s, m).
(** [try: m except e: h] *)
Definition catch {S A} (m : M S A) (handles : exn -> bool) (h : M S A) : M S A :=
  fun s => match m s with
           | (s', Raise e) => if handles e then h s' else (s', Raise e)
           | ok => ok
           end.

Declare Scope py_scope.
Delimit Scope py_scope with py.
Notation "'do' x <- m ;; k" := (bindM m (fun x => k))
  (at level 60, x name, m at next level, right associativity) : py_scope.
Notation "'run' m ;; k" := (bindM m (fun _ => k))
  (at level 60, m at next level, right associativity) : py_scope.
Notation "'doR' x <- m ;; k" := (bindR m (fun x => k))
  (at level 60, x name, m at next level, right associativity) : py_scope.
Open Scope py_scope.

(** [for x in xs: body x], stopping at the first exception. *)
Fixpoint forM_ {S A} (xs : list A) (body : A -> M S unit) : M S unit :=
  match xs with
  | [] => ret tt
  | x :: xs' => run body x ;; forM_ xs' body
  end.

(** [[f x for x in xs]] *)
Fixpoint mapM {S A B} (f : A -> M S B) (xs : list A) : M S (list B) :=
  match xs with
  | [] => ret []
  | x :: xs' => do y <- f x ;; do ys <- mapM f xs' ;; ret (y :: ys)
  end.

Fixpoint mapR {A B} (f : A -> result B) (xs : list A) : result (list B) :=
  match xs with
  | [] => Ok []
  | x :: xs' => doR y <- f x ;; doR ys <- mapR f xs' ;; Ok (y :: ys)
  end.

(** ** Python strings *)

Definition ord (c : ascii) : nat := nat_of_ascii c.
Definition in_range (lo hi : nat) (c : ascii) : bool :=
  (lo <=? ord c)%nat && (ord c <=? hi)%nat.

Definition TAB : ascii := ascii_of_nat 9.
Definition NEWLINE : ascii := ascii_of_nat 10.
Definition DQUOTE : ascii := ascii_of_nat 34.
Definition BACKSLASH : ascii := ascii_of_nat 92.

(** [str.isspace] and the regular-expression class [\s]. *)
Definition py_isspace (c : ascii) : bool :=
  in_range 9 13 c || in_range 28 32 c || (ord c =? 133)%nat || (ord c =? 160)%nat.
(** The white space that [int] strips on both sides. *)
Definition int_isspace (c : ascii) : bool :=
  in_range 9 13 c || (ord c =? 32)%nat || (ord c =? 133)%nat || (ord c =? 160)%nat.
(** The regular-expression class [\d]. *)
Definition is_decimal (c : ascii) : bool := in_range 48 57 c.
(** [str.isdigit] on one character: the decimal digits and the superscripts
    two, three and one. *)
Definition py_isdigit_char (c : ascii) : bool :=
  is_decimal c || (ord c =? 178)%nat || (ord c =? 179)%nat || (ord c =? 185)%nat.
(** The regular-expression class [\w]. *)
Definition py_isword (c : ascii) : bool :=
  is_decimal c || in_range 65 90 c || in_range 97 122 c || (ord c =? 95)%nat
  || (ord c =? 170)%nat || (ord c =? 178)%nat || (ord c =? 179)%nat
  || (ord c =? 181)%nat || (ord c =? 185)%nat || (ord c =? 186)%nat
  || in_range 188 190 c || in_range 192 214 c || in_range 216 246 c
  || in_range 248 255 c.

Fixpoint chars (s : string) : list ascii :=
  match s with
  | EmptyString => []
  | String c s' => c :: chars s'
  end.
Fixpoint of_chars (l : list ascii) : string :=
  match l with
  | [] => EmptyString
  | c :: l' => String c (of_chars l')
  end.

Definition str1 (c : ascii) : string := String c EmptyString.

(** [s[0]] and [s[-1]] where they exist, [s[1:]] and [s[:-1]]. *)
Definition str_first (s : string) : option ascii :=
  match s with
  | EmptyString => None
  | String c _ => Some c
  end.
Definition str_tail (s : string) : string :=
  match s with
  | EmptyString => EmptyString
  | String _ s' => s'
  end.
Fixpoint str_last (s : string) : option ascii :=
  match s with
  | EmptyString => None
  | String c EmptyString => Some c
  | String _ s' => str_last s'
  end.
Fixpoint str_init (s : string) : string :=
  match s with
  | EmptyString => EmptyString
  | String _ EmptyString => EmptyString
  | String c s' => String c (str_init s')
  end.
(** [s[:1]] *)
Definition str_take1 (s : string) : string :=
  match s with
  | EmptyString => EmptyString
  | String c _ => str1 c
  end.

(** [s.startswith(p)] *)
Fixpoint py_startswith (s p : string) {struct p} : bool :=
  match p with
  | EmptyString => true
  | String c p' =>
      match s with
      | String d s' => Ascii.eqb d c && py_startswith s' p'
      | EmptyString => false
      end
  end.

(** [s.split(sep)] for a one-character separator. *)
Fixpoint py_split (sep : ascii) (s : string) : list string :=
  match s with
  | EmptyString => [EmptyString]
  | String c s' =>
      if Ascii.eqb c sep then EmptyString :: py_split sep s'
      else match py_split sep s' with
           | w :: ws => String c w :: ws
           | [] => [str1 c]
           end
  end.

(** [s.split(sep, maxsplit)]: after [maxsplit] cuts the rest is one piece. *)
Fixpoint py_split_max (sep : ascii) (s : string) (maxsplit : nat) : list string :=
  match s with
  | EmptyString => [EmptyString]
  | String c s' =>
      match maxsplit with
      | O => [s]
      | S n =>
          if Ascii.eqb c sep then EmptyString :: py_split_max sep s' n
          else match py_split_max sep s' maxsplit with
               | w :: ws => String c w :: ws
               | [] => [str1 c]
               end
      end
  end.

(** [re.split(p, s)] for a pattern [p] that matches exactly the single
    characters accepted by [is_sep]. *)
Fixpoint re_split_class (is_sep : ascii -> bool) (s : string) : list string :=
  match s with
  | EmptyString => [EmptyString]
  | String c s' =>
      if is_sep c then EmptyString :: re_split_class is_sep s'
      else match re_split_class is_sep s' with
           | w :: ws => String c w :: ws
           | [] => [str1 c]
           end
  end.

(** [str.join(sep, l)] *)
Fixpoint py_join (sep : string) (l : list string) : string :=
  match l with
  | [] => EmptyString
  | [x] => x
  | x :: l' => x +:+ sep +:+ py_join sep l'
  end.

(** [l.index(x)]: the first position of [x], [ValueError] when absent. *)
Fixpoint list_index (x : string) (l : list string) : result nat :=
  match l with
  | [] => Raise ValueError
  | y :: l' => if String.eqb y x then Ok O
               else doR n <- list_index x l' ;; Ok (S n)
  end.

(** [x in l] for a list of strings. *)
Definition str_in (x : string) (l : list string) : bool :=
  existsb (String.eqb x) l.

(** *** Integers: [int(s)], [str(n)], [s.isdigit()] *)

Definition digit_val (c : ascii) : Z := Z.of_nat (ord c) - 48.

(** The digits of a decimal literal; an underscore may stand between two
    digits and nowhere else. *)
Fixpoint int_digits (acc : Z) (after_digit : bool) (l : list ascii) : option Z :=
  match l with
  | [] => if after_digit then Some acc else None
  | c :: l' =>
      if is_decimal c then int_digits (10 * acc + digit_val c) true l'
      else if Ascii.eqb c "_" && after_digit then int_digits acc false l'
      else None
  end.

Fixpoint lstrip (l : list ascii) : list ascii :=
  match l with
  | c :: l' => if int_isspace c then lstrip l' else l
  | [] => []
  end.

(** [int(s)] for a string [s]: white space around, an optional sign, then
    the digits; [None] stands for [ValueError]. *)
Definition py_int (s : string) : option Z :=
  let body := rev (lstrip (rev (lstrip (chars s)))) in
  match body with
  | c :: l =>
      if Ascii.eqb c "-" then Z.opp <$> int_digits 0 false l
      else if Ascii.eqb c "+" then int_digits 0 false l
      else int_digits 0 false body
  | [] => None
  end.

(** [str(n)] for an integer. *)
Definition py_str_int (n : Z) : string := NilZero.string_of_int (Z.to_int n).

(** [s.isdigit()] *)
Definition py_isdigit (s : string) : bool :=
  match chars s with
  | [] => false
  | l => forallb py_isdigit_char l
  end.

(** *** Floats: whether [float(s)] accepts a string

    The string is stripped of the white space that [int] strips.  An
    underscore may stand between two digits and nowhere else.  What is
    left without its underscores is an optional sign and then [inf],
    [infinity] or [nan] in any case, or digits with an optional point and
    an optional exponent, at least one digit standing before or after the
    point.  A literal too large for a double gives an infinity, not an
    error. *)

(** The test of the underscores, [prev] being the character before. *)
Fixpoint float_underscores (prev : ascii) (l : list ascii) : bool :=
  match l with
  | [] => negb (Ascii.eqb prev "_")
  | c :: l' =>
      (if Ascii.eqb c "_" then is_decimal prev
       else negb (Ascii.eqb prev "_") || is_decimal c)
      && float_underscores c l'
  end.

Fixpoint skip_digits (l : list ascii) : list ascii :=
  match l with
  | c :: l' => if is_decimal c then skip_digits l' else l
  | [] => []
  end.

Definition starts_digit (l : list ascii) : bool :=
  match l with
  | c :: _ => is_decimal c
  | [] => false
  end.

(** What may follow the digits and the point: nothing, or an exponent
    with at least one digit. *)
Definition float_exponent (l : list ascii) : bool :=
  match l with
  | [] => true
  | c :: l' =>
      (Ascii.eqb c "e" || Ascii.eqb c "E")
      && let ds := match l' with
                   | s :: t => if Ascii.eqb s "+" || Ascii.eqb s "-" then t else l'
                   | [] => []
                   end in
         starts_digit ds && (length (skip_digits ds) =? 0)%nat
  end.

Definition float_number (l : list ascii) : bool :=
  let rest := skip_digits l in
  match rest with
  | c :: frac =>
      if Ascii.eqb c "." then
        (starts_digit l || starts_digit frac) && float_exponent (skip_digits frac)
      else starts_digit l && float_exponent rest
  | [] => starts_digit l
  end.

Definition ascii_lower (c : ascii) : ascii :=
  if in_range 65 90 c then ascii_of_nat (ord c + 32) else c.

Definition float_special (l : list ascii) : bool :=
  str_in (of_chars (map ascii_lower l)) ["inf"; "infinity"; "nan"].

(** Whether [float(s)] returns; it raises [ValueError] otherwise. *)
Definition py_float_accepts (s : string) : bool :=
  let body := rev (lstrip (rev (lstrip (chars s)))) in
  let l := List.filter (fun c => negb (Ascii.eqb c "_")) body in
  let unsigned := match l with
                  | c :: l' => if Ascii.eqb c "+" || Ascii.eqb c "-" then l' else l
                  | [] => []
                  end in
  float_underscores Ascii.zero body
  && (float_number unsigned || float_special unsigned).

(** *** Ordered dictionaries

    A [dict] or [OrderedDict] whose iteration order is observed: the items
    in insertion order, no key twice. *)
Section odict.
Context {V : Type}.

Fixpoint od_get (k : string) (d : list (string * V)) : option V :=
  match d with
  | [] => None
  | (k', v) :: d' => if String.eqb k' k then Some v else od_get k d'
  end.

Definition od_mem (k : string) (d : list (string * V)) : bool :=
  match od_get k d with Some _ => true | None => false end.

(** [d[k] = v]: an existing key keeps its place. *)
Fixpoint od_set (k : string) (v : V) (d : list (string * V)) : list (string * V) :=
  match d with
  | [] => [(k, v)]
  | (k', v') :: d' =>
      if String.eqb k' k then (k, v) :: d' else (k', v') :: od_set k v d'
  end.

(** [d.pop(k, None)] *)
Fixpoint od_pop (k : string) (d : list (string * V)) : list (string * V) :=
  match d with
  | [] => []
  | (k', v') :: d' =>
      if String.eqb k' k then d' else (k', v') :: od_pop k d'
  end.

(** [d.update(e)], also [dict(items)] from the empty dictionary. *)
Definition od_update (d e : list (string * V)) : list (string * V) :=
  fold_left (fun acc kv => od_set kv.1 kv.2 acc) e d.
End odict.

(** [dict(items)] when the order is not observed: a later item wins. *)
Definition dict_of {V} (items : list (string * V)) : gmap string V :=
  fold_left (fun m kv => <[kv.1 := kv.2]> m) items ∅.

(** [zip(a, b)] *)
Fixpoint zip_list {A B} (a : list A) (b : list B) : list (A * B) :=
  match a, b with
  | x :: a', y :: b' => (x, y) :: zip_list a' b'
  | _, _ => []
  end.

(** ** Python objects stored in INFO

    The values that the INFO mapping of a record can hold: a string read
    from the line, [True] for a flag, and what a caller of
    [add_info_fields] passes in (strings, integers, booleans, [None], and
    lists of these). *)
Inductive atom : Type :=
| AStr (s : string)
| AInt (n : Z)
| ABool (b : bool)
| ANone.

Inductive pyval : Type :=
| VAtom (a : atom)
| VList (l : list atom).

Definition hex_digit (n : nat) : ascii :=
  ascii_of_nat (if (n <? 10)%nat then 48 + n else 87 + n).

(** One character of [repr(s)] for a string quoted with [quote]. *)
Definition repr_char (quote : ascii) (c : ascii) : string :=
  if Ascii.eqb c quote || Ascii.eqb c BACKSLASH then String BACKSLASH (str1 c)
  else if (ord c =? 9)%nat then String BACKSLASH "t"
  else if (ord c =? 10)%nat then String BACKSLASH "n"
  else if (ord c =? 13)%nat then String BACKSLASH "r"
  else if (ord c <? 32)%nat || in_range 127 160 c || (ord c =? 173)%nat
       then String BACKSLASH
              (String "x" (String (hex_digit (ord c / 16))
                                  (str1 (hex_digit (ord c mod 16)))))
  else str1 c.

Definition has_char (c : ascii) (s : string) : bool :=
  existsb (Ascii.eqb c) (chars s).

(** [repr(s)] for a string: double quotes only when [s] holds a single
    quote and no double quote. *)
Definition py_repr_str (s : string) : string :=
  let quote : ascii :=
    if has_char "'" s && negb (has_char DQUOTE s) then DQUOTE else "'"%char in
  String quote
    (fold_right (fun c acc => repr_char quote c +:+ acc) (str1 quote) (chars s)).

Definition py_str_atom (a : atom) : string :=
  match a with
  | AStr s => s
  | AInt n => py_str_int n
  | ABool true => "True"
  | ABool false => "False"
  | ANone => "None"
  end.

Definition py_repr_atom (a : atom) : string :=
  match a with
  | AStr s => py_repr_str s
  | _ => py_str_atom a
  end.

(** [str(v)] *)
Definition py_str (v : pyval) : string :=
  match v with
  | VAtom a => py_str_atom a
  | VList l => "[" +:+ py_join ", " (map py_repr_atom l) +:+ "]"
  end.

(** [int(v)] *)
Definition py_int_val (v : pyval) : result Z :=
  match v with
  | VAtom (AStr s) => match py_int s with Some n => Ok n | None => Raise ValueError end
  | VAtom (AInt n) => Ok n
  | VAtom (ABool b) => Ok (if b then 1 else 0)%Z
  | VAtom ANone => Raise TypeError
  | VList _ => Raise TypeError
  end.

(** [isinstance(v, bool)] and [isinstance(v, list)] *)
Definition is_bool (v : pyval) : bool :=
  match v with VAtom (ABool _) => true | _ => false end.
Definition is_list (v : pyval) : bool :=
  match v with VList _ => true | _ => false end.

(** [sorted(info.items())]: the keys of a dictionary are distinct, so the
    items are ordered by key alone. *)
Fixpoint insert_sorted {V} (kv : string * V) (l : list (string * V)) : list (string * V) :=
  match l with
  | [] => [kv]
  | kv' :: l' =>
      if String.leb kv.1 kv'.1 then kv :: l else kv' :: insert_sorted kv l'
  end.
Definition sorted_items {V} (d : gmap string V) : list (string * V) :=
  fold_right insert_sorted [] (map_to_list d).

(** ** [AltAllele] *)

Module AltAllele.
Record t : Type := mk { CHROM : string; POS : Z; REF : string; ALT : string }.

(** [AltAllele.__eq__] *)
Definition eqb (a b : t) : bool :=
  String.eqb (CHROM a) (CHROM b) && (POS a =? POS b)%Z
  && String.eqb (REF a) (REF b) && String.eqb (ALT a) (ALT b).
End AltAllele.

(** ** [VcfHeader] *)

(** The classes a field value is converted with: [str], [float], [int];
    [None] in a translation stands for a Flag. *)
Inductive ctype : Type := Cstr | Cfloat | Cint.

(** A value of [metadata]: for a structured line a dictionary from ID to
    the property dictionaries declared for it, in order of appearance; for
    a plain [##key=value] line the values. *)
Inductive meta_entry : Type :=
| MetaDict (d : list (string * list (gmap string string)))
| MetaList (l : list string).

Record VcfHeader : Type := mkVcfHeader {
  meta_header : list string;
  col_header : list string;
  samples : option (list string);
  sample_cols : option (gmap string nat);
  metadata : gmap string meta_entry;
  fileformat : option string;
  _info_field_translater : gmap string (option ctype * bool);
  _format_field_translater : gmap string (option ctype * bool);
}.

Definition set_fileformat (v : string) (h : VcfHeader) : VcfHeader :=
  mkVcfHeader (meta_header h) (col_header h) (samples h) (sample_cols h)
    (metadata h) (Some v) (_info_field_translater h) (_format_field_translater h).
Definition set__info_field_translater (v : gmap string (option ctype * bool))
    (h : VcfHeader) : VcfHeader :=
  mkVcfHeader (meta_header h) (col_header h) (samples h) (sample_cols h)
    (metadata h) (fileformat h) v (_format_field_translater h).
Definition set__format_field_translater (v : gmap string (option ctype * bool))
    (h : VcfHeader) : VcfHeader :=
  mkVcfHeader (meta_header h) (col_header h) (samples h) (sample_cols h)
    (metadata h) (fileformat h) (_info_field_translater h) v.

(** [COMMON_FORMAT], reduced to the pair [(Class, Split)] that the code
    reads from it. *)
Definition COMMON_FORMAT : list (string * (option ctype * bool)) :=
  [ ("DP", (Some Cint, false)); ("EC", (Some Cint, true));
    ("FT", (Some Cstr, false)); ("GL", (Some Cfloat, true));
    ("GLE", (Some Cstr, false)); ("GP", (Some Cfloat, true));
    ("GQ", (Some Cint, false)); ("GT", (Some Cstr, false));
    ("HQ", (Some Cint, true)); ("MQ", (Some Cint, false));
    ("PL", (Some Cint, false)); ("PQ", (Some Cint, false));
    ("PS", (Some Cint, false));
    ("CN", (Some Cint, false)); ("CNQ", (Some Cfloat, false));
    ("CNL", (Some Cfloat, false)); ("NQ", (Some Cint, false));
    ("HAP", (Some Cint, false)); ("AHAP", (Some Cint, false)) ].

(** [d[k]] on a property dictionary *)
Definition getitem {V} (d : gmap string V) (k : string) : result V :=
  match d !! k with
  | Some v => Ok v
  | None => Raise KeyError
  end.

(** [self.metadata[field_type][field]]: the declarations of one ID. *)
Definition metadata_lookup (h : VcfHeader) (field_type field : string)
    : result (list (gmap string string)) :=
  match metadata h !! field_type with
  | None => Raise KeyError
  | Some (MetaList _) => Raise TypeError
  | Some (MetaDict d) =>
      match od_get field d with
      | None => Raise KeyError
      | Some decls => Ok decls
      end
  end.

(** [VcfHeader._set_field_translation] *)
Definition _set_field_translation (field_type field : string) : M VcfHeader unit :=
  do h <- get ;;
  do decls <- liftR (metadata_lookup h field_type field) ;;
  do f <- liftR (match decls with f :: _ => Ok f | [] => Raise IndexError end) ;;
  do ty <- liftR (getitem f "Type") ;;
  do ctype <-
    (if String.eqb ty "String" || String.eqb ty "Character" then ret (Some Cstr)
     else if String.eqb ty "Float" then ret (Some Cfloat)
     else if String.eqb ty "Integer" then ret (Some Cint)
     else if negb (String.eqb ty "Flag") then raise ParseError
     else ret None) ;;
  do number <- liftR (getitem f "Number") ;;
  do split <-
    (if py_isdigit number then
       match py_int number with
       | Some n => ret (1 <? n)%Z
       | None => raise ValueError
       end
     else ret true) ;;
  if String.eqb field_type "INFO" then
    modify (fun h => set__info_field_translater
                       (<[field := (ctype, split)]> (_info_field_translater h)) h)
  else if String.eqb field_type "FORMAT" then
    modify (fun h => set__format_field_translater
                       (<[field := (ctype, split)]> (_format_field_translater h)) h)
  else raise ParseError.

(** [_meta_re.match(line)]: two hashes, a lazy group of characters that are
    not white space, an equals sign, and a group with the rest of the line.
    The lazy first group takes one character that is not white space and
    then grows up to the next [=]; the second group runs to the
    end of the line. *)
Fixpoint meta_key (acc : string) (rest : string) : option (string * string) :=
  match rest with
  | EmptyString => None
  | String c rest' =>
      if Ascii.eqb c "=" then Some (acc, rest')
      else if py_isspace c then None
      else meta_key (acc +:+ str1 c) rest'
  end.
Fixpoint upto_newline (s : string) : string :=
  match s with
  | EmptyString => EmptyString
  | String c s' => if Ascii.eqb c NEWLINE then EmptyString else String c (upto_newline s')
  end.
Definition _meta_re_match (line : string) : option (string * string) :=
  match line with
  | String h1 (String h2 (String c rest)) =>
      if Ascii.eqb h1 "#" && Ascii.eqb h2 "#" && negb (py_isspace c) then
        match meta_key (str1 c) rest with
        | Some (k, v) => Some (k, upto_newline v)
        | None => None
        end
      else None
  | _ => None
  end.

Definition essential_columns : list string :=
  ["#CHROM"; "POS"; "ID"; "REF"; "ALT"; "QUAL"; "FILTER"; "INFO"].

(** The loop of [__init__] over the essential column names. *)
Fixpoint check_columns (i : nat) (expected col_header : list string) : result unit :=
  match expected with
  | [] => Ok tt
  | c :: expected' =>
      match col_header !! i with
      | None => Raise IndexError
      | Some x => if String.eqb x c then check_columns (S i) expected' col_header
                  else Raise HeaderError
      end
  end.

(** [enumerate(l, start)] with the pair turned round, as in the
    comprehension that builds [sample_cols]. *)
Fixpoint enumerate_from (start : nat) (l : list string) : list (string * nat) :=
  match l with
  | [] => []
  | x :: l' => (x, start) :: enumerate_from (S start) l'
  end.

(** The attributes that [VcfHeader.__init__] assigns before it checks or
    parses anything. *)
Definition blank_header (meta_header col_header : list string) : VcfHeader :=
  let rest := drop 9 col_header in
  {| meta_header := meta_header;
     col_header := col_header;
     samples := match rest with [] => None | _ => Some rest end;
     sample_cols := match rest with
                    | [] => None
                    | _ => Some (dict_of (enumerate_from 9 rest))
                    end;
     metadata := ∅;
     fileformat := None;
     _info_field_translater := ∅;
     _format_field_translater := ∅ |}.

Section header_construction.
(** [VcfHeader._parse_header_line] reads a line with two backtracking
    regular expressions and files it under [metadata]; the construction
    is embedded for any such reader. *)
Variable _parse_header_line : string -> M VcfHeader unit.

(** [VcfHeader._parse_metadata] *)
Definition _parse_metadata : M VcfHeader unit :=
  do h <- get ;;
  do first <- liftR (match meta_header h with
                     | l :: _ => Ok l
                     | [] => Raise IndexError
                     end) ;;
  run (match _meta_re_match first with
       | Some (k, v) =>
           if negb (String.eqb k "fileformat") then raise ParseError
           else modify (set_fileformat v)
       | None => raise ParseError
       end) ;;
  run forM_ (meta_header h) _parse_header_line ;;
  forM_ ["FORMAT"; "INFO"] (fun field_type =>
    catch
      (do h <- get ;;
       do d <- liftR (match metadata h !! field_type with
                      | None => Raise KeyError
                      | Some (MetaDict d) => Ok (map fst d)
                      | Some (MetaList l) => Ok l
                      end) ;;
       forM_ d (_set_field_translation field_type))
      (fun e => match e with KeyError => true | _ => false end)
      (ret tt)).

(** [VcfHeader.__init__]: the result and the header as the constructor
    left it. *)
Definition VcfHeader_init (meta_header col_header : list string)
    : VcfHeader * result unit :=
  (run liftR (check_columns 0 essential_columns col_header) ;;
   run (if (8 <? length col_header)%nat then
          match col_header !! 8 with
          | Some c => if String.eqb c "FORMAT" then ret tt else raise HeaderError
          | None => raise IndexError
          end
        else ret tt) ;;
   _parse_metadata) (blank_header meta_header col_header).
End header_construction.

(** ** [VcfRecord] *)

(** The value of [QUAL]: [float(qual)] when the token converts, of which
    only the token it was read from is kept, and the token itself when the
    conversion raises [ValueError]. *)
Inductive qual_value : Type :=
| QFloat (token : string)
| QStr (token : string).

(** The attributes of a record that the embedded methods read or write.
    A cache cell that holds [None] in Python is [None] here. *)
Record VcfRecord : Type := mkVcfRecord {
  cols : list string;
  CHROM : string;
  POS : Z;
  ID : string;
  REF : string;
  ALT : string;
  QUAL : qual_value;
  FILTER : string;
  INFO : string;
  FORMAT : option string;
  GT_FORMAT : option (list string);
  __SPAN : option Z;
  __INFO_FIELDS : option (list (string * pyval));
  __CALLS : option (gmap string string);
  __ALLELES : option (list string);
  __DECOMPOSED_ALLELES : option (list AltAllele.t);
  _SAMPLE_GTS : gmap string (gmap string string);
  _got_gts : bool;
  _vep_allele : list (string * nat);
}.

(** Attribute assignment. *)
Definition set_cols (v : list string) (r : VcfRecord) : VcfRecord :=
  mkVcfRecord v (CHROM r) (POS r) (ID r) (REF r) (ALT r) (QUAL r) (FILTER r)
    (INFO r) (FORMAT r) (GT_FORMAT r) (__SPAN r) (__INFO_FIELDS r)
    (__CALLS r) (__ALLELES r) (__DECOMPOSED_ALLELES r) (_SAMPLE_GTS r)
    (_got_gts r) (_vep_allele r).
Definition set_INFO (v : string) (r : VcfRecord) : VcfRecord :=
  mkVcfRecord (cols r) (CHROM r) (POS r) (ID r) (REF r) (ALT r) (QUAL r)
    (FILTER r) v (FORMAT r) (GT_FORMAT r) (__SPAN r) (__INFO_FIELDS r)
    (__CALLS r) (__ALLELES r) (__DECOMPOSED_ALLELES r) (_SAMPLE_GTS r)
    (_got_gts r) (_vep_allele r).
Definition set___SPAN (v : option Z) (r : VcfRecord) : VcfRecord :=
  mkVcfRecord (cols r) (CHROM r) (POS r) (ID r) (REF r) (ALT r) (QUAL r)
    (FILTER r) (INFO r) (FORMAT r) (GT_FORMAT r) v (__INFO_FIELDS r)
    (__CALLS r) (__ALLELES r) (__DECOMPOSED_ALLELES r) (_SAMPLE_GTS r)
    (_got_gts r) (_vep_allele r).
Definition set___INFO_FIELDS (v : option (list (string * pyval))) (r : VcfRecord) : VcfRecord :=
  mkVcfRecord (cols r) (CHROM r) (POS r) (ID r) (REF r) (ALT r) (QUAL r)
    (FILTER r) (INFO r) (FORMAT r) (GT_FORMAT r) (__SPAN r) v (__CALLS r)
    (__ALLELES r) (__DECOMPOSED_ALLELES r) (_SAMPLE_GTS r) (_got_gts r)
    (_vep_allele r).
Definition set___CALLS (v : option (gmap string string)) (r : VcfRecord) : VcfRecord :=
  mkVcfRecord (cols r) (CHROM r) (POS r) (ID r) (REF r) (ALT r) (QUAL r)
    (FILTER r) (INFO r) (FORMAT r) (GT_FORMAT r) (__SPAN r)
    (__INFO_FIELDS r) v (__ALLELES r) (__DECOMPOSED_ALLELES r)
    (_SAMPLE_GTS r) (_got_gts r) (_vep_allele r).
Definition set___ALLELES (v : option (list string)) (r : VcfRecord) : VcfRecord :=
  mkVcfRecord (cols r) (CHROM r) (POS r) (ID r) (REF r) (ALT r) (QUAL r)
    (FILTER r) (INFO r) (FORMAT r) (GT_FORMAT r) (__SPAN r)
    (__INFO_FIELDS r) (__CALLS r) v (__DECOMPOSED_ALLELES r) (_SAMPLE_GTS r)
    (_got_gts r) (_vep_allele r).
Definition set___DECOMPOSED_ALLELES (v : option (list AltAllele.t)) (r : VcfRecord) : VcfRecord :=
  mkVcfRecord (cols r) (CHROM r) (POS r) (ID r) (REF r) (ALT r) (QUAL r)
    (FILTER r) (INFO r) (FORMAT r) (GT_FORMAT r) (__SPAN r)
    (__INFO_FIELDS r) (__CALLS r) (__ALLELES r) v (_SAMPLE_GTS r)
    (_got_gts r) (_vep_allele r).
Definition set__SAMPLE_GTS (v : gmap string (gmap string string)) (r : VcfRecord) : VcfRecord :=
  mkVcfRecord (cols r) (CHROM r) (POS r) (ID r) (REF r) (ALT r) (QUAL r)
    (FILTER r) (INFO r) (FORMAT r) (GT_FORMAT r) (__SPAN r)
    (__INFO_FIELDS r) (__CALLS r) (__ALLELES r) (__DECOMPOSED_ALLELES r) v
    (_got_gts r) (_vep_allele r).
Definition set__got_gts (v : bool) (r : VcfRecord) : VcfRecord :=
  mkVcfRecord (cols r) (CHROM r) (POS r) (ID r) (REF r) (ALT r) (QUAL r)
    (FILTER r) (INFO r) (FORMAT r) (GT_FORMAT r) (__SPAN r)
    (__INFO_FIELDS r) (__CALLS r) (__ALLELES r) (__DECOMPOSED_ALLELES r)
    (_SAMPLE_GTS r) v (_vep_allele r).
Definition set__vep_allele (v : list (string * nat)) (r : VcfRecord) : VcfRecord :=
  mkVcfRecord (cols r) (CHROM r) (POS r) (ID r) (REF r) (ALT r) (QUAL r)
    (FILTER r) (INFO r) (FORMAT r) (GT_FORMAT r) (__SPAN r)
    (__INFO_FIELDS r) (__CALLS r) (__ALLELES r) (__DECOMPOSED_ALLELES r)
    (_SAMPLE_GTS r) (_got_gts r) v.

(** [VcfRecord.__init__]; the header of the caller is not stored in the
    record but handed to the methods that consult it. *)
Definition VcfRecord_init (line : string) : result VcfRecord :=
  let cols := py_split_max TAB line 9 in
  match take 8 cols with
  | [chrom; pos; id; ref; alt; qual; filter; info] =>
      match py_int pos with
      | None => Raise ValueError
      | Some p =>
          Ok {| cols := cols;
                CHROM := chrom; POS := p; ID := id; REF := ref; ALT := alt;
                QUAL := if py_float_accepts qual then QFloat qual
                        else QStr qual;
                FILTER := filter; INFO := info;
                FORMAT := cols !! 8;
                GT_FORMAT := py_split ":" <$> cols !! 8;
                __SPAN := None;
                __INFO_FIELDS := None;
                __CALLS := None;
                __ALLELES := None;
                __DECOMPOSED_ALLELES := None;
                _SAMPLE_GTS := ∅;
                _got_gts := false;
                _vep_allele := [] |}
      end
  | _ => Raise ParseError
  end.

(** [VcfRecord.__str__] *)
Definition __str__ (r : VcfRecord) : string := py_join (str1 TAB) (cols r).

(** The property [VcfRecord.ALLELES] *)
Definition ALLELES : M VcfRecord (list string) :=
  do r <- get ;;
  match __ALLELES r with
  | Some a => ret a
  | None =>
      let a := REF r :: py_split "," (ALT r) in
      run modify (set___ALLELES (Some a)) ;; ret a
  end.

(** The first loop of [_minimize_alleles]: identical last characters go
    while both strings are longer than one character. *)
Equations? strip_suffixes (ref alt : string) : string * string
  by wf (String.length ref) lt :=
  strip_suffixes ref alt
    with decide (1 < String.length ref ∧ 1 < String.length alt) => {
    | left _ with decide (str_last ref = str_last alt) => {
        | left _ := strip_suffixes (str_init ref) (str_init alt);
        | right _ := (ref, alt) };
    | right _ := (ref, alt) }.
Proof.
  assert (Hinit : forall s, 0 < String.length s ->
                            String.length (str_init s) < String.length s).
  { induction s as [|c s' IH]; simpl; intros; [lia|].
    destruct s'; simpl in *; [lia|]. specialize (IH ltac:(lia)). lia. }
  apply Hinit. lia.
Qed.

(** The second loop: identical first characters go, and the position moves
    on by one for each. *)
Equations? strip_prefixes (ref alt : string) (pos : Z) : string * string * Z
  by wf (String.length ref) lt :=
  strip_prefixes ref alt pos
    with decide (1 < String.length ref ∧ 1 < String.length alt) => {
    | left _ with decide (str_first ref = str_first alt) => {
        | left _ := strip_prefixes (str_tail ref) (str_tail alt) (pos + 1);
        | right _ := (ref, alt, pos) };
    | right _ := (ref, alt, pos) }.
Proof.
  destruct ref; simpl in *; lia.
Qed.

(** The body of the loop of [_minimize_alleles] for one ALT allele. *)
Definition minimize (chrom : string) (pos : Z) (ref alt : string) : AltAllele.t :=
  let '(ref1, alt1) := strip_suffixes ref alt in
  let '(ref2, alt2, pos2) := strip_prefixes ref1 alt1 pos in
  AltAllele.mk chrom pos2 ref2 alt2.

(** [VcfRecord._minimize_alleles] *)
Definition _minimize_alleles : M VcfRecord unit :=
  run modify (set___DECOMPOSED_ALLELES (Some [])) ;;
  do alleles <- ALLELES ;;
  forM_ (drop 1 alleles) (fun alt =>
    do alleles <- ALLELES ;;
    do ref <- liftR (match alleles with
                     | ref :: _ => Ok ref
                     | [] => Raise IndexError
                     end) ;;
    do r <- get ;;
    let a := minimize (CHROM r) (POS r) ref alt in
    modify (set___DECOMPOSED_ALLELES
              (Some (default [] (__DECOMPOSED_ALLELES r) ++ [a])))).

(** The property [VcfRecord.DECOMPOSED_ALLELES] *)
Definition DECOMPOSED_ALLELES : M VcfRecord (list AltAllele.t) :=
  do r <- get ;;
  run (match __DECOMPOSED_ALLELES r with
       | None => _minimize_alleles
       | Some _ => ret tt
       end) ;;
  gets (fun r => default [] (__DECOMPOSED_ALLELES r)).

(** One token of the INFO column: [key=value], or a bare key for a flag. *)
Definition info_item (i : string) : string * pyval :=
  match py_split_max "=" i 1 with
  | [f; v] => (f, VAtom (AStr v))
  | _ => (i, VAtom (ABool true))
  end.

(** The property [VcfRecord.INFO_FIELDS] *)
Definition INFO_FIELDS : M VcfRecord (list (string * pyval)) :=
  do r <- get ;;
  match __INFO_FIELDS r with
  | Some d => ret d
  | None =>
      let d := od_update [] (map info_item (py_split ";" (INFO r))) in
      run modify (set___INFO_FIELDS (Some d)) ;; ret d
  end.

(** [self.INFO_FIELDS[k] = v] *)
Definition INFO_FIELDS_setitem (k : string) (v : pyval) : M VcfRecord unit :=
  do d <- INFO_FIELDS ;;
  modify (set___INFO_FIELDS (Some (od_set k v d))).

(** [self.INFO_FIELDS[k]] *)
Definition INFO_FIELDS_getitem (k : string) : M VcfRecord pyval :=
  do d <- INFO_FIELDS ;;
  match od_get k d with
  | Some v => ret v
  | None => raise KeyError
  end.

(** [old += sep + values] on an INFO value: [sep + values] needs a string;
    a string is extended, a list takes the characters one by one, anything
    else cannot be added to. *)
Definition iadd_str (old : pyval) (sep : string) (values : pyval) : result pyval :=
  match values with
  | VAtom (AStr s) =>
      match old with
      | VAtom (AStr o) => Ok (VAtom (AStr (o +:+ sep +:+ s)))
      | VList l => Ok (VList (l ++ map (fun c => AStr (str1 c)) (chars (sep +:+ s))))
      | VAtom _ => Raise TypeError
      end
  | _ => Raise TypeError
  end.

(** [VcfRecord._append_to_existing_info] *)
Definition _append_to_existing_info (h : VcfHeader) (field : string)
    (values : pyval) : M VcfRecord unit :=
  let merge_by_position : M VcfRecord unit :=
    do cur <- INFO_FIELDS_getitem field ;;
    do old <- liftR (match cur with
                     | VAtom (AStr s) => Ok (py_split "," s)
                     | _ => Raise AttributeError
                     end) ;;
    let new := py_split "," (py_str values) in
    if negb (length old =? length new)%nat then raise ParseError
    else INFO_FIELDS_setitem field
           (VAtom (AStr (py_join ","
              (map (fun x => py_join "|" [x.1; x.2]) (zip_list old new))))) in
  let append_with (sep : string) : M VcfRecord unit :=
    do cur <- INFO_FIELDS_getitem field ;;
    do v <- liftR (iadd_str cur sep values) ;;
    INFO_FIELDS_setitem field v in
  do declared <- liftR (match metadata h !! "INFO" with
                        | None => Raise KeyError
                        | Some (MetaDict d) => Ok (od_mem field d)
                        | Some (MetaList l) => Ok (str_in field l)
                        end) ;;
  if declared : bool then
    do decls <- liftR (metadata_lookup h "INFO" field) ;;
    do last <- liftR (match List.last (map Some decls) None with
                      | Some f => Ok f
                      | None => Raise IndexError
                      end) ;;
    do ty <- liftR (getitem last "Type") ;;
    if String.eqb ty "Flag" then INFO_FIELDS_setitem field (VAtom (ABool true))
    else
      do number <- liftR (getitem last "Number") ;;
      if String.eqb number "." then append_with ","
      else if String.eqb number "1" then append_with "|"
      else merge_by_position
  else merge_by_position.

(** What [_rewrite_info_string] appends for one item: the two [if]
    statements of the loop body follow each other, so a boolean value
    contributes the bare key and then falls into the [else] of the second. *)
Definition info_tokens (fv : string * pyval) : list string :=
  (if is_bool fv.2 then [fv.1] else [])
  ++ match fv.2 with
     | VList l => [fv.1 +:+ "=" +:+ py_join "," (map py_str_atom l)]
     | v => [fv.1 +:+ "=" +:+ py_str v]
     end.

(** [VcfRecord._rewrite_info_string] *)
Definition _rewrite_info_string : M VcfRecord unit :=
  do d <- INFO_FIELDS ;;
  let info := py_join ";" (flat_map info_tokens d) in
  run modify (set_INFO info) ;;
  do r <- get ;;
  if (7 <? length (cols r))%nat then modify (set_cols (<[7 := info]> (cols r)))
  else raise IndexError.

(** [VcfRecord.add_info_fields] *)
Definition add_info_fields (h : VcfHeader) (info : gmap string pyval)
    (append_existing : bool) : M VcfRecord unit :=
  run forM_ (sorted_items info) (fun kv =>
        do existing <- (if append_existing
                        then do d <- INFO_FIELDS ;; ret (od_mem kv.1 d)
                        else ret false) ;;
        if existing : bool then _append_to_existing_info h kv.1 kv.2
        else INFO_FIELDS_setitem kv.1 kv.2) ;;
  _rewrite_info_string.

(** The property [VcfRecord.SPAN] *)
Definition SPAN : M VcfRecord Z :=
  do r <- get ;;
  match __SPAN r with
  | Some e => ret e
  | None =>
      do d <- INFO_FIELDS ;;
      do e <- (if od_mem "END" d
               then do v <- INFO_FIELDS_getitem "END" ;; liftR (py_int_val v)
               else ret (POS r + Z.of_nat (String.length (REF r)) - 1)%Z) ;;
      run modify (set___SPAN (Some e)) ;; ret e
  end.

(** [l.pop()]: the list without its last element, and that element. *)
Definition list_pop {A} (l : list A) : option (list A * A) :=
  match rev l with
  | [] => None
  | x :: l' => Some (rev l', x)
  end.

(** The property [VcfRecord.CALLS].  The first access splits the last
    column, which holds all sample columns in one piece, in place. *)
Definition CALLS (h : VcfHeader) : M VcfRecord (gmap string string) :=
  do r <- get ;;
  match __CALLS r with
  | Some c => ret c
  | None =>
      let truthy := match sample_cols h with
                    | Some sc => negb (size sc =? 0)%nat
                    | None => false
                    end in
      if truthy then
        do popped <- liftR (match list_pop (cols r) with
                            | Some p => Ok p
                            | None => Raise IndexError
                            end) ;;
        (* [calls = self.cols.pop()] and [self.cols.extend(calls.split(TAB))] *)
        run modify (set_cols (popped.1 ++ py_split TAB popped.2)) ;;
        do names <- liftR (match samples h with
                           | Some l => Ok l
                           | None => Raise TypeError
                           end) ;;
        do items <- mapM (fun s =>
                      do i <- liftR (getitem (default ∅ (sample_cols h)) s) ;;
                      do r <- get ;;
                      match cols r !! i with
                      | Some c => ret (s, c)
                      | None => raise IndexError
                      end) names ;;
        let c := dict_of items in
        run modify (set___CALLS (Some c)) ;; ret c
      else
        run modify (set___CALLS (Some ∅)) ;; ret ∅
  end.

(** [VcfRecord.get_sample_call] *)
Definition get_sample_call (h : VcfHeader) (sample : string)
    : M VcfRecord (gmap string string) :=
  do r <- get ;;
  match _SAMPLE_GTS r !! sample with
  | Some d => ret d
  | None =>
      do calls <- CALLS h ;;
      match calls !! sample with
      | Some call =>
          do fmt <- liftR (match GT_FORMAT r with
                           | Some f => Ok f
                           | None => Raise TypeError
                           end) ;;
          let d := dict_of (zip_list fmt (py_split ":" call)) in
          run modify (fun r => set__SAMPLE_GTS (<[sample := d]> (_SAMPLE_GTS r)) r) ;;
          do n <- liftR (match samples h with
                         | Some l => Ok (length l)
                         | None => Raise TypeError
                         end) ;;
          do r' <- get ;;
          run (if (size (_SAMPLE_GTS r') =? n)%nat then modify (set__got_gts true)
               else ret tt) ;;
          ret d
      | None => raise ParseError
      end
  end.

(** [VcfRecord.sample_calls] *)
Definition sample_calls (h : VcfHeader)
    : M VcfRecord (gmap string (gmap string string)) :=
  do r <- get ;;
  if _got_gts r then ret (_SAMPLE_GTS r)
  else
    run modify (set__got_gts true) ;;
    do names <- liftR (match samples h with
                       | Some l => Ok l
                       | None => Raise TypeError
                       end) ;;
    do items <- mapM (fun s => do d <- get_sample_call h s ;; ret (s, d)) names ;;
    ret (dict_of items).

(** *** Parsed genotype fields *)

(** A converted value: an integer, a string, or a float, of which only the
    token it was read from is kept. *)
Inductive scalar : Type :=
| SInt (n : Z)
| SStr (s : string)
| SFloat (token : string).

(** An entry of the list that [_get_parsed_gt_fields] returns: a tuple or
    a single value, [None] written as [None]. *)
Inductive parsed : Type :=
| PTuple (l : list (option scalar))
| PValue (v : option scalar).

Section parsed_gt_fields.
(** Whether [float(s)] accepts the token [s]; the grammar of float
    literals is not embedded. *)
Variable float_accepts : string -> bool.

(** [f[0](x)] for a string [x]: the call of the class, or of [None]. *)
Definition convert (c : option ctype) (x : string) : result scalar :=
  match c with
  | None => Raise TypeError
  | Some Cstr => Ok (SStr x)
  | Some Cint => match py_int x with
                 | Some n => Ok (SInt n)
                 | None => Raise ValueError
                 end
  | Some Cfloat => if float_accepts x then Ok (SFloat x) else Raise ValueError
  end.

(** [f[0](None)] *)
Definition convert_None (c : option ctype) : result scalar :=
  match c with
  | Some Cstr => Ok (SStr "None")
  | _ => Raise TypeError
  end.

(** The pattern of [_gt_splitter]: a slash or a bar. *)
Definition is_gt_sep (c : ascii) : bool := Ascii.eqb c "/" || Ascii.eqb c "|".

(** [_gt_splitter.split(val)]: the tokens of a GT value. *)
Definition gt_tokens (val : string) : list string := re_split_class is_gt_sep val.

(** The branch of the loop for the field [GT] and one value.  The name
    in the [raise] statement is spelt with three r's and is bound
    nowhere in the module, so evaluating it raises [NameError]. *)
Definition parse_GT (val : option string) : result parsed :=
  match val with
  | None => Raise TypeError
  | Some val =>
      let alleles := gt_tokens val in
      match mapR (fun x => match py_int x with
                           | Some n => Ok n
                           | None => Raise ValueError
                           end) alleles with
      | Ok ns => Ok (PTuple (map (fun n => Some (SInt n)) ns))
      | Raise _ =>
          let nocall : list (option scalar) :=
            map (fun _ => None) (filter (fun x => String.eqb x "." = true) alleles) in
          match nocall with
          | [] => Raise NameError
          | _ => Ok (PTuple nocall)
          end
      end
  end.

(** The branch for every other field. *)
Definition parse_other (f : option ctype * bool) (val : option string)
    : result parsed :=
  let attempt : result parsed :=
    if f.2 then
      match val with
      | None => Raise AttributeError
      | Some v => doR l <- mapR (convert f.1) (py_split "," v) ;;
                  Ok (PTuple (map Some l))
      end
    else
      match val with
      | None => doR x <- convert_None f.1 ;; Ok (PValue (Some x))
      | Some v => doR x <- convert f.1 v ;; Ok (PValue (Some x))
      end in
  match attempt with
  | Ok p => Ok p
  | Raise e =>
      match e with
      | ValueError | TypeError | AttributeError =>
          let missing := match val with
                         | None => true
                         | Some v => String.eqb v "."
                         end in
          if missing then Ok (if f.2 then PTuple [None] else PValue None)
          else Raise e
      | _ => Raise e
      end
  end.

(** [VcfRecord._get_parsed_gt_fields]: it reads nothing of the record
    but the coordinate for its messages, and may teach the header a
    translation from [COMMON_FORMAT]. *)
Definition _get_parsed_gt_fields (field : string) (values : list (option string))
    : M VcfHeader (list parsed) :=
  do h <- get ;;
  do f <- match _format_field_translater h !! field with
          | Some f => ret f
          | None =>
              match od_get field COMMON_FORMAT with
              | Some f =>
                  run modify (fun h => set__format_field_translater
                                (<[field := f]> (_format_field_translater h)) h) ;;
                  ret f
              | None => raise ParseError
              end
          end ;;
  liftR (mapR (fun val => if String.eqb field "GT" then parse_GT val
                          else parse_other f val) values).
End parsed_gt_fields.

(** *** Consequence annotations *)

(** The longest prefix of [s] whose characters satisfy [p], and the rest. *)
Fixpoint span (p : ascii -> bool) (s : string) : string * string :=
  match s with
  | EmptyString => (EmptyString, EmptyString)
  | String c s' =>
      if p c then let '(a, b) := span p s' in (String c a, b)
      else (EmptyString, s)
  end.

Inductive sv_state : Type := NeedWord | InWord.

(** What follows the opening bracket in [_svalt_re]: a word, then any
    number of colon-word pairs, then the closing bracket.  No character of
    a word is a colon or a bracket, so the match never backtracks. *)
Fixpoint sv_scan (st : sv_state) (s : string) : bool :=
  match s with
  | EmptyString => false
  | String c s' =>
      match st with
      | NeedWord => if py_isword c then sv_scan InWord s' else false
      | InWord =>
          if py_isword c then sv_scan InWord s'
          else if Ascii.eqb c ":" then sv_scan NeedWord s'
          else Ascii.eqb c ">"
      end
  end.

(** [_svalt_re.match(alt)]: group 1 when the pattern matches at the start. *)
Definition _svalt_re_match (alt : string) : option string :=
  match alt with
  | String "<" rest => if sv_scan NeedWord rest then Some (span py_isword rest).1
                       else None
  | _ => None
  end.

Definition is_base (c : ascii) : bool :=
  Ascii.eqb c "A" || Ascii.eqb c "C" || Ascii.eqb c "T" || Ascii.eqb c "G"
  || Ascii.eqb c "N".
Definition is_bracket (c : ascii) : bool := Ascii.eqb c "[" || Ascii.eqb c "]".
Definition str_empty (s : string) : bool :=
  match s with EmptyString => true | _ => false end.

(** [_bnd_re.match(alt)]: group 1 when the whole allele is bases, a
    bracket, a word, a colon, digits, a bracket and bases; the dollar also
    accepts one newline before the end. *)
Definition _bnd_re_match (alt : string) : option string :=
  let '(bases, r1) := span is_base alt in
  match r1 with
  | String b r2 =>
      let '(w, r3) := span py_isword r2 in
      match r3 with
      | String ":" r4 =>
          let '(d, r5) := span is_decimal r4 in
          match r5 with
          | String b' r6 =>
              let r7 := (span is_base r6).2 in
              if is_bracket b && negb (str_empty w) && negb (str_empty d)
                 && is_bracket b'
                 && (str_empty r7 || String.eqb r7 (str1 NEWLINE))
              then Some (bases +:+ str1 b +:+ w)
              else None
          | EmptyString => None
          end
      | _ => None
      end
  | EmptyString => None
  end.

(** The local flags of [_vep_to_alt]. *)
Record vep_flags : Type := mk_vep_flags {
  is_sv : bool; is_snv : bool; is_indel : bool; is_mnv : bool; asterisk : bool
}.

(** The first loop of [_vep_to_alt], over the ALT alleles with their
    index: the cache as the loop leaves it, and either the index returned
    from inside the loop or the flags at its end. *)
Fixpoint classify_alts (allele ref : string) (alts : list (nat * string))
    (fl : vep_flags) (cache : list (string * nat))
    : list (string * nat) * (nat + vep_flags) :=
  match alts with
  | [] => (cache, inr fl)
  | (i, alt) :: alts' =>
      if String.eqb alt "*" then
        classify_alts allele ref alts'
          (mk_vep_flags (is_sv fl) (is_snv fl) (is_indel fl) (is_mnv fl) true)
          (od_set alt i cache)
      else
        let matches_sv := _svalt_re_match alt in
        let matches_bnd := _bnd_re_match alt in
        match matches_sv, matches_bnd with
        | None, None =>
            let la := String.length alt in
            let lr := String.length ref in
            let fl' :=
              if (la =? 1)%nat && (lr =? 1)%nat then
                if negb (String.eqb alt ref)
                then mk_vep_flags (is_sv fl) true (is_indel fl) (is_mnv fl) (asterisk fl)
                else fl
              else if (la =? lr)%nat
                then mk_vep_flags (is_sv fl) (is_snv fl) (is_indel fl) true (asterisk fl)
              else mk_vep_flags (is_sv fl) (is_snv fl) true (is_mnv fl) (asterisk fl) in
            if is_indel fl'
               && ((String.eqb allele "deletion" && (la <? lr)%nat)
                   || (String.eqb allele "insertion" && (lr <? la)%nat)
                   || (String.eqb allele "duplication" && (lr <? la)%nat))
            then (od_set allele i cache, inl i)
            else classify_alts allele ref alts' fl' (od_set alt i cache)
        | _, _ =>
            let sv_type :=
              if String.eqb allele "-" then "-"
              else match matches_sv with
                   | Some g => g
                   | None => default "" matches_bnd
                   end in
            let key :=
              if String.eqb sv_type "DUP" then "duplication"
              else if String.eqb sv_type "INS" then "insertion"
              else if String.eqb sv_type "DEL" then "deletion"
              else sv_type in
            classify_alts allele ref alts'
              (mk_vep_flags true (is_snv fl) (is_indel fl) (is_mnv fl) (asterisk fl))
              (od_set key i cache)
        end
  end.

(** The loop that looks for an ALT allele, other than the asterisk, whose
    first character differs from that of REF. *)
Definition first_base_differs (ref : string) (alts : list string) : bool :=
  existsb (fun alt => negb (String.eqb alt "*")
                      && negb (String.eqb (str_take1 alt) (str_take1 ref))) alts.

(** The dictionary [trimmed] and the list [pop] built from the cache. *)
Definition trim_cache (cache : list (string * nat))
    : list (string * nat) * list string :=
  fold_left (fun acc kv =>
               if negb (String.eqb kv.1 "*") then
                 let alt' := if (1 <? String.length kv.1)%nat then str_tail kv.1
                             else "-" in
                 (od_set alt' kv.2 acc.1, acc.2 ++ [kv.1])
               else acc)
            cache ([], []).

(** [VcfRecord._vep_to_alt] *)
Definition _vep_to_alt (csq : list (string * string)) : M VcfRecord nat :=
  do allele <- liftR (match od_get "Allele" csq with
                      | Some a => Ok a
                      | None => Raise KeyError
                      end) ;;
  do r <- get ;;
  match od_get allele (_vep_allele r) with
  | Some i => ret i
  | None =>
      do alleles <- ALLELES ;;
      do ref <- liftR (match alleles with
                       | ref :: _ => Ok ref
                       | [] => Raise IndexError
                       end) ;;
      let alts := drop 1 alleles in
      let '(cache, outcome) :=
        classify_alts allele ref (zip_list (seq 1 (length alts)) alts)
          (mk_vep_flags false false false false false) (_vep_allele r) in
      run modify (set__vep_allele cache) ;;
      match outcome with
      | inl i => ret i
      | inr fl =>
          run (if is_sv fl then
                 if is_snv fl || is_mnv fl || is_indel fl then raise ParseError
                 else ret tt
               else if negb (is_snv fl)
                       && (is_indel fl || (is_mnv fl && asterisk fl))
                       && negb (first_base_differs ref alts)
               then
                 let '(trimmed, pop) := trim_cache cache in
                 modify (set__vep_allele
                           (od_update (fold_left (fun c p => od_pop p c) pop cache)
                                      trimmed))
               else ret tt) ;;
          do r' <- get ;;
          match od_get allele (_vep_allele r') with
          | Some i => ret i
          | None => raise KeyError
          end
      end
  end.

(** The index that the property [CSQ] stores under [alt_index] for one
    annotation [d]. *)
Definition csq_alt_index (d : list (string * string)) : M VcfRecord Z :=
  do alleles <- ALLELES ;;
  if (length alleles =? 2)%nat then ret 1%Z
  else match od_get "ALLELE_NUM" d with
       | Some n => liftR (py_int_val (VAtom (AStr n)))
       | None => do i <- _vep_to_alt d ;; ret (Z.of_nat i)
       end.

(** *** Phasing *)

(** A reference to a record inside a state [S]: [in_cis_with] works on two
    records that may be one and the same object. *)
Record objref (S : Type) : Type := mk_objref {
  deref : S -> VcfRecord;
  assign : VcfRecord -> S -> S
}.
Arguments deref {S} _ _.
Arguments assign {S} _ _ _.

(** Run a method on the record behind a reference. *)
Definition on {S A} (o : objref S) (m : M VcfRecord A) : M S A :=
  fun s => let '(r', a) := m (deref o s) in (assign o r' s, a).

(** Two distinct records, and one record referred to twice. *)
Definition fst_ref : objref (VcfRecord * VcfRecord) :=
  mk_objref _ fst (fun r s => (r, s.2)).
Definition snd_ref : objref (VcfRecord * VcfRecord) :=
  mk_objref _ snd (fun r s => (s.1, r)).
Definition self_ref : objref VcfRecord := mk_objref _ id (fun r _ => r).

(** [k not in r.GT_FORMAT] *)
Definition not_in_GT_FORMAT (k : string) (r : VcfRecord) : result bool :=
  match GT_FORMAT r with
  | Some f => Ok (negb (str_in k f))
  | None => Raise TypeError
  end.

(** [r.sample_calls()[sample][k]] *)
Definition sample_field (h : VcfHeader) (sample k : string) : M VcfRecord string :=
  do calls <- sample_calls h ;;
  do call <- liftR (getitem calls sample) ;;
  liftR (getitem call k).

(** The condition of the first two [if] statements of [in_cis_with]:
    [k not in self.GT_FORMAT or k not in other.GT_FORMAT]. *)
Definition lacks_field {S} (self other : objref S) (k : string) : M S bool :=
  do a <- on self (do r <- get ;; liftR (not_in_GT_FORMAT k r)) ;;
  if a : bool then ret true
  else on other (do r <- get ;; liftR (not_in_GT_FORMAT k r)).

(** The first [try] statement of [in_cis_with]: the four values, or
    nothing when a [KeyError] was caught. *)
Definition phase_fields {S} (self other : objref S) (h h' : VcfHeader)
    (sample : string) : M S (option (string * string * string * string)) :=
  catch (do pid1 <- on self (sample_field h sample "PID") ;;
         do pid2 <- on other (sample_field h' sample "PID") ;;
         do pgt1 <- on self (sample_field h sample "PGT") ;;
         do pgt2 <- on other (sample_field h' sample "PGT") ;;
         ret (Some (pid1, pid2, pgt1, pgt2)))
        (fun e => match e with KeyError => true | _ => false end)
        (ret None).

(** [VcfRecord.in_cis_with]; [h] and [h'] are the headers of the two
    records. *)
Definition in_cis_with {S} (self other : objref S) (h h' : VcfHeader)
    (sample : string) (allele other_allele : Z) : M S bool :=
  do no_pid <- lacks_field self other "PID" ;;
  if no_pid : bool then ret false else
  do no_pgt <- lacks_field self other "PGT" ;;
  if no_pgt : bool then ret false else
  do fields <- phase_fields self other h h' sample ;;
  match fields with
  | None => ret false
  | Some (pid1, pid2, pgt1, pgt2) =>
      if negb (String.eqb pid1 pid2) then ret false
      else if String.eqb pgt1 "." || String.eqb pgt2 "." then ret false
      else
        match list_index (py_str_int allele) (py_split "|" pgt1) with
        | Raise _ => ret false
        | Ok phase1 =>
            match list_index (py_str_int other_allele) (py_split "|" pgt2) with
            | Raise _ => ret false
            | Ok phase2 => ret (phase1 =? phase2)%nat
            end
        end
  end.

(** ** The spec's wording of two properties, for comparison with the code *)

(** A REF/ALT pair on which neither loop of the minimization can strip a
    character. *)
Definition minimal (ref alt : string) : Prop :=
  ~ (1 < String.length ref /\ 1 < String.length alt /\ str_last ref = str_last alt)
  /\ ~ (1 < String.length ref /\ 1 < String.length alt
        /\ str_first ref = str_first alt).

(** The spec's rule for the multi-valued mark: multi-valued unless the
    Number is exactly 1 or the field is a flag. *)
Definition spec_multi_valued (number type : string) : bool :=
  negb (String.eqb number "1") && negb (String.eqb type "Flag").

(** A Number that [str.isdigit] accepts and [int] rejects: a string of
    digits among which a superscript two, three or one stands. *)
Definition unconvertible_digits (number : string) : Prop :=
  py_isdigit number = true /\ py_int number = None.

(** The one-character string that holds a superscript two. *)
Definition superscript_two : string := str1 (ascii_of_nat 178).

(** The spec's missing-value marker: the single character that stands
    for a missing value in the text of a record, a dot (the ID that
    [add_ids] replaces, the PGT that [in_cis_with] rejects). *)
Definition spec_missing_marker : string := ".".

(** The rule the code follows: not multi-valued exactly when the Number is
    a string of decimal digits whose value is at most 1. *)
Definition few_digits (number : string) : Prop :=
  exists n : Z, py_isdigit number = true /\ py_int number = Some n /\ (n <= 1)%Z.

(** ** Invariants of methods *)

(** A method preserves [P] when [P] holds of the state it leaves, whether
    it returns or raises. *)
Definition preserves {S A} (P : S -> Prop) (m : M S A) : Prop :=
  forall s, P s -> P (m s).1.

(** The record renders as [line]. *)
Definition renders_as (line : string) (r : VcfRecord) : Prop := __str__ r = line.

(** The cache cell of [SPAN] holds [e]. *)
Definition span_cell_is (e : Z) (r : VcfRecord) : Prop := __SPAN r = Some e.

(** ** Inputs of the worked examples *)

Definition C1_line : string :=
  py_join (str1 TAB) ["1"; "100"; "."; "ATG"; "ATGTG"; "."; "."; "."].

(** ** Lazy accessors

    The properties and methods of a record that decode on demand and
    memoize, as opposed to the mutation methods [add_ids] and
    [add_info_fields]. *)
Inductive access : Type :=
| Get_ALLELES
| Get_DECOMPOSED_ALLELES
| Get_INFO_FIELDS
| Get_SPAN
| Get_CALLS
| Call_sample_calls
| Call_get_sample_call (sample : string)
| Call_csq_alt_index (d : list (string * string))
| Call_in_cis_with (sample : string) (allele other_allele : Z).

(** The record after one access, whether the access returned or raised. *)
Definition after_access (h : VcfHeader) (a : access) (r : VcfRecord) : VcfRecord :=
  match a with
  | Get_ALLELES => (ALLELES r).1
  | Get_DECOMPOSED_ALLELES => (DECOMPOSED_ALLELES r).1
  | Get_INFO_FIELDS => (INFO_FIELDS r).1
  | Get_SPAN => (SPAN r).1
  | Get_CALLS => (CALLS h r).1
  | Call_sample_calls => (sample_calls h r).1
  | Call_get_sample_call s => (get_sample_call h s r).1
  | Call_csq_alt_index d => (csq_alt_index d r).1
  | Call_in_cis_with s a b => (in_cis_with self_ref self_ref h h s a b r).1
  end.

Definition after_accesses (h : VcfHeader) (l : list access) (r : VcfRecord)
    : VcfRecord :=
  fold_left (fun r a => after_access h a r) l r.

(** The header of a file with the columns [cols] and no metaheader line
    but the file format. *)
Definition plain_header (cols : list string) : VcfHeader :=
  (VcfHeader_init (fun _ => ret tt) ["##fileformat=VCFv4.2"] cols).1.

Definition C8_header : VcfHeader :=
  plain_header (essential_columns ++ ["FORMAT"; "S1"; "S2"]).
Definition C8_line : string :=
  py_join (str1 TAB)
    ["1"; "100"; "."; "A"; "G"; "."; "."; "DP=3"; "GT:PID:PGT";
     "0/1:100_A_G:0|1"; "0/0:.:."].

(** ** The structured INFO view and mutation *)

(** The mapping that [INFO_FIELDS] returns for a record: the cached one,
    or the one decoded from the INFO column. *)
Definition info_view (r : VcfRecord) : list (string * pyval) :=
  match __INFO_FIELDS r with
  | Some d => d
  | None => od_update [] (map info_item (py_split ";" (INFO r)))
  end.

(** The record after a series of calls of [add_info_fields], each with its
    mapping and its [append_existing] flag, whether they return or raise. *)
Definition after_mutations (h : VcfHeader)
    (calls : list (gmap string pyval * bool)) (r : VcfRecord) : VcfRecord :=
  fold_left (fun r c => (add_info_fields h c.1 c.2 r).1) calls r.

Definition C10_line : string :=
  py_join (str1 TAB) ["1"; "100"; "."; "ACGT"; "<DEL>"; "."; "."; "DP=3;END=150"].

Definition C6_line : string :=
  py_join (str1 TAB) ["1"; "100"; "."; "A"; "A,AT"; "."; "."; "CSQ=T|x"].

(** A first metaheader line that declares the file format. *)
Definition declares_fileformat (line : string) : bool :=
  py_startswith line "##fileformat=".

(** Column names that pass the checks of [VcfHeader.__init__]. *)
Definition valid_columns (cols : list string) : Prop :=
  take 8 cols = essential_columns
  /\ (8 < length cols -> cols !! 8 = Some "FORMAT").

(** ** The type registry *)

(** The registry that [_set_field_translation] writes for a field type. *)
Definition translater (field_type : string) (h : VcfHeader)
    : gmap string (option ctype * bool) :=
  if String.eqb field_type "INFO" then _info_field_translater h
  else _format_field_translater h.

(** The values of [Type] that the registry accepts. *)
Definition known_type (type : string) : Prop :=
  type = "String" \/ type = "Character" \/ type = "Float" \/ type = "Integer"
  \/ type = "Flag".

(** A header that declares one INFO field with the given Number and Type. *)
Definition header_declaring (field number type : string) : VcfHeader :=
  {| meta_header := []; col_header := essential_columns;
     samples := None; sample_cols := None;
     metadata :=
       {[ "INFO" := MetaDict
            [(field, [ <["Number" := number]>
                         (<["Type" := type]>
                            (<["Description" := "declared"]> ∅)) ])] ]};
     fileformat := Some "VCFv4.2";
     _info_field_translater := ∅;
     _format_field_translater := ∅ |}.

(** ** Genotype tokens *)

(** The number of tokens that are a dot. *)
Definition dots (tokens : list string) : nat :=
  length (filter (fun x => String.eqb x "." = true) tokens).

(** ** Inputs of the remaining examples *)

(** A record with the flag DB in INFO, and the mapping a caller adds. *)
Definition C2_line : string :=
  py_join (str1 TAB) ["1"; "100"; "."; "A"; "G"; "."; "."; "DB;DP=3"].
Definition C2_info : gmap string pyval := {[ "AC" := VList [AStr "3"; AStr "4"] ]}.

(** The INFO mapping that a reader decodes from an INFO column. *)
Definition decode_info (info : string) : list (string * pyval) :=
  od_update [] (map info_item (py_split ";" info)).

(** A record of a file without genotype columns. *)
Definition C4_sites_only_line : string :=
  py_join (str1 TAB) ["1"; "100"; "."; "A"; "G"; "."; "."; "DP=3"].

(** Two phased records of one sample, as in the spec's example. *)
Definition C4_header : VcfHeader :=
  plain_header (essential_columns ++ ["FORMAT"; "S1"]).
Definition C4_record (pos pgt : string) : string :=
  py_join (str1 TAB)
    ["1"; pos; "."; "A"; "G"; "."; "."; "DP=3"; "GT:PID:PGT";
     "0/1:100_A_G:" +:+ pgt].

(** ** Phasing on records that carry genotypes *)

(** The columns of a record once the piece with all sample columns is
    split, and the column of a sample. *)
Definition full_cols (r : VcfRecord) : list string :=
  match list_pop (cols r) with
  | Some (l, x) => l ++ py_split TAB x
  | None => []
  end.
Definition sample_column (h : VcfHeader) (r : VcfRecord) (s : string)
    : option string :=
  match sample_cols h with
  | Some sc => match sc !! s with
               | Some i => full_cols r !! i
               | None => None
               end
  | None => None
  end.

(** The header names at least one sample and the record has a column for
    every sample of the header. *)
Definition sample_columns_present (h : VcfHeader) (r : VcfRecord) : Prop :=
  exists names,
    samples h = Some names /\ names <> []
    /\ forall s, s ∈ names -> is_Some (sample_column h r s).

(** A record with a FORMAT column and all sample columns that has not
    decoded its sample columns yet. *)
Definition genotyped (h : VcfHeader) (r : VcfRecord) : Prop :=
  sample_columns_present h r
  /\ is_Some (GT_FORMAT r)
  /\ __CALLS r = None /\ _got_gts r = false /\ _SAMPLE_GTS r = ∅.

(** The dictionary that [get_sample_call] builds for one sample column. *)
Definition call_dict (fmt : list string) (call : string) : gmap string string :=
  dict_of (zip_list fmt (py_split ":" call)).

(** What [sample_calls] returns for such a record. *)
Definition sample_dicts (h : VcfHeader) (r : VcfRecord)
    : gmap string (gmap string string) :=
  dict_of (map (fun s => (s, call_dict (default [] (GT_FORMAT r))
                                       (default "" (sample_column h r s))))
               (default [] (samples h))).

(** The decision of [in_cis_with] as a function of the genotype
    dictionaries of the sample in the two records: the phase-ids agree,
    no phase-genotype is a dot, and both alleles are found at the same
    first position of their phase-genotype. *)
Definition phased_together (d1 d2 : option (gmap string string))
    (allele other_allele : Z) : bool :=
  match d1 ≫= (.!! "PID"), d2 ≫= (.!! "PID"),
        d1 ≫= (.!! "PGT"), d2 ≫= (.!! "PGT") with
  | Some pid1, Some pid2, Some pgt1, Some pgt2 =>
      String.eqb pid1 pid2
      && negb (String.eqb pgt1 ".") && negb (String.eqb pgt2 ".")
      && match list_index (py_str_int allele) (py_split "|" pgt1),
               list_index (py_str_int other_allele) (py_split "|" pgt2) with
         | Ok phase1, Ok phase2 => (phase1 =? phase2)%nat
         | _, _ => false
         end
  | _, _, _, _ => false
  end.

(** Both FORMAT columns name the field. *)
Definition both_have (k : string) (r1 r2 : VcfRecord) : bool :=
  str_in k (default [] (GT_FORMAT r1)) && str_in k (default [] (GT_FORMAT r2)).

(** The dictionary of calls of a record and the genotype dictionary of one
    of its samples, as functions of the record before it decoded them. *)
Definition calls_of (h : VcfHeader) (r0 : VcfRecord) : gmap string string :=
  dict_of (map (fun s => (s, default "" (sample_column h r0 s)))
               (default [] (samples h))).
Definition gts_of (h : VcfHeader) (r0 : VcfRecord) (s : string)
    : gmap string string :=
  call_dict (default [] (GT_FORMAT r0)) (default "" (sample_column h r0 s)).

(** A state that [r0] reaches while its samples are decoded: the calls are
    cached or still to be split, and the genotype cache [g] holds only
    right entries. *)
Definition decoding (h : VcfHeader) (r0 : VcfRecord)
    (g : gmap string (gmap string string)) (r : VcfRecord) : Prop :=
  GT_FORMAT r = GT_FORMAT r0
  /\ _SAMPLE_GTS r = g
  /\ (__CALLS r = Some (calls_of h r0) \/ (__CALLS r = None /\ cols r = cols r0))
  /\ (forall s d, g !! s = Some d -> d = gts_of h r0 s).

(** The four values that [in_cis_with] reads, as far as they exist. *)
Definition phase_values (d1 d2 : option (gmap string string))
    : option (string * string * string * string) :=
  match d1 ≫= (.!! "PID"), d2 ≫= (.!! "PID"),
        d1 ≫= (.!! "PGT"), d2 ≫= (.!! "PGT") with
  | Some pid1, Some pid2, Some pgt1, Some pgt2 => Some (pid1, pid2, pgt1, pgt2)
  | _, _, _, _ => None
  end.

(** The sample names and their column index are those that
    [VcfHeader.__init__] derives from the column header. *)
Definition samples_indexed (h : VcfHeader) : Prop :=
  samples h = samples (blank_header [] (col_header h))
  /\ sample_cols h = sample_cols (blank_header [] (col_header h)).
(** ** Inputs of further examples *)

(** A record with three ALT alleles: a deletion, a longer deletion and an
    insertion. *)
Definition multi_allelic_line : string :=
  py_join (str1 TAB)
    ["1"; "100"; "rs1"; "CATG"; "CTG,C,CATGTG"; "50"; "PASS"; "DP=3;AF=0.5,0.1,0.2"].

(** ** What [add_info_fields] leaves alone *)

(** The record [r] agrees with [r0] on everything but the INFO attribute,
    its structured view and the eighth raw column. *)
Definition same_but_INFO (r0 r : VcfRecord) : Prop :=
  length (cols r) = length (cols r0)
  /\ (forall i, i <> 7 -> cols r !! i = cols r0 !! i)
  /\ CHROM r = CHROM r0 /\ POS r = POS r0 /\ ID r = ID r0
  /\ REF r = REF r0 /\ ALT r = ALT r0 /\ QUAL r = QUAL r0
  /\ FILTER r = FILTER r0 /\ FORMAT r = FORMAT r0
  /\ GT_FORMAT r = GT_FORMAT r0
  /\ __SPAN r = __SPAN r0 /\ __CALLS r = __CALLS r0
  /\ __ALLELES r = __ALLELES r0
  /\ __DECOMPOSED_ALLELES r = __DECOMPOSED_ALLELES r0
  /\ _SAMPLE_GTS r = _SAMPLE_GTS r0 /\ _got_gts r = _got_gts r0
  /\ _vep_allele r = _vep_allele r0.

(** The text of a record: its raw columns and its INFO attribute. *)
Definition same_text (r0 r : VcfRecord) : Prop :=
  cols r = cols r0 /\ INFO r = INFO r0.

(** A record whose INFO column repeats the key DP around a flag. *)
Definition repeated_key_line : string :=
  py_join (str1 TAB) ["1"; "100"; "."; "A"; "G"; "."; "."; "DP=3;DB;DP=7"].

(** ** Merging into an existing INFO field *)

(** The header has INFO declarations, and none for [field]. *)
Definition undeclared_INFO (h : VcfHeader) (field : string) : Prop :=
  exists decls, metadata h !! "INFO" = Some (MetaDict decls)
                /\ od_get field decls = None.

(** The column header that goes with the record of two samples. *)
Definition two_sample_columns : list string :=
  essential_columns ++ ["FORMAT"; "S1"; "S2"].

(** ** The FORMAT registry *)

(** The header [h'] is [h] but for its FORMAT registry, which kept every
    entry of [h] and gained at most the entry of [COMMON_FORMAT] for
    [field]. *)
Definition registry_extends (field : string) (h h' : VcfHeader) : Prop :=
  meta_header h' = meta_header h /\ col_header h' = col_header h
  /\ samples h' = samples h /\ sample_cols h' = sample_cols h
  /\ metadata h' = metadata h /\ fileformat h' = fileformat h
  /\ _info_field_translater h' = _info_field_translater h
  /\ (forall k f, _format_field_translater h !! k = Some f ->
                  _format_field_translater h' !! k = Some f)
  /\ (forall k f, _format_field_translater h' !! k = Some f ->
                  _format_field_translater h !! k = Some f
                  \/ (k = field /\ od_get field COMMON_FORMAT = Some f)).

(** What a missing value of a FORMAT field is parsed to: an absent value
    and a dot, for a field converted with [c] and split or not. *)
Definition parsed_absent (c : option ctype) (split : bool) : parsed :=
  if split then PTuple [None]
  else match c with
       | Some Cstr => PValue (Some (SStr "None"))
       | _ => PValue None
       end.
Definition parsed_dot (c : option ctype) (split : bool) : parsed :=
  match c with
  | Some Cstr => if split then PTuple [Some (SStr ".")] else PValue (Some (SStr "."))
  | _ => if split then PTuple [None] else PValue None
  end.

(** A header that knows one FORMAT field. *)
Definition header_with_format (field : string) (f : option ctype * bool)
    : VcfHeader :=
  set__format_field_translater {[ field := f ]} (plain_header essential_columns).

(** A record with three single-base ALT alleles. *)
Definition snv_line : string :=
  py_join (str1 TAB) ["1"; "100"; "."; "A"; "C,G,T"; "."; "."; "CSQ=G|x"].

(** ** Reading the header of a file *)

(** The loop of [VcfReader._read_header] over the lines that the reader
    yields, which are stripped on the right and not empty: what is left of
    the reader, and the metaheader lines with the column names, or the
    exception raised. *)
Fixpoint _read_header_loop (meta_header : list string) (reader : list string)
    : list string * result (list string * list string) :=
  match reader with
  | [] => ([], Ok (meta_header, []))
  | line :: reader' =>
      if py_startswith line "##" then _read_header_loop (meta_header ++ [line]) reader'
      else if py_startswith line "#CHROM" then (reader', Ok (meta_header, py_split TAB line))
      else (reader', Raise HeaderError)
  end.

Section reading.
Variable _parse_header_line : string -> M VcfHeader unit.

(** [VcfReader._read_header]; the state is the reader. *)
Definition _read_header : M (list string) VcfHeader :=
  fun reader =>
    match _read_header_loop [] reader with
    | (reader', Ok (meta_header, coln_header)) =>
        let '(h, res) := VcfHeader_init _parse_header_line meta_header coln_header in
        (reader', doR _ <- res ;; Ok h)
    | (reader', Raise e) => (reader', Raise e)
    end.
End reading.

(** ** Rendering a header *)

(** A header object with the flag [_sorted_meta_header], which only
    [__str__], [add_header_field] and [_sort_meta_header] touch;
    [VcfHeader.__init__] sets it. *)
Record HeaderObject : Type := mkHeaderObject {
  attributes : VcfHeader;
  _sorted_meta_header : bool
}.

Definition set_meta_header (v : list string) (h : VcfHeader) : VcfHeader :=
  mkVcfHeader v (col_header h) (samples h) (sample_cols h) (metadata h)
    (fileformat h) (_info_field_translater h) (_format_field_translater h).

(** The pattern that [_sort_meta_header] searches for: the line starts
    with two hashes and FORMAT, FILTER or INFO. *)
Definition is_inf_filt_form (line : string) : bool :=
  py_startswith line "##FORMAT" || py_startswith line "##FILTER"
  || py_startswith line "##INFO".

(** The loop of [_sort_meta_header]: the three lists it fills. *)
Fixpoint sort_loop (lines inf_filt_form pre_inf post_inf : list string)
    : list string * list string * list string :=
  match lines with
  | [] => (inf_filt_form, pre_inf, post_inf)
  | line :: lines' =>
      if is_inf_filt_form line
      then sort_loop lines' (inf_filt_form ++ [line]) pre_inf post_inf
      else if negb (length inf_filt_form =? 0)%nat
      then sort_loop lines' inf_filt_form pre_inf (post_inf ++ [line])
      else sort_loop lines' inf_filt_form (pre_inf ++ [line]) post_inf
  end.

(** [l.sort()] for a list of strings: ascending by code points.  Strings
    that compare equal are the same string, so the sorted list does not
    depend on the algorithm. *)
Fixpoint insert_str (x : string) (l : list string) : list string :=
  match l with
  | [] => [x]
  | y :: l' => if String.leb x y then x :: l else y :: insert_str x l'
  end.
Definition py_sort (l : list string) : list string := fold_right insert_str [] l.

(** [VcfHeader._sort_meta_header] *)
Definition _sort_meta_header : M HeaderObject unit :=
  do h <- get ;;
  let '(inf_filt_form, pre_inf, post_inf) :=
    sort_loop (meta_header (attributes h)) [] [] [] in
  modify (fun h =>
    mkHeaderObject
      (set_meta_header (pre_inf ++ py_sort inf_filt_form ++ post_inf) (attributes h))
      true).

(** [VcfHeader.__str__] *)
Definition VcfHeader_str : M HeaderObject string :=
  do h <- get ;;
  run (if negb (_sorted_meta_header h) then _sort_meta_header else ret tt) ;;
  do h <- get ;;
  ret (py_join (str1 NEWLINE) (meta_header (attributes h)) +:+ str1 NEWLINE
       +:+ py_join (str1 TAB) (col_header (attributes h)) +:+ str1 NEWLINE).

(** A list of strings in ascending order: each string is at most the
    next. *)
Fixpoint ascending (l : list string) : Prop :=
  match l with
  | x :: l' =>
      match l' with
      | y :: _ => String.leb x y = true /\ ascending l'
      | [] => True
      end
  | [] => True
  end.

(** A line reader leaves the lines and the column names of the header
    alone. *)
Definition keeps_lines (parse_line : string -> M VcfHeader unit) : Prop :=
  forall m c l,
    preserves (fun h => meta_header h = m /\ col_header h = c) (parse_line l).

(** ** Adding IDs *)

Definition set_ID (v : string) (r : VcfRecord) : VcfRecord :=
  mkVcfRecord (cols r) (CHROM r) (POS r) v (REF r) (ALT r) (QUAL r)
    (FILTER r) (INFO r) (FORMAT r) (GT_FORMAT r) (__SPAN r) (__INFO_FIELDS r)
    (__CALLS r) (__ALLELES r) (__DECOMPOSED_ALLELES r) (_SAMPLE_GTS r)
    (_got_gts r) (_vep_allele r).

Section add_ids.
(** The order in which a [set] built from a list is iterated; it depends
    on the hashes of the strings. *)
Variable set_order : list string -> list string.

(** [VcfRecord.add_ids] *)
Definition add_ids (ids : list string) (replace : bool) : M VcfRecord unit :=
  do r <- get ;;
  run (if replace || String.eqb (ID r) "."
       then modify (set_ID (py_join ";" ids))
       else
         let uids := set_order (ids ++ py_split ";" (ID r)) in
         modify (set_ID (py_join ";" uids))) ;;
  do r <- get ;;
  if (2 <? length (cols r))%nat then modify (set_cols (<[2 := ID r]> (cols r)))
  else raise IndexError.
End add_ids.

(** What is known of the iteration order of a set: every element of the
    list, once. *)
Definition enumerates_set (set_order : list string -> list string) : Prop :=
  forall l, NoDup (set_order l) /\ forall x, x ∈ set_order l <-> x ∈ l.

(** The lines of a small file: two metaheader lines, the column names and
    one record. *)
Definition example_metas : list string :=
  ["##fileformat=VCFv4.2"; "##source=caller"].
Definition example_columns : string := py_join (str1 TAB) two_sample_columns.
Definition example_file : list string :=
  example_metas ++ example_columns :: [C8_line].

(** ** Genotypes without their phase *)

(** A GT value with every bar replaced by a slash. *)
Fixpoint unphase (s : string) : string :=
  match s with
  | EmptyString => EmptyString
  | String c s' => String (if Ascii.eqb c "|" then "/"%char else c) (unphase s')
  end.

(** * Properties *)

(** ** Strings *)

Lemma py_split_max_nonempty sep s n : py_split_max sep s n <> [].
Proof.
  revert n. induction s as [|c s IH]; intros n; simpl; [done|].
  destruct n; [done|]. destruct (Ascii.eqb c sep); [done|].
  specialize (IH (S n)). destruct (py_split_max sep s (S n)); done.
Qed.

Lemma py_split_nonempty sep s : py_split sep s <> [].
Proof.
  induction s as [|c s IH]; simpl; [done|].
  destruct (Ascii.eqb c sep); [done|]. destruct (py_split sep s); done.
Qed.

Lemma py_join_cons sep x l :
  l <> [] -> py_join sep (x :: l) = x +:+ sep +:+ py_join sep l.
Proof. destruct l; done. Qed.

Lemma py_join_cons_char sep c w ws :
  py_join sep (String c w :: ws) = String c (py_join sep (w :: ws)).
Proof. destruct ws; reflexivity. Qed.

(** Joining what [split] with a limit produced gives the string back. *)
Lemma py_join_split_max sep s n :
  py_join (str1 sep) (py_split_max sep s n) = s.
Proof.
  revert n. induction s as [|c s IH]; intros n; [reflexivity|].
  simpl. destruct n as [|n]; [reflexivity|].
  destruct (Ascii.eqb_spec c sep) as [->|Hne].
  - rewrite py_join_cons by apply py_split_max_nonempty.
    simpl. by rewrite IH.
  - specialize (IH (S n)).
    pose proof (py_split_max_nonempty sep s (S n)) as Hn.
    destruct (py_split_max sep s (S n)) as [|w ws]; [done|].
    rewrite py_join_cons_char. by rewrite IH.
Qed.

Lemma py_join_split sep s : py_join (str1 sep) (py_split sep s) = s.
Proof.
  induction s as [|c s IH]; [reflexivity|].
  simpl. destruct (Ascii.eqb_spec c sep) as [->|Hne].
  - rewrite py_join_cons by apply py_split_nonempty.
    simpl. by rewrite IH.
  - pose proof (py_split_nonempty sep s) as Hn.
    destruct (py_split sep s) as [|w ws]; [done|].
    rewrite py_join_cons_char. by rewrite IH.
Qed.

Lemma string_app_assoc (a b c : string) : (a +:+ b) +:+ c = a +:+ (b +:+ c).
Proof.
  induction a as [|x a IH]; [reflexivity|].
  change (String x ((a +:+ b) +:+ c) = String x (a +:+ (b +:+ c))).
  by rewrite IH.
Qed.

Lemma py_join_app sep l1 l2 :
  l1 <> [] -> l2 <> [] ->
  py_join sep (l1 ++ l2) = py_join sep l1 +:+ sep +:+ py_join sep l2.
Proof.
  intros H1 H2. induction l1 as [|x l1 IH]; [done|].
  destruct l1 as [|y l1].
  - simpl. destruct l2; done.
  - change ((x :: y :: l1) ++ l2) with (x :: ((y :: l1) ++ l2)).
    rewrite py_join_cons by done.
    rewrite IH by done.
    rewrite (py_join_cons sep x (y :: l1)) by done.
    by rewrite !string_app_assoc.
Qed.

(** Replacing the last element of a list by its pieces does not change the
    joined string. *)
Lemma py_join_split_last sep l x :
  py_join (str1 sep) (l ++ py_split sep x) = py_join (str1 sep) (l ++ [x]).
Proof.
  destruct l as [|y l].
  - simpl. apply py_join_split.
  - rewrite !py_join_app by (try done; apply py_split_nonempty).
    by rewrite py_join_split.
Qed.

Lemma list_pop_Some {A} (l l' : list A) x :
  list_pop l = Some (l', x) -> l = l' ++ [x].
Proof.
  unfold list_pop. destruct (rev l) as [|y t] eqn:E; [done|].
  intros [= <- <-]. rewrite <- (rev_involutive l), E. reflexivity.
Qed.

Lemma str_init_length s :
  String.length (str_init s) = String.length s - 1.
Proof.
  induction s as [|c s IH]; [done|].
  destruct s as [|c' s]; [done|].
  change (str_init (String c (String c' s))) with (String c (str_init (String c' s))).
  simpl String.length in *. lia.
Qed.

Lemma str_last_tail s :
  1 < String.length s -> str_last (str_tail s) = str_last s.
Proof. destruct s as [|c [|c' s]]; simpl; intros; try lia. done. Qed.

(** *** The embedded primitives on sample inputs

    The values are those of the Python built-ins and of the patterns of
    the module on the same inputs. *)

Example py_int_samples :
  map py_int [" 12 "; "-1_0"; "1__0"; "+"; ""; "007"; "+5"; "1 2"]
  = [Some 12; Some (-10); None; None; None; Some 7; Some 5; None]%Z.
Proof. reflexivity. Qed.

Example py_split_samples :
  py_split ";" "a;;b" = ["a"; ""; "b"]
  /\ py_split_max "=" "DP=3=4" 1 = ["DP"; "3=4"]
  /\ py_split_max "=" "DB" 1 = ["DB"]
  /\ gt_tokens "0/1|2//" = ["0"; "1"; "2"; ""; ""].
Proof. repeat split; reflexivity. Qed.

Example py_str_samples :
  py_str (VList [AStr "a"; AInt 1; ABool true; ANone]) = "['a', 1, True, None]"
  /\ py_repr_str "it's" = String DQUOTE ("it's" +:+ str1 DQUOTE)
  /\ py_repr_str (str1 TAB +:+ str1 BACKSLASH)
     = "'" +:+ String BACKSLASH ("t" +:+ String BACKSLASH (str1 BACKSLASH)) +:+ "'".
Proof. repeat split; reflexivity. Qed.

Example sorted_items_sample :
  sorted_items (<["b" := 1]> (<["B" := 2]> (<["a10" := 3]> (<["a1" := 4]> ∅))))
  = [("B", 2); ("a1", 4); ("a10", 3); ("b", 1)].
Proof. reflexivity. Qed.

Example _meta_re_match_samples :
  map _meta_re_match
      ["##fileformat=VCFv4.2"; "##=a=b"; "##a =b"; "#CHROM";
       "##INFO=<ID=DP,Number=1>"]
  = [Some ("fileformat", "VCFv4.2"); Some ("=a", "b"); None; None;
     Some ("INFO", "<ID=DP,Number=1>")].
Proof. reflexivity. Qed.

Example _svalt_re_match_samples :
  map _svalt_re_match ["<DEL>"; "<DUP:TANDEM>"; "<A:B:C>x"; "<A::B>"; "<DEL"; "A"]
  = [Some "DEL"; Some "DUP"; Some "A"; None; None; None].
Proof. reflexivity. Qed.

Example _bnd_re_match_samples :
  map _bnd_re_match
      ["G]17:198982]"; "]13:123456]T"; "GX]17:1]"; "G]17:]"; "G[17:5[N"]
  = [Some "G]17"; Some "]13"; None; None; Some "G[17"].
Proof. reflexivity. Qed.

(** ** Allele minimization *)

Lemma strip_suffixes_stuck ref alt :
  ~ (1 < String.length ref /\ 1 < String.length alt /\ str_last ref = str_last alt) ->
  strip_suffixes ref alt = (ref, alt).
Proof.
  intros H. rewrite strip_suffixes_equation_1.
  destruct (decide (1 < String.length ref /\ 1 < String.length alt)) as [[? ?]|?];
    simpl; [|done].
  destruct (decide (str_last ref = str_last alt)); simpl; [|done].
  exfalso. apply H. done.
Qed.

Lemma strip_prefixes_stuck ref alt pos :
  ~ (1 < String.length ref /\ 1 < String.length alt
     /\ str_first ref = str_first alt) ->
  strip_prefixes ref alt pos = (ref, alt, pos).
Proof.
  intros H. rewrite strip_prefixes_equation_1.
  destruct (decide (1 < String.length ref /\ 1 < String.length alt)) as [[? ?]|?];
    simpl; [|done].
  destruct (decide (str_first ref = str_first alt)); simpl; [|done].
  exfalso. apply H. done.
Qed.

Lemma minimize_fixed chrom pos ref alt :
  minimal ref alt -> minimize chrom pos ref alt = AltAllele.mk chrom pos ref alt.
Proof.
  intros [Hs Hp]. unfold minimize.
  rewrite strip_suffixes_stuck by done.
  by rewrite strip_prefixes_stuck.
Qed.

(** After the first loop no further last character can go. *)
Lemma strip_suffixes_done ref alt :
  let '(r, a) := strip_suffixes ref alt in
  ~ (1 < String.length r /\ 1 < String.length a /\ str_last r = str_last a).
Proof.
  remember (String.length ref) as n eqn:Hn.
  revert ref alt Hn. induction n as [n IH] using lt_wf_ind. intros ref alt ->.
  rewrite strip_suffixes_equation_1.
  destruct (decide (1 < String.length ref /\ 1 < String.length alt)) as [[? ?]|?];
    simpl; [|tauto].
  destruct (decide (str_last ref = str_last alt)); simpl; [|tauto].
  apply (IH (String.length (str_init ref))); [|done].
  rewrite str_init_length. lia.
Qed.

(** The second loop keeps the last characters and stops with nothing left
    to strip at the front. *)
Lemma strip_prefixes_done ref alt pos :
  let '(r, a, _) := strip_prefixes ref alt pos in
  ~ (1 < String.length r /\ 1 < String.length a /\ str_first r = str_first a)
  /\ str_last r = str_last ref /\ str_last a = str_last alt
  /\ (1 < String.length r -> 1 < String.length ref)
  /\ (1 < String.length a -> 1 < String.length alt).
Proof.
  remember (String.length ref) as n eqn:Hn.
  revert ref alt pos Hn. induction n as [n IH] using lt_wf_ind.
  intros ref alt pos ->.
  rewrite strip_prefixes_equation_1.
  destruct (decide (1 < String.length ref /\ 1 < String.length alt)) as [[Hr Ha]|?];
    simpl; [|tauto].
  destruct (decide (str_first ref = str_first alt)); simpl; [|tauto].
  specialize (IH (String.length (str_tail ref))
                 ltac:(destruct ref; simpl in *; lia)
                 (str_tail ref) (str_tail alt) (pos + 1)%Z eq_refl).
  destruct (strip_prefixes (str_tail ref) (str_tail alt) (pos + 1))
    as [[r a] p].
  destruct IH as (H1 & H2 & H3 & H4 & H5).
  rewrite (str_last_tail ref Hr) in H2.
  rewrite (str_last_tail alt Ha) in H3.
  repeat split; try done.
Qed.

Lemma minimize_minimal chrom pos ref alt :
  minimal (AltAllele.REF (minimize chrom pos ref alt))
          (AltAllele.ALT (minimize chrom pos ref alt)).
Proof.
  unfold minimize.
  pose proof (strip_suffixes_done ref alt) as Hs.
  destruct (strip_suffixes ref alt) as [r1 a1].
  pose proof (strip_prefixes_done r1 a1 pos) as Hp.
  destruct (strip_prefixes r1 a1 pos) as [[r2 a2] p2]. simpl.
  destruct Hp as (Hp & Hlr & Hla & Hr & Ha).
  split; [|done].
  intros (H1 & H2 & H3). apply Hs. rewrite <- Hlr, <- Hla. auto.
Qed.

(** Minimizing the result of a minimization changes nothing, whatever the
    pair one started from. *)
Lemma minimize_idempotent chrom pos ref alt :
  let a := minimize chrom pos ref alt in
  minimize (AltAllele.CHROM a) (AltAllele.POS a) (AltAllele.REF a) (AltAllele.ALT a)
  = a.
Proof.
  intros a. rewrite minimize_fixed by apply minimize_minimal.
  by destruct a.
Qed.

(** *** Reasoning about methods *)

Ltac munfold :=
  unfold bindM, ret, get, gets, modify, liftR, raise, catch, on in *.

Lemma set___DECOMPOSED_ALLELES_twice v w r :
  set___DECOMPOSED_ALLELES v (set___DECOMPOSED_ALLELES w r)
  = set___DECOMPOSED_ALLELES v r.
Proof. reflexivity. Qed.

(** The loop of [_minimize_alleles] on a record whose ALLELES are known:
    one minimized allele is appended per ALT, in order. *)
Lemma minimize_loop r ref alleles alts acc :
  __ALLELES r = Some (ref :: alleles) ->
  __DECOMPOSED_ALLELES r = Some acc ->
  forM_ alts (fun alt =>
    do alleles <- ALLELES ;;
    do ref <- liftR (match alleles with
                     | ref :: _ => Ok ref
                     | [] => Raise IndexError
                     end) ;;
    do r <- get ;;
    let a := minimize (CHROM r) (POS r) ref alt in
    modify (set___DECOMPOSED_ALLELES
              (Some (default [] (__DECOMPOSED_ALLELES r) ++ [a])))) r
  = (set___DECOMPOSED_ALLELES
       (Some (acc ++ map (minimize (CHROM r) (POS r) ref) alts)) r, Ok tt).
Proof.
  revert r acc. induction alts as [|alt alts IH]; intros r acc Ha Hd.
  - simpl. munfold. rewrite app_nil_r. destruct r; simpl in *. by subst.
  - simpl. unfold bindM at 1. unfold bindM at 1, ALLELES at 1.
    munfold. rewrite Ha. simpl. rewrite Hd. simpl.
    rewrite (IH _ (acc ++ [minimize (CHROM r) (POS r) ref alt])) by done.
    simpl. by rewrite <- app_assoc.
Qed.

(** On a record that has not computed them yet, [DECOMPOSED_ALLELES] holds
    one entry per ALT allele, in ALT order: the minimization of REF and
    that ALT from POS. *)
Lemma DECOMPOSED_ALLELES_fresh r :
  __ALLELES r = None -> __DECOMPOSED_ALLELES r = None ->
  (DECOMPOSED_ALLELES r).2
  = Ok (map (minimize (CHROM r) (POS r) (REF r)) (py_split "," (ALT r))).
Proof.
  intros Ha Hd. unfold DECOMPOSED_ALLELES, _minimize_alleles.
  unfold bindM at 1. unfold get at 1. rewrite Hd.
  unfold bindM at 1. unfold bindM at 1. unfold modify at 1.
  unfold bindM at 1. unfold ALLELES at 1. unfold bindM at 1. unfold get at 1.
  simpl. rewrite Ha. unfold bindM at 1. unfold modify at 1. unfold ret at 1.
  simpl.
  erewrite minimize_loop; [|reflexivity|reflexivity].
  reflexivity.
Qed.

(** C1, as the code computes it.  For a record with REF=ATG, ALT=ATGTG and
    POS=100 the first loop strips the two identical trailing characters
    (TG), which leaves REF=A and ALT=ATG; REF is then one character long,
    so the second loop strips nothing and the position stays 100.  The
    minimal representation is REF=A, ALT=ATG at 100. *)
Theorem C1_minimize_ATG_ATGTG (r : VcfRecord) :
  REF r = "ATG" -> ALT r = "ATGTG" -> POS r = 100%Z ->
  __ALLELES r = None -> __DECOMPOSED_ALLELES r = None ->
  strip_suffixes "ATG" "ATGTG" = ("A", "ATG")
  /\ strip_prefixes "A" "ATG" 100 = ("A", "ATG", 100%Z)
  /\ (DECOMPOSED_ALLELES r).2 = Ok [AltAllele.mk (CHROM r) 100 "A" "ATG"].
Proof.
  intros Hr Ha Hp Hc Hd.
  split; [reflexivity|]. split; [reflexivity|].
  rewrite DECOMPOSED_ALLELES_fresh by done.
  rewrite Hr, Ha, Hp. reflexivity.
Qed.

Lemma C1_minimize_ATG_ATGTG_witness :
  exists r, VcfRecord_init C1_line = Ok r
            /\ (DECOMPOSED_ALLELES r).2 = Ok [AltAllele.mk "1" 100 "A" "ATG"].
Proof.
  eexists. split; [reflexivity|].
  refine (proj2 (proj2 (C1_minimize_ATG_ATGTG _ _ _ _ _ _))); reflexivity.
Defined.

(** C1 as the spec states it fails: on the record read from a line with
    REF=ATG, ALT=ATGTG and POS=100 the decomposed alleles are not REF=G,
    ALT=GTG at 102. *)
Lemma C1_counterexample :
  exists r, VcfRecord_init C1_line = Ok r
            /\ REF r = "ATG" /\ ALT r = "ATGTG" /\ POS r = 100%Z
            /\ (DECOMPOSED_ALLELES r).2 = Ok [AltAllele.mk "1" 100 "A" "ATG"]
            /\ (DECOMPOSED_ALLELES r).2 <> Ok [AltAllele.mk "1" 102 "G" "GTG"].
Proof.
  eexists. split; [reflexivity|]. repeat split; try reflexivity.
  vm_compute. discriminate.
Qed.

(** C9.  A REF/ALT pair that is already minimal, that is, on which neither
    loop can strip a character, comes back from the minimization with the
    same chrom, pos, ref and alt. *)
Theorem C9_minimize_idempotent (chrom : string) (pos : Z) (ref alt : string) :
  minimal ref alt ->
  minimize chrom pos ref alt = AltAllele.mk chrom pos ref alt.
Proof. apply minimize_fixed. Qed.

Lemma C9_minimize_idempotent_witness :
  minimal "A" "ATG"
  /\ minimize "1" 100 "A" "ATG" = AltAllele.mk "1" 100 "A" "ATG".
Proof.
  assert (H : minimal "A" "ATG") by (split; simpl; lia).
  split; [exact H | exact (C9_minimize_idempotent "1" 100 "A" "ATG" H)].
Defined.

(** *** Invariants of methods *)

Section preserves.
Context {S : Type} (P : S -> Prop).

Lemma preserves_ret {A} (a : A) : preserves P (ret a).
Proof. intros s H. exact H. Qed.

Lemma preserves_raise {A} e : preserves P (@raise S A e).
Proof. intros s H. exact H. Qed.

Lemma preserves_get : preserves P get.
Proof. intros s H. exact H. Qed.

Lemma preserves_gets {A} (f : S -> A) : preserves P (gets f).
Proof. intros s H. exact H. Qed.

Lemma preserves_liftR {A} (m : result A) : preserves P (liftR m).
Proof. intros s H. exact H. Qed.

Lemma preserves_modify (f : S -> S) :
  (forall s, P s -> P (f s)) -> preserves P (modify f).
Proof. intros Hf s H. apply Hf, H. Qed.

Lemma preserves_bind {A B} (m : M S A) (k : A -> M S B) :
  preserves P m -> (forall a, preserves P (k a)) -> preserves P (bindM m k).
Proof.
  intros Hm Hk s H. unfold bindM. specialize (Hm s H).
  destruct (m s) as [s' [a|e]]; simpl in *; [|done]. by apply Hk.
Qed.

Lemma preserves_catch {A} (m h : M S A) handles :
  preserves P m -> preserves P h -> preserves P (catch m handles h).
Proof.
  intros Hm Hh s H. unfold catch. specialize (Hm s H).
  destruct (m s) as [s' [a|e]]; simpl in *; [done|].
  destruct (handles e); [by apply Hh | done].
Qed.

Lemma preserves_forM_ {A} (xs : list A) (body : A -> M S unit) :
  (forall x, preserves P (body x)) -> preserves P (forM_ xs body).
Proof.
  intros Hb. induction xs as [|x xs IH]; simpl.
  - apply preserves_ret.
  - apply preserves_bind; [apply Hb | intros _; apply IH].
Qed.

Lemma preserves_mapM {A B} (f : A -> M S B) (xs : list A) :
  (forall x, preserves P (f x)) -> preserves P (mapM f xs).
Proof.
  intros Hf. induction xs as [|x xs IH]; simpl.
  - apply preserves_ret.
  - apply preserves_bind; [apply Hf | intros y].
    apply preserves_bind; [apply IH | intros ys; apply preserves_ret].
Qed.
End preserves.

(** One step of a proof that a method preserves an invariant: the rule for
    the outermost construct, a case split on what a [match] or [if]
    inspects, or [solve_modify] for an assignment. *)
Ltac pres_step solve_modify :=
  lazymatch goal with
  | |- preserves _ (ret _) => apply preserves_ret
  | |- preserves _ (raise _) => apply preserves_raise
  | |- preserves _ get => apply preserves_get
  | |- preserves _ (gets _) => apply preserves_gets
  | |- preserves _ (liftR _) => apply preserves_liftR
  | |- preserves _ (modify _) => apply preserves_modify; solve_modify
  | |- preserves _ (bindM _ _) => apply preserves_bind; [|intros ?]
  | |- preserves _ (catch _ _ _) => apply preserves_catch
  | |- preserves _ (forM_ _ _) => apply preserves_forM_; intros ?
  | |- preserves _ (mapM _ _) => apply preserves_mapM; intros ?
  | |- preserves _ (match ?x with _ => _ end) => destruct x
  | |- preserves _ (let '(_, _) := ?x in _) => destruct x
  end.

Ltac pres solve_modify := repeat (pres_step solve_modify).

(** ** Rendering a record that was not mutated *)

Lemma VcfRecord_init_cols line r :
  VcfRecord_init line = Ok r -> cols r = py_split_max TAB line 9.
Proof.
  unfold VcfRecord_init. intros H.
  destruct (take 8 (py_split_max TAB line 9))
    as [|? [|? [|? [|? [|? [|? [|? [|? [|]]]]]]]]]; try done.
  destruct (py_int _); [|done]. by injection H as <-.
Qed.

Lemma VcfRecord_init_str line r : VcfRecord_init line = Ok r -> __str__ r = line.
Proof.
  intros H. unfold __str__. rewrite (VcfRecord_init_cols _ _ H).
  apply py_join_split_max.
Qed.

Section rendering.
Variable h : VcfHeader.
Variable line : string.

Local Ltac same_cols := intros ? H; exact H.

Lemma ALLELES_renders : preserves (renders_as line) ALLELES.
Proof. unfold ALLELES. pres same_cols. Qed.

Lemma INFO_FIELDS_renders : preserves (renders_as line) INFO_FIELDS.
Proof. unfold INFO_FIELDS. pres same_cols. Qed.

Lemma DECOMPOSED_ALLELES_renders :
  preserves (renders_as line) DECOMPOSED_ALLELES.
Proof.
  unfold DECOMPOSED_ALLELES, _minimize_alleles.
  pres same_cols; apply ALLELES_renders.
Qed.

Lemma SPAN_renders : preserves (renders_as line) SPAN.
Proof.
  unfold SPAN, INFO_FIELDS_getitem.
  pres same_cols; apply INFO_FIELDS_renders.
Qed.

(** The first access to [CALLS] replaces the last column by its pieces;
    joined with tabs they are the last column again. *)
Lemma CALLS_renders : preserves (renders_as line) (CALLS h).
Proof.
  intros r Hr. unfold CALLS. unfold bindM at 1, get at 1.
  destruct (__CALLS r); [exact Hr|].
  destruct (match sample_cols h with
            | Some sc => negb (size sc =? 0)%nat
            | None => false
            end); [|exact Hr].
  unfold bindM at 1, liftR at 1.
  destruct (list_pop (cols r)) as [[l x]|] eqn:Hpop; [|exact Hr].
  apply list_pop_Some in Hpop.
  match goal with
  | |- renders_as line (?m r).1 => assert (Hm : preserves (renders_as line) m)
  end.
  { simpl. pres same_cols.
    intros s Hs. unfold renders_as, __str__ in *. simpl.
    rewrite py_join_split_last. rewrite <- Hpop. exact Hr. }
  apply Hm, Hr.
Qed.

Lemma get_sample_call_renders sample :
  preserves (renders_as line) (get_sample_call h sample).
Proof. unfold get_sample_call. pres same_cols; apply CALLS_renders. Qed.

Lemma sample_calls_renders : preserves (renders_as line) (sample_calls h).
Proof. unfold sample_calls. pres same_cols; apply get_sample_call_renders. Qed.

Lemma _vep_to_alt_renders d : preserves (renders_as line) (_vep_to_alt d).
Proof. unfold _vep_to_alt. pres same_cols; apply ALLELES_renders. Qed.

Lemma csq_alt_index_renders d : preserves (renders_as line) (csq_alt_index d).
Proof.
  unfold csq_alt_index.
  pres same_cols; first [apply ALLELES_renders | apply _vep_to_alt_renders].
Qed.

Lemma on_self_ref_preserves {A} (P : VcfRecord -> Prop) (m : M VcfRecord A) :
  preserves P m -> preserves P (on self_ref m).
Proof.
  intros Hm s Hs. unfold on. simpl. specialize (Hm s Hs).
  by destruct (m s).
Qed.

Lemma in_cis_with_self_renders sample a b :
  preserves (renders_as line) (in_cis_with self_ref self_ref h h sample a b).
Proof.
  unfold in_cis_with, lacks_field, phase_fields, sample_field.
  pres same_cols; try (apply on_self_ref_preserves; pres same_cols);
    apply sample_calls_renders.
Qed.

Lemma after_access_renders a r : renders_as line r -> renders_as line (after_access h a r).
Proof.
  destruct a; simpl.
  - apply ALLELES_renders.
  - apply DECOMPOSED_ALLELES_renders.
  - apply INFO_FIELDS_renders.
  - apply SPAN_renders.
  - apply CALLS_renders.
  - apply sample_calls_renders.
  - apply get_sample_call_renders.
  - apply csq_alt_index_renders.
  - apply in_cis_with_self_renders.
Qed.

Lemma after_accesses_renders l r : renders_as line r ->
  renders_as line (after_accesses h l r).
Proof.
  revert r. induction l as [|a l IH]; intros r Hr; [exact Hr|].
  simpl. apply IH, after_access_renders, Hr.
Qed.
End rendering.

(** C8.  A record constructed from an input line renders as that line, and
    still does after any sequence of lazy accesses (ALLELES,
    DECOMPOSED_ALLELES, INFO_FIELDS, SPAN, CALLS, sample_calls,
    get_sample_call, the CSQ allele index, in_cis_with), whether these
    return or raise, as long as no mutation method is called. *)
Theorem C8_str_reproduces_line (h : VcfHeader) (line : string) (r : VcfRecord)
    (l : list access) :
  VcfRecord_init line = Ok r ->
  __str__ r = line /\ __str__ (after_accesses h l r) = line.
Proof.
  intros H. pose proof (VcfRecord_init_str _ _ H) as Hr.
  split; [exact Hr|]. by apply after_accesses_renders.
Qed.

Lemma C8_str_reproduces_line_witness :
  exists r, VcfRecord_init C8_line = Ok r
    /\ __str__ r = C8_line
    /\ __str__ (after_accesses C8_header [Get_CALLS; Call_sample_calls; Get_SPAN] r)
       = C8_line
    /\ length (cols r) = 10
    /\ length (cols (after_accesses C8_header
                       [Get_CALLS; Call_sample_calls; Get_SPAN] r)) = 11.
Proof.
  eexists. split; [reflexivity|].
  split; [|split; [|split; reflexivity]].
  - refine (proj1 (C8_str_reproduces_line C8_header C8_line _ [] _)). reflexivity.
  - refine (proj2 (C8_str_reproduces_line C8_header C8_line _ _ _)). reflexivity.
Defined.

(** ** The end coordinate *)

Lemma INFO_FIELDS_value r :
  INFO_FIELDS r = (set___INFO_FIELDS (Some (info_view r)) r, Ok (info_view r)).
Proof.
  unfold INFO_FIELDS, info_view. munfold.
  destruct (__INFO_FIELDS r) eqn:E; simpl; [|done].
  destruct r; simpl in *. by subst.
Qed.

Lemma info_view_set r d : info_view (set___INFO_FIELDS (Some d) r) = d.
Proof. reflexivity. Qed.

(** [SPAN] unfolded: the new state and the result in each case. *)
Lemma SPAN_unfold r :
  SPAN r =
  match __SPAN r with
  | Some e => (r, Ok e)
  | None =>
      let r1 := set___INFO_FIELDS (Some (info_view r)) r in
      match od_get "END" (info_view r) with
      | Some v =>
          match py_int_val v with
          | Ok e => (set___SPAN (Some e) r1, Ok e)
          | Raise x => (r1, Raise x)
          end
      | None =>
          let e := (POS r + Z.of_nat (String.length (REF r)) - 1)%Z in
          (set___SPAN (Some e) r1, Ok e)
      end
  end.
Proof.
  unfold SPAN. unfold bindM at 1, get at 1.
  destruct (__SPAN r) as [e'|] eqn:H; [reflexivity|].
  unfold bindM at 1. rewrite INFO_FIELDS_value.
  unfold od_mem, INFO_FIELDS_getitem.
  destruct (od_get "END" (info_view r)) as [v|] eqn:E.
  - unfold bindM at 1. unfold bindM at 1. unfold bindM at 1.
    rewrite INFO_FIELDS_value, info_view_set, E.
    munfold. by destruct (py_int_val v).
  - munfold. reflexivity.
Qed.

(** What the first access to [SPAN] computes. *)
Lemma SPAN_first r :
  __SPAN r = None ->
  (SPAN r).2 = match od_get "END" (info_view r) with
               | Some v => py_int_val v
               | None => Ok (POS r + Z.of_nat (String.length (REF r)) - 1)%Z
               end.
Proof.
  intros H. rewrite SPAN_unfold, H.
  destruct (od_get "END" (info_view r)) as [v|]; [|reflexivity].
  by destruct (py_int_val v).
Qed.

(** A value that [SPAN] returned is in the cache cell afterwards. *)
Lemma SPAN_memoizes r e : (SPAN r).2 = Ok e -> __SPAN (SPAN r).1 = Some e.
Proof.
  rewrite SPAN_unfold.
  destruct (__SPAN r) as [e'|] eqn:H; simpl; [by intros [= <-]|].
  destruct (od_get "END" (info_view r)) as [v|].
  - destruct (py_int_val v); simpl; [by intros [= <-] | done].
  - simpl. by intros [= <-].
Qed.

Lemma SPAN_cached r e : __SPAN r = Some e -> SPAN r = (r, Ok e).
Proof. intros H. unfold SPAN. munfold. by rewrite H. Qed.

Section span_cell.
Variable h : VcfHeader.
Variable e : Z.

Local Ltac same_cell := intros ? H; exact H.

Lemma INFO_FIELDS_holds : preserves (span_cell_is e) INFO_FIELDS.
Proof. unfold INFO_FIELDS. pres same_cell. Qed.

(** No path through [add_info_fields] assigns [SPAN]. *)
Lemma add_info_fields_holds info append_existing :
  preserves (span_cell_is e) (add_info_fields h info append_existing).
Proof.
  unfold add_info_fields, _rewrite_info_string, _append_to_existing_info,
    INFO_FIELDS_setitem, INFO_FIELDS_getitem.
  pres same_cell; apply INFO_FIELDS_holds.
Qed.

Lemma after_mutations_holds calls r : span_cell_is e r ->
  span_cell_is e (after_mutations h calls r).
Proof.
  revert r. induction calls as [|c calls IH]; intros r Hr; [exact Hr|].
  simpl. apply IH, add_info_fields_holds, Hr.
Qed.
End span_cell.

(** C10.  The first access to SPAN yields the integer conversion of the
    INFO value stored under END when the record's INFO fields hold that
    key (raising what the conversion raises), and POS + len(REF) - 1
    otherwise.  A value that SPAN has returned is memoized: after any
    series of add_info_fields calls SPAN returns the same value. *)
Theorem C10_SPAN (r : VcfRecord) :
  (__SPAN r = None ->
   (SPAN r).2 = match od_get "END" (info_view r) with
                | Some v => py_int_val v
                | None => Ok (POS r + Z.of_nat (String.length (REF r)) - 1)%Z
                end)
  /\ (forall e h calls,
        (SPAN r).2 = Ok e ->
        SPAN (after_mutations h calls (SPAN r).1)
        = (after_mutations h calls (SPAN r).1, Ok e)).
Proof.
  split; [apply SPAN_first|].
  intros e h calls H. apply SPAN_cached.
  apply after_mutations_holds. by apply SPAN_memoizes.
Qed.

Lemma C10_SPAN_witness :
  exists r,
    VcfRecord_init C10_line = Ok r
    /\ (SPAN r).2 = Ok 150%Z
    /\ let r' := after_mutations (plain_header essential_columns)
                   [({[ "END" := VAtom (AStr "999") ]}, false)] (SPAN r).1 in
       od_get "END" (info_view r') = Some (VAtom (AStr "999"))
       /\ (SPAN r').2 = Ok 150%Z.
Proof.
  eexists. split; [reflexivity|].
  split.
  - match goal with
    | |- (SPAN ?r).2 = _ => rewrite (proj1 (C10_SPAN r) eq_refl)
    end.
    reflexivity.
  - split; [reflexivity|].
    match goal with
    | |- (SPAN (after_mutations ?h ?calls (SPAN ?r).1)).2 = _ =>
        rewrite (proj2 (C10_SPAN r) 150%Z h calls)
    end; reflexivity.
Defined.

(** ** Consequence annotations *)

(** C6.  For a record with REF=A and ALT=A,AT that has neither decoded its
    alleles nor resolved an annotation yet, and an annotation without
    ALLELE_NUM whose Allele is T: the cached keys A and AT lose their first
    character, the emptied key A being stored as a dash (the token the
    code uses for an allele with nothing left), and the annotation is
    mapped to alt_index 2. *)
Theorem C6_csq_left_trim (r : VcfRecord) (d : list (string * string)) :
  REF r = "A" -> ALT r = "A,AT" ->
  __ALLELES r = None -> _vep_allele r = [] ->
  od_get "Allele" d = Some "T" -> od_get "ALLELE_NUM" d = None ->
  (csq_alt_index d r).2 = Ok 2%Z
  /\ _vep_allele (csq_alt_index d r).1 = [("-", 1); ("T", 2)].
Proof.
  intros Hr Ha Hc Hv Hd Hn.
  unfold csq_alt_index, _vep_to_alt, ALLELES.
  destruct r; simpl in *; subst.
  munfold. simpl. rewrite Hn, Hd. simpl. split; reflexivity.
Qed.

Lemma C6_csq_left_trim_witness :
  exists r, VcfRecord_init C6_line = Ok r
    /\ (csq_alt_index [("Allele", "T"); ("Consequence", "x")] r).2 = Ok 2%Z
    /\ _vep_allele (csq_alt_index [("Allele", "T"); ("Consequence", "x")] r).1
       = [("-", 1); ("T", 2)].
Proof.
  eexists. split; [reflexivity|].
  match goal with
  | |- (csq_alt_index ?d ?r).2 = _ /\ _ =>
      exact (C6_csq_left_trim r d eq_refl eq_refl eq_refl eq_refl eq_refl eq_refl)
  end.
Defined.

(** C6 as the spec states it fails on the emptied key: after the
    resolution the cache has no key equal to the missing-value marker, the
    emptied key A being stored as a dash; so an annotation whose Allele is
    the marker is not found, and one whose Allele is a dash is mapped to
    the first ALT. *)
Lemma C6_counterexample :
  exists r, VcfRecord_init C6_line = Ok r
    /\ od_get spec_missing_marker
         (_vep_allele (csq_alt_index [("Allele", "T")] r).1) = None
    /\ od_get "-" (_vep_allele (csq_alt_index [("Allele", "T")] r).1) = Some 1
    /\ (csq_alt_index [("Allele", spec_missing_marker)] r).2 = Raise KeyError
    /\ (csq_alt_index [("Allele", "-")] r).2 = Ok 1%Z.
Proof. eexists. repeat split; reflexivity. Qed.

(** The untrimmed keys are gone after the rebuild: an annotation that
    names the second allele in full is not found. *)
Example csq_untrimmed_key_missing :
  exists r, VcfRecord_init C6_line = Ok r
    /\ (csq_alt_index [("Allele", "AT")] r).2 = Raise KeyError.
Proof. eexists. split; reflexivity. Qed.

(** ** Header construction *)

Lemma string_app_empty_r (a : string) : a +:+ "" = a.
Proof.
  induction a as [|x a IH]; [reflexivity|].
  change (String x (a +:+ "") = String x a). by rewrite IH.
Qed.

Lemma meta_key_Some acc rest k v :
  meta_key acc rest = Some (k, v) ->
  exists k', k = acc +:+ k' /\ rest = k' +:+ String "=" v.
Proof.
  revert acc. induction rest as [|c rest IH]; intros acc; simpl; [done|].
  destruct (Ascii.eqb_spec c "=") as [->|Hne].
  - intros [= <- <-]. exists "". by rewrite string_app_empty_r.
  - destruct (py_isspace c); [done|]. intros H.
    destruct (IH _ H) as (k' & -> & ->).
    exists (String c k'). split; [|reflexivity].
    by rewrite string_app_assoc.
Qed.

(** The test of [_parse_metadata] on the first line succeeds only for a
    line that starts with the file format key. *)
Lemma _meta_re_match_fileformat line v :
  _meta_re_match line = Some ("fileformat", v) ->
  declares_fileformat line = true.
Proof.
  unfold _meta_re_match, declares_fileformat.
  destruct line as [|c1 [|c2 [|c line]]]; try done.
  destruct (Ascii.eqb_spec c1 "#") as [->|?]; [|done].
  destruct (Ascii.eqb_spec c2 "#") as [->|?]; [|done].
  destruct (py_isspace c); [done|]. simpl.
  destruct (meta_key (str1 c) line) as [[k w]|] eqn:E; [|done].
  intros [= -> <-].
  destruct (meta_key_Some _ _ _ _ E) as (k' & Hk & ->).
  change (str1 c +:+ k') with (String c k') in Hk.
  injection Hk as <- <-. reflexivity.
Qed.

Lemma py_startswith_app s p :
  py_startswith s p = true -> exists t, s = p +:+ t.
Proof.
  revert s. induction p as [|c p IH]; intros s; simpl.
  - intros _. by exists s.
  - destruct s as [|d s]; [done|].
    destruct (Ascii.eqb_spec d c) as [->|?]; [|done]. simpl.
    intros H. destruct (IH _ H) as [t ->]. by exists t.
Qed.

Lemma declares_fileformat_match line :
  declares_fileformat line = true ->
  exists v, _meta_re_match line = Some ("fileformat", v).
Proof.
  unfold declares_fileformat. intros H.
  apply py_startswith_app in H as [t ->]. vm_compute. eexists. reflexivity.
Qed.

Lemma check_columns_valid cols :
  take 8 cols = essential_columns ->
  check_columns 0 essential_columns cols = Ok tt.
Proof.
  intros H.
  do 8 (destruct cols as [|? cols]; [done|]).
  injection H as -> -> -> -> -> -> -> ->. reflexivity.
Qed.

(** C7, as the code behaves.  For a header with valid column names and at
    least one metaheader line, if the first line does not declare the file
    format then construction fails at once, before any line is parsed,
    with the exception class ParseError (the one used for records), not
    with HeaderError. *)
Theorem C7_missing_fileformat (parse_line : string -> M VcfHeader unit)
    (first : string) (rest cols : list string) :
  valid_columns cols ->
  declares_fileformat first = false ->
  VcfHeader_init parse_line (first :: rest) cols
  = (blank_header (first :: rest) cols, Raise ParseError).
Proof.
  intros [Hc Hf] Hd. unfold VcfHeader_init.
  unfold bindM at 1. unfold liftR at 1. rewrite (check_columns_valid _ Hc).
  unfold bindM at 1.
  assert (Hfmt : forall s : VcfHeader,
             (if (8 <? length cols)%nat
              then match cols !! 8 with
                   | Some c => if String.eqb c "FORMAT" then ret tt
                               else raise HeaderError
                   | None => raise IndexError
                   end
              else ret tt) s = (s, Ok tt)).
  { intros s. destruct (Nat.ltb_spec 8 (length cols)); [|reflexivity].
    by rewrite Hf. }
  rewrite Hfmt. unfold _parse_metadata. munfold. simpl.
  destruct (_meta_re_match first) as [[k v]|] eqn:E; [|done].
  destruct (String.eqb_spec k "fileformat") as [->|Hne]; [|done].
  apply _meta_re_match_fileformat in E. congruence.
Qed.

Lemma C7_missing_fileformat_witness :
  (VcfHeader_init (fun _ => ret tt) ["##source=caller"; "##fileformat=VCFv4.2"]
     essential_columns).2 = Raise ParseError.
Proof.
  rewrite C7_missing_fileformat; [reflexivity| |reflexivity].
  split; [reflexivity | simpl; lia].
Defined.

(** C7 as the spec states it fails: a header whose first line is not the
    file format line is refused with ParseError, which is not the header
    error. *)
Lemma C7_counterexample :
  (VcfHeader_init (fun _ => ret tt) ["##source=caller"] essential_columns).2
  = Raise ParseError
  /\ (VcfHeader_init (fun _ => ret tt) ["##source=caller"] essential_columns).2
     <> Raise HeaderError.
Proof. split; [reflexivity | vm_compute; discriminate]. Qed.

(** The other failures of construction that come before or instead of it:
    a bad column name is a HeaderError, too few columns or no metaheader
    line at all an IndexError. *)
Example header_bad_column :
  (VcfHeader_init (fun _ => ret tt) ["##source=caller"]
     ["#CHROM"; "POS"; "REF"]).2 = Raise HeaderError.
Proof. reflexivity. Qed.

Example header_short_columns :
  (VcfHeader_init (fun _ => ret tt) ["##source=caller"] ["#CHROM"; "POS"]).2
  = Raise IndexError.
Proof. reflexivity. Qed.

Example header_no_metaheader :
  (VcfHeader_init (fun _ => ret tt) [] essential_columns).2 = Raise IndexError.
Proof. reflexivity. Qed.

(** ** The type registry *)

(** What [_set_field_translation] does for a declaration with a known
    Type: the class follows the Type, the multi-valued mark follows the
    Number alone. *)
Lemma _set_field_translation_unfold h field_type field f decls type number :
  metadata_lookup h field_type field = Ok (f :: decls) ->
  f !! "Type" = Some type -> known_type type ->
  f !! "Number" = Some number ->
  _set_field_translation field_type field h =
  let ctype := if String.eqb type "String" || String.eqb type "Character"
               then Some Cstr
               else if String.eqb type "Float" then Some Cfloat
               else if String.eqb type "Integer" then Some Cint
               else None in
  let store (split : bool) :=
    if String.eqb field_type "INFO" then
      (set__info_field_translater
         (<[field := (ctype, split)]> (_info_field_translater h)) h, Ok tt)
    else if String.eqb field_type "FORMAT" then
      (set__format_field_translater
         (<[field := (ctype, split)]> (_format_field_translater h)) h, Ok tt)
    else (h, Raise ParseError) in
  if py_isdigit number then
    match py_int number with
    | Some n => store (1 <? n)%Z
    | None => (h, Raise ValueError)
    end
  else store true.
Proof.
  intros Hl Ht Hk Hn. unfold _set_field_translation, getitem. munfold.
  rewrite Hl, Ht, Hn. simpl.
  destruct Hk as [->|[->|[->|[->| ->]]]]; simpl;
    (destruct (py_isdigit number); [destruct (py_int number)|]);
    simpl; try reflexivity;
    destruct (String.eqb field_type "INFO"); try reflexivity;
    destruct (String.eqb field_type "FORMAT"); reflexivity.
Qed.

(** C5, as the code decides it.  For a declared INFO or FORMAT field with
    a known Type: when the Number is a string of digits that the integer
    conversion rejects (a superscript two is such a digit), a ValueError is
    raised and the header is left as it was, without an entry for the
    field; in every other case the registry entry is written, its class is
    absent exactly for a Flag, and the field is marked not multi-valued
    exactly when the Number is a string of digits with value at most 1 (so
    for 1 and for 0), whatever the Type: every digit string above 1 and
    every Number that is not a digit string (A, G, R, a dot) gives
    multi-valued, also for a Flag. *)
Theorem C5_multi_valued (h : VcfHeader) (field_type field : string)
    (f : gmap string string) (decls : list (gmap string string))
    (type number : string) :
  field_type = "INFO" \/ field_type = "FORMAT" ->
  metadata_lookup h field_type field = Ok (f :: decls) ->
  f !! "Type" = Some type -> known_type type ->
  f !! "Number" = Some number ->
  (unconvertible_digits number ->
   _set_field_translation field_type field h = (h, Raise ValueError))
  /\ (~ unconvertible_digits number ->
      exists (c : option ctype) (split : bool),
        (_set_field_translation field_type field h).2 = Ok tt
        /\ translater field_type (_set_field_translation field_type field h).1
             !! field = Some (c, split)
        /\ (split = false <-> few_digits number)
        /\ (c = None <-> type = "Flag")).
Proof.
  intros Hft Hl Ht Hk Hn.
  rewrite (_set_field_translation_unfold _ _ _ _ _ _ _ Hl Ht Hk Hn).
  set (c := if String.eqb type "String" || String.eqb type "Character"
            then Some Cstr
            else if String.eqb type "Float" then Some Cfloat
            else if String.eqb type "Integer" then Some Cint
            else None).
  assert (Hc : c = None <-> type = "Flag").
  { subst c. destruct Hk as [->|[->|[->|[->| ->]]]]; simpl; split; done. }
  assert (Hstore : forall split,
    let res := (if String.eqb field_type "INFO" then
                  (set__info_field_translater
                     (<[field := (c, split)]> (_info_field_translater h)) h, Ok tt)
                else if String.eqb field_type "FORMAT" then
                  (set__format_field_translater
                     (<[field := (c, split)]> (_format_field_translater h)) h, Ok tt)
                else (h, Raise ParseError)) in
    res.2 = Ok tt /\ translater field_type res.1 !! field = Some (c, split)).
  { intros split. unfold translater.
    destruct Hft as [-> | ->]; simpl; split; try reflexivity;
      apply lookup_insert_eq. }
  simpl. split.
  - intros [Hd Hi]. by rewrite Hd, Hi.
  - intros Hconv. destruct (py_isdigit number) eqn:Hd.
    + destruct (py_int number) as [n|] eqn:Hi; [|by destruct Hconv].
      exists c, (1 <? n)%Z. destruct (Hstore (1 <? n)%Z) as [H1 H2].
      split; [exact H1|]. split; [exact H2|]. split; [|exact Hc].
      split.
      * intros Hlt. exists n. split; [done|]. split; [done|].
        apply Z.ltb_ge. exact Hlt.
      * intros (m & _ & Hm & Hle). rewrite Hi in Hm. injection Hm as <-.
        by apply Z.ltb_ge.
    + exists c, true. destruct (Hstore true) as [H1 H2].
      split; [exact H1|]. split; [exact H2|]. split; [|exact Hc].
      split; [done|]. intros (m & Hm & _). congruence.
Qed.

Lemma C5_multi_valued_witness :
  (exists c split,
     (_set_field_translation "INFO" "AC" (header_declaring "AC" "A" "Integer")).2
     = Ok tt
     /\ translater "INFO"
          (_set_field_translation "INFO" "AC"
             (header_declaring "AC" "A" "Integer")).1 !! "AC" = Some (c, split)
     /\ (split = false <-> few_digits "A")
     /\ (c = None <-> "Integer" = "Flag"))
  /\ _set_field_translation "INFO" "AC"
       (header_declaring "AC" superscript_two "Integer")
     = (header_declaring "AC" superscript_two "Integer", Raise ValueError).
Proof.
  assert (Hk : known_type "Integer") by (unfold known_type; tauto).
  split.
  - refine (proj2 (C5_multi_valued (header_declaring "AC" "A" "Integer")
                     "INFO" "AC" _ _ "Integer" "A"
                     (or_introl eq_refl) eq_refl eq_refl Hk eq_refl) _).
    intros [Hd _]. discriminate Hd.
  - refine (proj1 (C5_multi_valued (header_declaring "AC" superscript_two "Integer")
                     "INFO" "AC" _ _ "Integer" superscript_two
                     (or_introl eq_refl) eq_refl eq_refl Hk eq_refl) _).
    split; reflexivity.
Defined.

(** C5 as the spec states it fails in both directions: a Flag declared
    with Number=. is marked multi-valued, where the spec's rule says a Flag
    never is; an Integer declared with Number=0 is marked not multi-valued,
    where the spec's rule says only Number 1 or a Flag is. *)
Lemma C5_counterexample :
  (_info_field_translater
     (_set_field_translation "INFO" "DB" (header_declaring "DB" "." "Flag")).1
     !! "DB" = Some (None, true)
   /\ spec_multi_valued "." "Flag" = false)
  /\ (_info_field_translater
        (_set_field_translation "INFO" "N0" (header_declaring "N0" "0" "Integer")).1
        !! "N0" = Some (Some Cint, false)
      /\ spec_multi_valued "0" "Integer" = true).
Proof. repeat split; reflexivity. Qed.

(** The cases the spec lists do come out as it says. *)
Example few_digits_1 : few_digits "1".
Proof. exists 1%Z. split; [reflexivity|]. split; [reflexivity | lia]. Qed.

Example not_few_digits_2 : ~ few_digits "2".
Proof. intros (n & _ & H & Hle). vm_compute in H. injection H as <-. lia. Qed.

Example not_few_digits_codes :
  ~ few_digits "A" /\ ~ few_digits "G" /\ ~ few_digits "R" /\ ~ few_digits ".".
Proof. repeat split; intros (n & H & _); vm_compute in H; discriminate. Qed.

(** ** Parsed genotypes *)

Lemma mapR_int_fails (tokens : list string) x :
  x ∈ tokens -> py_int x = None ->
  exists e, mapR (fun x => match py_int x with
                           | Some n => Ok n
                           | None => Raise ValueError
                           end) tokens = Raise e.
Proof.
  intros Hin Hx. induction tokens as [|t tokens IH]; [by apply elem_of_nil in Hin|].
  simpl. apply elem_of_cons in Hin as [<-|Hin].
  - rewrite Hx. simpl. eauto.
  - destruct (py_int t); simpl; [|eauto].
    destruct (IH Hin) as [e ->]. simpl. eauto.
Qed.

Lemma map_const_replicate {A B} (b : B) (l : list A) :
  map (fun _ => b) l = replicate (length l) b.
Proof. induction l as [|a l IH]; simpl; [done|]. by rewrite IH. Qed.

Lemma dots_positive tokens : "." ∈ tokens -> 0 < dots tokens.
Proof.
  intros H. unfold dots.
  assert (Hin : "." ∈ filter (fun x => String.eqb x "." = true) tokens)
    by (apply list_elem_of_filter; split; [reflexivity | exact H]).
  destruct (filter _ tokens); [by apply elem_of_nil in Hin | simpl; lia].
Qed.

Lemma dots_zero tokens : "." ∉ tokens -> dots tokens = 0.
Proof.
  intros H. unfold dots.
  destruct (filter (fun x => String.eqb x "." = true) tokens) as [|t l] eqn:E;
    [done|].
  assert (Hin : t ∈ filter (fun x => String.eqb x "." = true) tokens)
    by (rewrite E; apply elem_of_cons; by left).
  apply list_elem_of_filter in Hin as [Ht Hin].
  apply String.eqb_eq in Ht. subst t. done.
Qed.

(** The GT branch on a value with a token that is not an integer. *)
Lemma parse_GT_not_int val x :
  x ∈ gt_tokens val -> py_int x = None ->
  parse_GT (Some val)
  = match dots (gt_tokens val) with
    | O => Raise NameError
    | n => Ok (PTuple (replicate n None))
    end.
Proof.
  intros Hin Hx. unfold parse_GT.
  destruct (mapR_int_fails _ _ Hin Hx) as [e ->].
  rewrite map_const_replicate. fold (dots (gt_tokens val)).
  by destruct (dots (gt_tokens val)).
Qed.

(** For the field GT a translation is always found, in the header or in
    [COMMON_FORMAT], so the result is that of the GT branch. *)
Lemma _get_parsed_gt_fields_GT fa h val :
  (_get_parsed_gt_fields fa "GT" [Some val] h).2
  = (doR p <- parse_GT (Some val) ;; Ok [p]).
Proof.
  unfold _get_parsed_gt_fields. munfold. simpl.
  destruct (_format_field_translater h !! "GT"); simpl;
    by destruct (parse_GT (Some val)).
Qed.

(** C3, as the code behaves.  For a GT value with a token that does not
    convert to an integer: if at least one token is a dot, nothing is
    raised and the result is a tuple with one None for each dot token,
    whatever the other tokens are (so 0/. gives a tuple with a single
    None); if no token is a dot, an exception is raised. *)
Theorem C3_GT_not_all_int (float_accepts : string -> bool) (h : VcfHeader)
    (val x : string) :
  x ∈ gt_tokens val -> py_int x = None ->
  ("." ∈ gt_tokens val ->
   0 < dots (gt_tokens val)
   /\ (_get_parsed_gt_fields float_accepts "GT" [Some val] h).2
      = Ok [PTuple (replicate (dots (gt_tokens val)) None)])
  /\ ("." ∉ gt_tokens val ->
      exists e, (_get_parsed_gt_fields float_accepts "GT" [Some val] h).2 = Raise e).
Proof.
  intros Hin Hx. rewrite _get_parsed_gt_fields_GT, (parse_GT_not_int _ _ Hin Hx).
  split.
  - intros Hdot. pose proof (dots_positive _ Hdot) as Hpos.
    split; [exact Hpos|]. by destruct (dots (gt_tokens val)); [lia|].
  - intros Hdot. rewrite (dots_zero _ Hdot). simpl. eauto.
Qed.

Lemma C3_GT_not_all_int_witness :
  (_get_parsed_gt_fields (fun _ => false) "GT" [Some "0/."]
     (plain_header essential_columns)).2 = Ok [PTuple [None]].
Proof.
  refine (proj2 (proj1 (C3_GT_not_all_int (fun _ => false)
                          (plain_header essential_columns) "0/." "." _ _) _)).
  - apply elem_of_cons. right. apply elem_of_cons. by left.
  - reflexivity.
  - apply elem_of_cons. right. apply elem_of_cons. by left.
Defined.

(** C3 as the spec states it fails: the mixed value 0/. raises nothing and
    yields a no-call tuple of length one. *)
Lemma C3_counterexample :
  (exists x, x ∈ gt_tokens "0/." /\ py_int x = None)
  /\ (exists x, x ∈ gt_tokens "0/." /\ x <> ".")
  /\ (_get_parsed_gt_fields (fun _ => false) "GT" [Some "0/."]
        (plain_header essential_columns)).2 = Ok [PTuple [None]]
  /\ (_get_parsed_gt_fields (fun _ => false) "GT" [Some "0/."]
        (plain_header essential_columns)).2 <> Raise ParseError.
Proof.
  split; [|split; [|split]].
  - exists ".". split; [|reflexivity].
    apply elem_of_cons. right. apply elem_of_cons. by left.
  - exists "0". split; [|done]. apply elem_of_cons. by left.
  - reflexivity.
  - vm_compute. discriminate.
Qed.

(** The examples of the spec that hold, and the value 0/x: the exception
    it raises comes from the misspelt class name in the [raise] statement
    and is a NameError. *)
Example GT_called :
  parse_GT (Some "0/1") = Ok (PTuple [Some (SInt 0); Some (SInt 1)]).
Proof. reflexivity. Qed.

Example GT_no_call : parse_GT (Some "./.") = Ok (PTuple [None; None]).
Proof. reflexivity. Qed.

Example GT_malformed : parse_GT (Some "0/x") = Raise NameError.
Proof. reflexivity. Qed.

(** ** Adding INFO fields *)

(** A boolean value contributes two tokens: the bare key, and the key with
    the text of the boolean. *)
Lemma info_tokens_bool f b :
  info_tokens (f, VAtom (ABool b))
  = [f; f +:+ "=" +:+ (if b then "True" else "False")].
Proof. by destruct b. Qed.

Lemma info_tokens_str f s : info_tokens (f, VAtom (AStr s)) = [f +:+ "=" +:+ s].
Proof. reflexivity. Qed.

Lemma info_tokens_list f l :
  info_tokens (f, VList l) = [f +:+ "=" +:+ py_join "," (map py_str_atom l)].
Proof. reflexivity. Qed.

(** [_rewrite_info_string] unfolded. *)
Lemma _rewrite_info_string_unfold r :
  _rewrite_info_string r =
  let info := py_join ";" (flat_map info_tokens (info_view r)) in
  let r1 := set_INFO info (set___INFO_FIELDS (Some (info_view r)) r) in
  if (7 <? length (cols r))%nat then (set_cols (<[7 := info]> (cols r)) r1, Ok tt)
  else (r1, Raise IndexError).
Proof.
  unfold _rewrite_info_string. unfold bindM at 1. rewrite INFO_FIELDS_value.
  munfold. simpl. by destruct (7 <? length (cols r))%nat.
Qed.

(** When [add_info_fields] returns, the INFO attribute and the eighth raw
    column both hold the tokens of the structured view joined with
    semicolons, in the order of the view. *)
Lemma add_info_fields_rebuilds h info append_existing r :
  (add_info_fields h info append_existing r).2 = Ok tt ->
  let r' := (add_info_fields h info append_existing r).1 in
  INFO r' = py_join ";" (flat_map info_tokens (info_view r'))
  /\ cols r' !! 7 = Some (INFO r').
Proof.
  unfold add_info_fields, bindM.
  destruct (forM_ _ _ r) as [s [[]|e]]; [|done].
  rewrite _rewrite_info_string_unfold. simpl.
  destruct (Nat.ltb_spec 7 (length (cols s))) as [Hlen|Hlen]; simpl; [|done].
  intros _. split; [reflexivity|].
  by apply list_lookup_insert_eq.
Qed.

(** C2 on a record with a flag.  After add_info_fields on a record whose
    INFO holds the flag DB, the flag is still the boolean True in the
    structured view, but the rebuilt INFO column holds the bare key
    followed by a second token DB=True: the loop of _rewrite_info_string
    tests for a boolean with an [if] that is not chained to the [if]/[else]
    after it.  A reader of the rendered record decodes DB as the string
    True, so the text and the structured view diverge. *)
Theorem C2_flag_rendered_twice :
  exists r,
    VcfRecord_init C2_line = Ok r
    /\ let r' := (add_info_fields (plain_header essential_columns) C2_info false r).1 in
       (add_info_fields (plain_header essential_columns) C2_info false r).2 = Ok tt
       /\ info_view r' = [("DB", VAtom (ABool true)); ("DP", VAtom (AStr "3"));
                          ("AC", VList [AStr "3"; AStr "4"])]
       /\ INFO r' = "DB;DB=True;DP=3;AC=3,4"
       /\ __str__ r' = py_join (str1 TAB)
                         ["1"; "100"; "."; "A"; "G"; "."; "."; "DB;DB=True;DP=3;AC=3,4"]
       /\ decode_info (INFO r')
          = [("DB", VAtom (AStr "True")); ("DP", VAtom (AStr "3"));
             ("AC", VAtom (AStr "3,4"))].
Proof. eexists. split; [reflexivity|]. repeat split; reflexivity. Qed.

(** Without a boolean in the view the rebuilt column decodes to the keys
    it was built from, in the same order. *)
Example add_info_fields_without_flag :
  exists r,
    VcfRecord_init C10_line = Ok r
    /\ let r' := (add_info_fields (plain_header essential_columns) C2_info false r).1 in
       INFO r' = "DP=3;END=150;AC=3,4"
       /\ map fst (decode_info (INFO r')) = map fst (info_view r').
Proof. eexists. split; [reflexivity|]. split; reflexivity. Qed.

(** ** Phasing *)

(** C4 on records without a FORMAT column.  A record read from a line
    with eight columns has no FORMAT fields, so it lacks the phase-id
    field; the membership test on its GT_FORMAT, which is None, raises a
    TypeError instead of letting in_cis_with return false. *)
Theorem C4_in_cis_with_raises (S : Type) (self other : objref S)
    (h h' : VcfHeader) (sample : string) (allele other_allele : Z) (s : S) :
  GT_FORMAT (deref self s) = None ->
  assign self (deref self s) s = s ->
  in_cis_with self other h h' sample allele other_allele s = (s, Raise TypeError).
Proof.
  intros H Hs. unfold in_cis_with, lacks_field, not_in_GT_FORMAT. munfold.
  rewrite H. simpl. by rewrite Hs.
Qed.

Lemma C4_in_cis_with_raises_witness :
  exists r,
    VcfRecord_init C4_sites_only_line = Ok r
    /\ in_cis_with fst_ref snd_ref (plain_header essential_columns)
         (plain_header essential_columns) "S1" 1 1 (r, r)
       = ((r, r), Raise TypeError).
Proof.
  eexists. split; [reflexivity|].
  apply (C4_in_cis_with_raises _ fst_ref snd_ref); reflexivity.
Defined.

(** The examples of the spec: the same phase-id and the allele at
    different places of the two phase-genotypes gives false, at the same
    place gives true. *)
Example in_cis_with_trans :
  exists r1 r2,
    VcfRecord_init (C4_record "100" "0|1") = Ok r1
    /\ VcfRecord_init (C4_record "105" "1|0") = Ok r2
    /\ (in_cis_with fst_ref snd_ref C4_header C4_header "S1" 1 1 (r1, r2)).2
       = Ok false.
Proof. do 2 eexists. split; [reflexivity|]. split; reflexivity. Qed.

Example in_cis_with_cis :
  exists r1 r2,
    VcfRecord_init (C4_record "100" "0|1") = Ok r1
    /\ VcfRecord_init (C4_record "105" "0|1") = Ok r2
    /\ (in_cis_with fst_ref snd_ref C4_header C4_header "S1" 1 1 (r1, r2)).2
       = Ok true.
Proof. do 2 eexists. split; [reflexivity|]. split; reflexivity. Qed.

(** A record compared with itself is one object referred to twice. *)
Example in_cis_with_itself :
  exists r,
    VcfRecord_init (C4_record "100" "0|1") = Ok r
    /\ (in_cis_with self_ref self_ref C4_header C4_header "S1" 1 1 r).2 = Ok true
    /\ (in_cis_with self_ref self_ref C4_header C4_header "S2" 1 1 r).2 = Ok false.
Proof. eexists. split; [reflexivity|]. split; reflexivity. Qed.

(** ** Phasing on records that carry genotypes *)

Lemma mapM_const_state {S A B} (f : A -> M S B) (g : A -> B) (xs : list A) (s : S) :
  (forall x, x ∈ xs -> f x s = (s, Ok (g x))) ->
  mapM f xs s = (s, Ok (map g xs)).
Proof.
  induction xs as [|x xs IH]; intros H; [reflexivity|].
  simpl. unfold bindM at 1. rewrite H by (apply elem_of_cons; by left).
  unfold bindM at 1. rewrite IH; [reflexivity|].
  intros y Hy. apply H, elem_of_cons. by right.
Qed.

Lemma fold_insert_lookup {V} (f : string -> V) (names : list string)
    (m : gmap string V) (s : string) :
  fold_left (fun m kv => <[kv.1 := kv.2]> m) (map (fun x => (x, f x)) names) m !! s
  = if decide (s ∈ names) then Some (f s) else m !! s.
Proof.
  revert m. induction names as [|x names IH]; intros m; simpl.
  - destruct (decide (s ∈ [])) as [H|]; [by apply elem_of_nil in H | done].
  - rewrite IH. destruct (decide (s ∈ names)) as [Hin|Hnin].
    + rewrite decide_True; [done | apply elem_of_cons; by right].
    + destruct (decide (s = x)) as [->|Hne].
      * rewrite decide_True by (apply elem_of_cons; by left).
        apply lookup_insert_eq.
      * rewrite decide_False by (rewrite elem_of_cons; tauto).
        by rewrite lookup_insert_ne.
Qed.

Lemma dict_of_map_lookup {V} (f : string -> V) (names : list string) (s : string) :
  dict_of (map (fun x => (x, f x)) names) !! s
  = if decide (s ∈ names) then Some (f s) else None.
Proof. unfold dict_of. rewrite fold_insert_lookup. by rewrite lookup_empty. Qed.

Lemma sample_column_cols h r r' s :
  cols r' = cols r -> sample_column h r' s = sample_column h r s.
Proof. intros H. unfold sample_column, full_cols. by rewrite H. Qed.

(** The first access to [CALLS] on a record with all sample columns. *)
Lemma CALLS_splits h r :
  sample_columns_present h r -> __CALLS r = None ->
  let c := dict_of (map (fun s => (s, default "" (sample_column h r s)))
                        (default [] (samples h))) in
  CALLS h r = (set___CALLS (Some c) (set_cols (full_cols r) r), Ok c).
Proof.
  intros (names & Hs & Hne & Hcols) Hc. simpl.
  destruct names as [|n0 names]; [done|].
  destruct (Hcols n0 ltac:(apply elem_of_cons; by left)) as [c0 Hc0].
  unfold sample_column in Hc0.
  destruct (sample_cols h) as [sc|] eqn:Hsc; [|done].
  destruct (sc !! n0) as [i0|] eqn:Hi0; [|done].
  unfold full_cols in Hc0.
  destruct (list_pop (cols r)) as [[l x]|] eqn:Hpop;
    [|by rewrite lookup_nil in Hc0].
  assert (Hsize : (size sc =? 0)%nat = false).
  { apply Nat.eqb_neq. intros Hz. apply map_size_empty_iff in Hz. subst sc.
    by rewrite lookup_empty in Hi0. }
  unfold CALLS. unfold bindM at 1, get at 1. rewrite Hc, Hsc, Hsize. simpl.
  unfold bindM at 1, liftR at 1. rewrite Hpop.
  unfold bindM at 1, modify at 1. simpl.
  unfold bindM at 1, liftR at 1. rewrite Hs.
  unfold bindM at 1.
  rewrite (mapM_const_state _ (fun s => (s, default "" (sample_column h r s)))).
  - unfold full_cols. rewrite Hpop. reflexivity.
  - intros s Hin. destruct (Hcols s Hin) as [c Hcs].
    unfold sample_column in *. rewrite Hsc in *.
    destruct (sc !! s) as [i|] eqn:Hi; [|done].
    unfold full_cols in Hcs. rewrite Hpop in Hcs.
    unfold getitem. munfold. simpl. rewrite Hi. simpl.
    unfold full_cols. by rewrite Hpop, Hcs.
Qed.

Section genotyped.
Variable h : VcfHeader.
Variable r0 : VcfRecord.
Hypothesis Hgen : genotyped h r0.

Lemma decoding_CALLS g r :
  decoding h r0 g r ->
  exists r', CALLS h r = (r', Ok (calls_of h r0)) /\ decoding h r0 g r'.
Proof.
  intros Hdec. pose proof Hdec as (Hf & Hg & Hc & Hd).
  destruct Hc as [Hc|[Hc Hcols]].
  - exists r. split; [|exact Hdec]. unfold CALLS. munfold. by rewrite Hc.
  - assert (Hp : sample_columns_present h r).
    { destruct Hgen as ((names & H1 & H2 & H3) & _).
      exists names. repeat split; try done.
      intros s Hs. rewrite (sample_column_cols h r0 r s Hcols). by apply H3. }
    eexists. split.
    + rewrite (CALLS_splits h r Hp Hc). simpl.
      replace (map (fun s => (s, default "" (sample_column h r s)))
                   (default [] (samples h)))
        with (map (fun s => (s, default "" (sample_column h r0 s)))
                  (default [] (samples h))).
      * reflexivity.
      * apply map_ext. intros s. by rewrite (sample_column_cols h r0 r s Hcols).
    + split; [done|]. split; [done|]. split; [|done]. left. reflexivity.
Qed.

Lemma calls_lookup s :
  s ∈ default [] (samples h) ->
  calls_of h r0 !! s = Some (default "" (sample_column h r0 s)).
Proof.
  intros Hin. unfold calls_of.
  rewrite (dict_of_map_lookup (fun s => default "" (sample_column h r0 s))).
  by rewrite decide_True.
Qed.

(** Decoding one sample of the header. *)
Lemma decoding_get_sample_call g r s :
  decoding h r0 g r -> s ∈ default [] (samples h) ->
  exists r', get_sample_call h s r = (r', Ok (gts_of h r0 s))
             /\ decoding h r0 (<[s := gts_of h r0 s]> g) r'.
Proof.
  intros Hdec Hin. pose proof Hdec as (Hf & Hg & Hc & Hd).
  unfold get_sample_call. unfold bindM at 1, get at 1. rewrite Hg.
  destruct (g !! s) as [d|] eqn:Hgs.
  - exists r. rewrite (Hd _ _ Hgs) in Hgs |- *. split; [reflexivity|].
    rewrite insert_id by exact Hgs. exact Hdec.
  - destruct (decoding_CALLS g r Hdec) as (r1 & HC & Hdec1).
    destruct Hdec1 as (Hf1 & Hg1 & Hc1 & Hd1).
    unfold bindM at 1. rewrite HC. rewrite (calls_lookup s Hin).
    destruct Hgen as ((names & H1 & H2 & H3) & [fmt Hfmt] & _).
    rewrite Hf, Hfmt, H1.
    munfold. simpl.
    set (r2 := set__SAMPLE_GTS (<[s := gts_of h r0 s]> (_SAMPLE_GTS r1)) r1).
    exists (if (size (_SAMPLE_GTS r2) =? length names)%nat
            then set__got_gts true r2 else r2).
    assert (Hins : forall s0 d,
               <[s := gts_of h r0 s]> g !! s0 = Some d -> d = gts_of h r0 s0).
    { intros s0 d. destruct (decide (s = s0)) as [<-|Hne].
      - rewrite lookup_insert_eq. by intros [= <-].
      - rewrite lookup_insert_ne by done. apply Hd. }
    assert (Hgts : gts_of h r0 s = dict_of (zip_list fmt
                     (py_split ":" (default "" (sample_column h r0 s))))).
    { unfold gts_of, call_dict. by rewrite Hfmt. }
    subst r2. rewrite Hgts in *. simpl. rewrite Hg1.
    destruct (size _ =? length names)%nat; simpl;
      (split; [reflexivity|]); (split; [done|]); (split; [reflexivity|]);
      (split; [exact Hc1 | exact Hins]).
Qed.

Lemma get_sample_call_got_gts s :
  preserves (fun r => _got_gts r = true) (get_sample_call h s).
Proof.
  unfold get_sample_call, CALLS.
  pres ltac:(intros ? H; first [exact H | reflexivity]).
Qed.

(** Decoding a list of samples of the header, one after the other. *)
Lemma decoding_mapM g r names :
  decoding h r0 g r -> (forall s, s ∈ names -> s ∈ default [] (samples h)) ->
  exists r',
    mapM (fun s => do d <- get_sample_call h s ;; ret (s, d)) names r
    = (r', Ok (map (fun s => (s, gts_of h r0 s)) names))
    /\ decoding h r0 (fold_left (fun m kv => <[kv.1 := kv.2]> m)
                           (map (fun s => (s, gts_of h r0 s)) names) g) r'
    /\ (_got_gts r = true -> _got_gts r' = true).
Proof.
  revert g r. induction names as [|s names IH]; intros g r Hdec Hin.
  - exists r. done.
  - destruct (decoding_get_sample_call g r s Hdec) as (r1 & H1 & Hdec1).
    { apply Hin, elem_of_cons. by left. }
    destruct (IH _ r1 Hdec1) as (r2 & H2 & Hdec2 & Hgot2).
    { intros x Hx. apply Hin, elem_of_cons. by right. }
    exists r2. split; [|split; [exact Hdec2|]].
    + simpl. unfold bindM at 1. unfold bindM at 1. rewrite H1.
      unfold ret at 1. unfold bindM at 1. rewrite H2. reflexivity.
    + intros Hgot. apply Hgot2.
      pose proof (get_sample_call_got_gts s r Hgot) as Hp. by rewrite H1 in Hp.
Qed.

(** The first call of [sample_calls] decodes every sample; the next call
    returns the same dictionaries from the cache. *)
Lemma genotyped_sample_calls :
  exists r',
    sample_calls h r0 = (r', Ok (sample_dicts h r0))
    /\ sample_calls h r' = (r', Ok (sample_dicts h r0))
    /\ GT_FORMAT r' = GT_FORMAT r0.
Proof.
  destruct Hgen as ((names & Hs & Hne & Hcols) & Hfmt & Hc & Hg & Hsg).
  assert (Hdec : decoding h r0 ∅ (set__got_gts true r0)).
  { split; [done|]. split; [exact Hsg|]. split; [by right|].
    intros s d. by rewrite lookup_empty. }
  destruct (decoding_mapM ∅ _ names Hdec) as (r' & Hm & Hdec' & Hgot).
  { intros s. by rewrite Hs. }
  destruct Hdec' as (Hf' & Hg' & _ & _).
  specialize (Hgot eq_refl).
  assert (HD : sample_dicts h r0
               = dict_of (map (fun s => (s, gts_of h r0 s)) names)).
  { unfold sample_dicts. by rewrite Hs. }
  exists r'. split; [|split; [|exact Hf']].
  - unfold sample_calls. unfold bindM at 1, get at 1. rewrite Hg.
    unfold bindM at 1, modify at 1. unfold bindM at 1, liftR at 1. rewrite Hs.
    unfold bindM at 1. rewrite Hm. unfold ret. by rewrite HD.
  - unfold sample_calls. munfold. rewrite Hgot, Hg', HD. reflexivity.
Qed.
End genotyped.

(** One field of one sample, read through [sample_calls] on a record that
    has decoded its samples or is about to. *)
Lemma sample_field_value h r r' D sample k :
  sample_calls h r = (r', Ok D) ->
  sample_field h sample k r
  = (r', match D !! sample ≫= (.!! k) with
         | Some v => Ok v
         | None => Raise KeyError
         end).
Proof.
  intros H. unfold sample_field, getitem. unfold bindM at 1. rewrite H.
  munfold. destruct (D !! sample) as [d|]; simpl; [|done].
  by destruct (d !! k).
Qed.

Lemma on_fst_ref {A} (m : M VcfRecord A) r1 r2 r1' a :
  m r1 = (r1', a) -> on fst_ref m (r1, r2) = ((r1', r2), a).
Proof. intros H. unfold on. simpl. by rewrite H. Qed.

Lemma on_snd_ref {A} (m : M VcfRecord A) r1 r2 r2' a :
  m r2 = (r2', a) -> on snd_ref m (r1, r2) = ((r1, r2'), a).
Proof. intros H. unfold on. simpl. by rewrite H. Qed.

Lemma on_self_ref {A} (m : M VcfRecord A) r r' a :
  m r = (r', a) -> on self_ref m r = (r', a).
Proof. intros H. unfold on. simpl. by rewrite H. Qed.

Lemma lacks_field_pair k r1 r2 :
  is_Some (GT_FORMAT r1) -> is_Some (GT_FORMAT r2) ->
  lacks_field fst_ref snd_ref k (r1, r2)
  = ((r1, r2), Ok (negb (both_have k r1 r2))).
Proof.
  intros [f1 H1] [f2 H2]. unfold lacks_field, both_have, not_in_GT_FORMAT, on.
  munfold. simpl. rewrite H1. simpl.
  destruct (str_in k f1); simpl; [|reflexivity]. by rewrite H2.
Qed.

Lemma phase_fields_pair h h' r1 r2 sample :
  genotyped h r1 -> genotyped h' r2 ->
  exists s,
    phase_fields fst_ref snd_ref h h' sample (r1, r2)
    = (s, Ok (phase_values (sample_dicts h r1 !! sample)
                           (sample_dicts h' r2 !! sample))).
Proof.
  intros G1 G2.
  destruct (genotyped_sample_calls h r1 G1) as (r1' & Ha1 & Hb1 & _).
  destruct (genotyped_sample_calls h' r2 G2) as (r2' & Ha2 & Hb2 & _).
  unfold phase_fields, catch, phase_values.
  unfold bindM at 1.
  rewrite (on_fst_ref _ _ _ _ _ (sample_field_value h r1 r1' _ sample "PID" Ha1)).
  destruct (sample_dicts h r1 !! sample ≫= (.!! "PID")) as [pid1|];
    [|eexists; reflexivity].
  unfold bindM at 1.
  rewrite (on_snd_ref _ _ _ _ _ (sample_field_value h' r2 r2' _ sample "PID" Ha2)).
  destruct (sample_dicts h' r2 !! sample ≫= (.!! "PID")) as [pid2|];
    [|eexists; reflexivity].
  unfold bindM at 1.
  rewrite (on_fst_ref _ _ _ _ _ (sample_field_value h r1' r1' _ sample "PGT" Hb1)).
  destruct (sample_dicts h r1 !! sample ≫= (.!! "PGT")) as [pgt1|];
    [|eexists; reflexivity].
  unfold bindM at 1.
  rewrite (on_snd_ref _ _ _ _ _ (sample_field_value h' r2' r2' _ sample "PGT" Hb2)).
  destruct (sample_dicts h' r2 !! sample ≫= (.!! "PGT")) as [pgt2|];
    eexists; reflexivity.
Qed.

Lemma in_cis_with_genotyped h h' r1 r2 sample a b :
  genotyped h r1 -> genotyped h' r2 ->
  (in_cis_with fst_ref snd_ref h h' sample a b (r1, r2)).2
  = Ok (both_have "PID" r1 r2 && both_have "PGT" r1 r2
        && phased_together (sample_dicts h r1 !! sample)
                           (sample_dicts h' r2 !! sample) a b).
Proof.
  intros G1 G2.
  destruct (phase_fields_pair h h' r1 r2 sample G1 G2) as (s & Hp).
  pose proof G1 as (_ & F1 & _). pose proof G2 as (_ & F2 & _).
  unfold in_cis_with.
  unfold bindM at 1. rewrite (lacks_field_pair "PID" r1 r2 F1 F2).
  destruct (both_have "PID" r1 r2); simpl; [|reflexivity].
  unfold bindM at 1. rewrite (lacks_field_pair "PGT" r1 r2 F1 F2).
  destruct (both_have "PGT" r1 r2); simpl; [|reflexivity].
  unfold bindM at 1. rewrite Hp.
  unfold phase_values, phased_together.
  destruct (sample_dicts h r1 !! sample ≫= (.!! "PID")) as [pid1|]; [|reflexivity].
  destruct (sample_dicts h' r2 !! sample ≫= (.!! "PID")) as [pid2|]; [|reflexivity].
  destruct (sample_dicts h r1 !! sample ≫= (.!! "PGT")) as [pgt1|]; [|reflexivity].
  destruct (sample_dicts h' r2 !! sample ≫= (.!! "PGT")) as [pgt2|]; [|reflexivity].
  destruct (String.eqb pid1 pid2); simpl; [|reflexivity].
  destruct (String.eqb pgt1 "."); simpl; [reflexivity|].
  destruct (String.eqb pgt2 "."); simpl; [reflexivity|].
  destruct (list_index (py_str_int a) (py_split "|" pgt1)); simpl; [|reflexivity].
  destruct (list_index (py_str_int b) (py_split "|" pgt2)); reflexivity.
Qed.

Lemma py_split_max_last sep s n l x :
  py_split_max sep s n = l ++ [x] -> l ++ py_split sep x = py_split sep s.
Proof.
  revert n l x. induction s as [|c s IH]; intros n l x H.
  - simpl in H. destruct l as [|y [|z l]]; [|done|done]. by injection H as <-.
  - simpl in H. destruct n as [|n].
    { destruct l as [|y [|z l]]; [|done|done]. by injection H as <-. }
    simpl. destruct (Ascii.eqb c sep) eqn:Hc.
    + destruct l as [|y l].
      { injection H as _ H. by apply py_split_max_nonempty in H. }
      injection H as <- H. simpl. f_equal. by apply (IH n).
    + pose proof (py_split_max_nonempty sep s (S n)) as Hne.
      destruct (py_split_max sep s (S n)) as [|w ws] eqn:E; [done|].
      destruct l as [|y l].
      * injection H as <- ->. simpl. rewrite Hc.
        by rewrite <- (IH (S n) [] w E).
      * injection H as <- ->.
        rewrite <- (IH (S n) (w :: l) x E). reflexivity.
Qed.

Lemma py_split_max_length sep s n :
  py_split_max sep s n = py_split sep s
  \/ length (py_split_max sep s n) = S n.
Proof.
  revert n. induction s as [|c s IH]; intros n; [by left|].
  simpl. destruct n as [|n]; [by right|].
  destruct (Ascii.eqb c sep).
  - destruct (IH n) as [->|Hl]; [by left|]. right. simpl. by rewrite Hl.
  - destruct (IH (S n)) as [->|Hl]; [by left|]. right.
    pose proof (py_split_max_nonempty sep s (S n)) as Hne.
    destruct (py_split_max sep s (S n)); [done|]. exact Hl.
Qed.

Lemma enumerate_lookup (names : list string) (k : nat) (m : gmap string nat) s :
  (s ∈ names ->
   exists i, fold_left (fun m kv => <[kv.1 := kv.2]> m) (enumerate_from k names) m !! s
             = Some i /\ k <= i < k + length names)
  /\ (s ∉ names ->
      fold_left (fun m kv => <[kv.1 := kv.2]> m) (enumerate_from k names) m !! s
      = m !! s).
Proof.
  revert k m. induction names as [|x names IH]; intros k m.
  - split; [intros H; by apply elem_of_nil in H | done].
  - simpl. destruct (IH (S k) (<[x := k]> m)) as [IH1 IH2].
    destruct (decide (s ∈ names)) as [Hin|Hnin].
    + split; [|intros H; exfalso; apply H, elem_of_cons; by right].
      intros _. destruct (IH1 Hin) as (i & Hi & Hr). exists i. split; [done|lia].
    + split.
      * intros H. apply elem_of_cons in H as [->|H]; [|done].
        exists k. rewrite (IH2 Hnin), lookup_insert_eq. split; [done|lia].
      * intros H. rewrite (IH2 Hnin). apply lookup_insert_ne.
        intros ->. apply H, elem_of_cons. by left.
Qed.

(** A record read from a line that has a column for every column of the
    header, under a header with at least one sample, is genotyped. *)
Lemma VcfRecord_init_genotyped meta col_header line r :
  VcfRecord_init line = Ok r ->
  9 < length col_header ->
  length col_header <= length (py_split TAB line) ->
  genotyped (blank_header meta col_header) r.
Proof.
  intros Hinit Hlen Hcols.
  pose proof (VcfRecord_init_cols _ _ Hinit) as Hc.
  assert (Hfresh : __CALLS r = None /\ _got_gts r = false /\ _SAMPLE_GTS r = ∅
                   /\ GT_FORMAT r = py_split ":" <$> cols r !! 8).
  { unfold VcfRecord_init in Hinit.
    destruct (take 8 (py_split_max TAB line 9))
      as [|? [|? [|? [|? [|? [|? [|? [|? [|]]]]]]]]]; try done.
    destruct (py_int _); [|done]. by injection Hinit as <-. }
  destruct Hfresh as (H1 & H2 & H3 & H4).
  assert (Hlong : 10 <= length (cols r)).
  { rewrite Hc. destruct (py_split_max_length TAB line 9) as [E|E];
      rewrite E; lia. }
  destruct (list_pop (cols r)) as [[l x]|] eqn:Hpop.
  2:{ unfold list_pop in Hpop. destruct (rev (cols r)) eqn:E; [|done].
      apply (f_equal (@length _)) in E. rewrite length_rev in E. simpl in E. lia. }
  pose proof (list_pop_Some _ _ _ Hpop) as Hlx.
  assert (Hfull : full_cols r = py_split TAB line).
  { unfold full_cols. rewrite Hpop. apply (py_split_max_last _ _ 9).
    by rewrite <- Hc. }
  assert (Hdrop : drop 9 col_header <> []).
  { intros E. apply (f_equal (@length _)) in E. rewrite length_drop in E.
    simpl in E. lia. }
  assert (Hsamples : samples (blank_header meta col_header)
                     = Some (drop 9 col_header)
                     /\ sample_cols (blank_header meta col_header)
                        = Some (dict_of (enumerate_from 9 (drop 9 col_header)))).
  { unfold blank_header. simpl. by destruct (drop 9 col_header). }
  destruct Hsamples as [Hs Hsc].
  split; [|split; [|done]].
  - exists (drop 9 col_header).
    split; [done|]. split; [done|].
    intros s Hin. unfold sample_column. rewrite Hsc.
    destruct (enumerate_lookup (drop 9 col_header) 9 ∅ s) as [He _].
    destruct (He Hin) as (i & Hi & Hr).
    unfold dict_of. rewrite Hi, Hfull.
    apply lookup_lt_is_Some. rewrite length_drop in Hr. lia.
  - rewrite H4. destruct (cols r !! 8) eqn:E; [by eexists|].
    apply lookup_ge_None in E. lia.
Qed.

Lemma genotyped_header_ext h h' r :
  samples h = samples h' -> sample_cols h = sample_cols h' ->
  genotyped h' r -> genotyped h r.
Proof.
  intros Hs Hsc ((names & H1 & H2 & H3) & Hrest).
  split; [|exact Hrest].
  exists names. rewrite Hs. split; [done|]. split; [done|].
  intros s Hin. unfold sample_column. rewrite Hsc. by apply H3.
Qed.

Lemma lacks_field_self k r :
  is_Some (GT_FORMAT r) ->
  lacks_field self_ref self_ref k r = (r, Ok (negb (both_have k r r))).
Proof.
  intros [f H]. unfold lacks_field, both_have, not_in_GT_FORMAT, on.
  munfold. simpl. rewrite H. simpl.
  destruct (str_in k f) eqn:E; simpl; [|reflexivity]. by rewrite H, E.
Qed.

Lemma phase_fields_self h r sample :
  genotyped h r ->
  exists s,
    phase_fields self_ref self_ref h h sample r
    = (s, Ok (phase_values (sample_dicts h r !! sample)
                           (sample_dicts h r !! sample))).
Proof.
  intros G.
  destruct (genotyped_sample_calls h r G) as (r' & Ha & Hb & _).
  unfold phase_fields, catch, phase_values.
  unfold bindM at 1.
  rewrite (on_self_ref _ _ _ _ (sample_field_value h r r' _ sample "PID" Ha)).
  destruct (sample_dicts h r !! sample ≫= (.!! "PID")) as [pid|] eqn:E1;
    [|eexists; reflexivity].
  unfold bindM at 1.
  rewrite (on_self_ref _ _ _ _ (sample_field_value h r' r' _ sample "PID" Hb)).
  rewrite E1.
  unfold bindM at 1.
  rewrite (on_self_ref _ _ _ _ (sample_field_value h r' r' _ sample "PGT" Hb)).
  destruct (sample_dicts h r !! sample ≫= (.!! "PGT")) as [pgt|] eqn:E2;
    [|eexists; reflexivity].
  unfold bindM at 1.
  rewrite (on_self_ref _ _ _ _ (sample_field_value h r' r' _ sample "PGT" Hb)).
  rewrite E2. eexists. reflexivity.
Qed.

(** A record compared with itself. *)
Lemma in_cis_with_genotyped_self h r sample a b :
  genotyped h r ->
  (in_cis_with self_ref self_ref h h sample a b r).2
  = Ok (both_have "PID" r r && both_have "PGT" r r
        && phased_together (sample_dicts h r !! sample)
                           (sample_dicts h r !! sample) a b).
Proof.
  intros G.
  destruct (phase_fields_self h r sample G) as (s & Hp).
  pose proof G as (_ & F & _).
  unfold in_cis_with.
  unfold bindM at 1. rewrite (lacks_field_self "PID" r F).
  destruct (both_have "PID" r r); simpl; [|reflexivity].
  unfold bindM at 1. rewrite (lacks_field_self "PGT" r F).
  destruct (both_have "PGT" r r); simpl; [|reflexivity].
  unfold bindM at 1. rewrite Hp.
  unfold phase_values, phased_together.
  destruct (sample_dicts h r !! sample ≫= (.!! "PID")) as [pid|]; [|reflexivity].
  destruct (sample_dicts h r !! sample ≫= (.!! "PGT")) as [pgt|]; [|reflexivity].
  destruct (String.eqb pid pid); simpl; [|reflexivity].
  destruct (String.eqb pgt "."); simpl; [reflexivity|].
  destruct (list_index (py_str_int a) (py_split "|" pgt)); simpl; [|reflexivity].
  destruct (list_index (py_str_int b) (py_split "|" pgt)); reflexivity.
Qed.

(** Where [in_cis_with] does degrade to false.  For two records read
    from lines that have a column for every column of their header, under
    headers that name at least one sample, [in_cis_with] raises nothing,
    for any sample name and any allele numbers: it returns false when a
    FORMAT column lacks PID or PGT, when the sample is unknown or has no
    PID or PGT value in a record, when the phase-ids differ, when a
    phase-genotype is a dot, or when an allele number is not among the
    bar-separated tokens of its phase-genotype; otherwise it returns
    whether the first positions of the two allele numbers agree. *)
Lemma in_cis_with_lines h h' line1 line2 r1 r2 sample a b :
  samples_indexed h -> samples_indexed h' ->
  VcfRecord_init line1 = Ok r1 -> VcfRecord_init line2 = Ok r2 ->
  9 < length (col_header h) <= length (py_split TAB line1) ->
  9 < length (col_header h') <= length (py_split TAB line2) ->
  (in_cis_with fst_ref snd_ref h h' sample a b (r1, r2)).2
  = Ok (both_have "PID" r1 r2 && both_have "PGT" r1 r2
        && phased_together (sample_dicts h r1 !! sample)
                           (sample_dicts h' r2 !! sample) a b).
Proof.
  intros [Hs Hsc] [Hs' Hsc'] H1 H2 [Hl1 Hc1] [Hl2 Hc2].
  apply in_cis_with_genotyped.
  - apply (genotyped_header_ext _ _ _ Hs Hsc).
    exact (VcfRecord_init_genotyped [] _ line1 r1 H1 Hl1 Hc1).
  - apply (genotyped_header_ext _ _ _ Hs' Hsc').
    exact (VcfRecord_init_genotyped [] _ line2 r2 H2 Hl2 Hc2).
Qed.

Example in_cis_with_lines_example :
  exists r1 r2,
    VcfRecord_init (C4_record "100" "0|1") = Ok r1
    /\ VcfRecord_init (C4_record "105" "1|0") = Ok r2
    /\ both_have "PID" r1 r2 = true /\ both_have "PGT" r1 r2 = true
    /\ phased_together (sample_dicts C4_header r1 !! "S1")
                       (sample_dicts C4_header r2 !! "S1") 1 0 = true
    /\ (in_cis_with fst_ref snd_ref C4_header C4_header "S1" 1 0 (r1, r2)).2
       = Ok true.
Proof.
  do 2 eexists. split; [reflexivity|]. split; [reflexivity|].
  split; [reflexivity|]. split; [reflexivity|]. split; [reflexivity|].
  rewrite (in_cis_with_lines C4_header C4_header
             (C4_record "100" "0|1") (C4_record "105" "1|0"));
    first [reflexivity | split; reflexivity | vm_compute; lia].
Qed.
(** * Further properties of the embedded code *)

(** ** Allele minimization, continued *)

Lemma string_length_app (a b : string) :
  String.length (a +:+ b) = String.length a + String.length b.
Proof.
  induction a as [|x a IH]; [reflexivity|].
  change (S (String.length (a +:+ b)) = S (String.length a) + String.length b).
  by rewrite IH.
Qed.

Lemma str_init_last s c : str_last s = Some c -> s = str_init s +:+ str1 c.
Proof.
  induction s as [|x s IH]; [done|].
  destruct s as [|y s].
  - simpl. by intros [= ->].
  - intros H. change (str_init (String x (String y s)))
      with (String x (str_init (String y s))).
    change (String x (String y s) = String x (str_init (String y s) +:+ str1 c)).
    f_equal. apply IH. exact H.
Qed.

Lemma str_last_is_Some s : 0 < String.length s -> is_Some (str_last s).
Proof.
  induction s as [|x s IH]; simpl; [lia|]. intros _.
  destruct s as [|y s]; [by eexists|]. apply IH. simpl. lia.
Qed.

(** What the first loop removed is one common suffix, and it leaves no
    allele empty. *)
Lemma strip_suffixes_decomp ref alt :
  let '(r, a) := strip_suffixes ref alt in
  exists suf, ref = r +:+ suf /\ alt = a +:+ suf
              /\ (0 < String.length ref -> 0 < String.length r)
              /\ (0 < String.length alt -> 0 < String.length a).
Proof.
  remember (String.length ref) as n eqn:Hn.
  revert ref alt Hn. induction n as [n IH] using lt_wf_ind. intros ref alt ->.
  rewrite strip_suffixes_equation_1.
  destruct (decide (1 < String.length ref /\ 1 < String.length alt)) as [[Hr Ha]|?];
    simpl; [|exists ""; by rewrite !string_app_empty_r].
  destruct (decide (str_last ref = str_last alt)) as [E|?]; simpl;
    [|exists ""; by rewrite !string_app_empty_r].
  specialize (IH (String.length (str_init ref))
                 ltac:(rewrite str_init_length; lia)
                 (str_init ref) (str_init alt) eq_refl).
  destruct (strip_suffixes (str_init ref) (str_init alt)) as [r a].
  destruct IH as (suf & H1 & H2 & H3 & H4).
  destruct (str_last_is_Some ref ltac:(lia)) as [c Hc].
  exists (suf +:+ str1 c).
  rewrite <- !string_app_assoc, <- H1, <- H2.
  split; [by apply str_init_last|].
  split; [apply str_init_last; by rewrite <- E|].
  split; intros _; [apply H3 | apply H4]; rewrite str_init_length; lia.
Qed.

(** What the second loop removed is one common prefix, whose length is
    the distance the position moved. *)
Lemma strip_prefixes_decomp ref alt pos :
  let '(r, a, p) := strip_prefixes ref alt pos in
  exists pre, ref = pre +:+ r /\ alt = pre +:+ a
              /\ p = (pos + Z.of_nat (String.length pre))%Z
              /\ (0 < String.length ref -> 0 < String.length r)
              /\ (0 < String.length alt -> 0 < String.length a).
Proof.
  remember (String.length ref) as n eqn:Hn.
  revert ref alt pos Hn. induction n as [n IH] using lt_wf_ind.
  intros ref alt pos ->.
  rewrite strip_prefixes_equation_1.
  destruct (decide (1 < String.length ref /\ 1 < String.length alt)) as [[Hr Ha]|?];
    simpl; [|exists ""; repeat split; try done; simpl; lia].
  destruct (decide (str_first ref = str_first alt)) as [E|?]; simpl;
    [|exists ""; repeat split; try done; simpl; lia].
  specialize (IH (String.length (str_tail ref))
                 ltac:(destruct ref; simpl in *; lia)
                 (str_tail ref) (str_tail alt) (pos + 1)%Z eq_refl).
  destruct (strip_prefixes (str_tail ref) (str_tail alt) (pos + 1)) as [[r a] p].
  destruct IH as (pre & H1 & H2 & H3 & H4 & H5).
  destruct ref as [|x ref]; [simpl in Hr; lia|].
  destruct alt as [|y alt]; [simpl in Ha; lia|].
  simpl in E. injection E as ->. simpl in H1, H2.
  exists (String y pre). simpl String.length.
  split; [by rewrite H1 at 1|]. split; [by rewrite H2 at 1|].
  split; [lia|].
  split; intros _; [apply H4 | apply H5]; simpl in *; lia.
Qed.

(** X1.  The minimization of a REF/ALT pair removes one common prefix and
    one common suffix and nothing else: REF and ALT are the minimized
    alleles between the same two strings, the position moved on by the
    length of the prefix, and the chromosome is kept. *)
Theorem minimize_decomposition (chrom : string) (pos : Z) (ref alt : string) :
  let a := minimize chrom pos ref alt in
  exists pre suf,
    ref = pre +:+ AltAllele.REF a +:+ suf
    /\ alt = pre +:+ AltAllele.ALT a +:+ suf
    /\ AltAllele.POS a = (pos + Z.of_nat (String.length pre))%Z
    /\ AltAllele.CHROM a = chrom.
Proof.
  unfold minimize.
  pose proof (strip_suffixes_decomp ref alt) as Hs.
  destruct (strip_suffixes ref alt) as [r1 a1].
  pose proof (strip_prefixes_decomp r1 a1 pos) as Hp.
  destruct (strip_prefixes r1 a1 pos) as [[r2 a2] p2]. simpl.
  destruct Hs as (suf & Hs1 & Hs2 & _).
  destruct Hp as (pre & Hp1 & Hp2 & Hp3 & _).
  exists pre, suf. subst. by rewrite !string_app_assoc.
Qed.

(** X2.  Minimizing non-empty alleles never empties one of them, and the
    minimized REF lies inside the span of the original REF: the position
    does not move back, and the minimized REF ends no later than the
    original one. *)
Theorem minimize_within_REF (chrom : string) (pos : Z) (ref alt : string) :
  ref <> "" -> alt <> "" ->
  let a := minimize chrom pos ref alt in
  AltAllele.REF a <> "" /\ AltAllele.ALT a <> ""
  /\ (pos <= AltAllele.POS a)%Z
  /\ (AltAllele.POS a + Z.of_nat (String.length (AltAllele.REF a))
      <= pos + Z.of_nat (String.length ref))%Z.
Proof.
  intros Hr Ha. unfold minimize.
  pose proof (strip_suffixes_decomp ref alt) as Hs.
  destruct (strip_suffixes ref alt) as [r1 a1].
  pose proof (strip_prefixes_decomp r1 a1 pos) as Hp.
  destruct (strip_prefixes r1 a1 pos) as [[r2 a2] p2]. simpl.
  destruct Hs as (suf & Hs1 & Hs2 & Hs3 & Hs4).
  destruct Hp as (pre & Hp1 & Hp2 & Hp3 & Hp4 & Hp5).
  assert (0 < String.length ref) by (destruct ref; [done | simpl; lia]).
  assert (0 < String.length alt) by (destruct alt; [done | simpl; lia]).
  specialize (Hp4 (Hs3 ltac:(done))). specialize (Hp5 (Hs4 ltac:(done))).
  split; [intros ->; simpl in *; lia|].
  split; [intros ->; simpl in *; lia|].
  rewrite Hs1, Hp1, !string_length_app. lia.
Qed.

Lemma minimize_within_REF_witness :
  minimize "1" 100 "GCATG" "GCTG" = AltAllele.mk "1" 101 "CA" "C"
  /\ AltAllele.REF (minimize "1" 100 "GCATG" "GCTG") <> ""
  /\ AltAllele.ALT (minimize "1" 100 "GCATG" "GCTG") <> ""
  /\ (100 <= AltAllele.POS (minimize "1" 100 "GCATG" "GCTG"))%Z
  /\ (AltAllele.POS (minimize "1" 100 "GCATG" "GCTG")
      + Z.of_nat (String.length (AltAllele.REF (minimize "1" 100 "GCATG" "GCTG")))
      <= 100 + Z.of_nat (String.length "GCATG"))%Z.
Proof.
  split; [reflexivity|].
  exact (minimize_within_REF "1" 100 "GCATG" "GCTG" ltac:(done) ltac:(done)).
Defined.

Lemma str_take1_init s : 1 < String.length s -> str_take1 (str_init s) = str_take1 s.
Proof. destruct s as [|c [|c' s]]; simpl; intros; try lia. done. Qed.

Lemma strip_suffixes_same s :
  0 < String.length s -> strip_suffixes s s = (str_take1 s, str_take1 s).
Proof.
  remember (String.length s) as n eqn:Hn.
  revert s Hn. induction n as [n IH] using lt_wf_ind. intros s -> Hpos.
  rewrite strip_suffixes_equation_1.
  destruct (decide (1 < String.length s /\ 1 < String.length s)) as [[H H2]|H]; simpl.
  - destruct (decide (str_last s = str_last s)); [|done]. simpl.
    rewrite (IH (String.length (str_init s))); try done;
      rewrite ?str_init_length; try lia.
    by rewrite str_take1_init.
  - destruct s as [|c [|c' s]]; simpl in *; try lia. done.
Qed.

(** X3.  An ALT allele that repeats REF is reduced from the right: what
    is left is the first character of REF at the unchanged position,
    because the loop that strips suffixes runs first and leaves nothing
    for the loop that would move the position. *)
Theorem minimize_identical (chrom : string) (pos : Z) (s : string) :
  s <> "" ->
  minimize chrom pos s s = AltAllele.mk chrom pos (str_take1 s) (str_take1 s).
Proof.
  intros Hs. unfold minimize.
  rewrite strip_suffixes_same by (destruct s; [done | simpl; lia]).
  rewrite strip_prefixes_stuck; [done|].
  destruct s; simpl; lia.
Qed.

Lemma minimize_identical_witness :
  minimize "1" 100 "CATG" "CATG" = AltAllele.mk "1" 100 "C" "C".
Proof. exact (minimize_identical "1" 100 "CATG" ltac:(done)). Defined.

Lemma ALLELES_keeps_decomposed :
  preserves (fun r => is_Some (__DECOMPOSED_ALLELES r)) ALLELES.
Proof. unfold ALLELES. pres ltac:(intros ? H; exact H). Qed.

Lemma _minimize_alleles_sets r :
  is_Some (__DECOMPOSED_ALLELES (_minimize_alleles r).1).
Proof.
  unfold _minimize_alleles. unfold bindM at 1, modify at 1.
  match goal with
  | |- is_Some (__DECOMPOSED_ALLELES (?m ?s).1) =>
      assert (Hm : preserves (fun r => is_Some (__DECOMPOSED_ALLELES r)) m)
  end.
  { pres ltac:(intros ? H; first [exact H | by eexists]);
      apply ALLELES_keeps_decomposed. }
  apply Hm. by eexists.
Qed.

(** A list that [DECOMPOSED_ALLELES] returned is returned again, and the
    record is left as it is. *)
Lemma DECOMPOSED_ALLELES_memoizes r r' l :
  DECOMPOSED_ALLELES r = (r', Ok l) -> DECOMPOSED_ALLELES r' = (r', Ok l).
Proof.
  unfold DECOMPOSED_ALLELES. unfold bindM at 1, get at 1.
  destruct (__DECOMPOSED_ALLELES r) as [d|] eqn:E.
  - munfold. simpl. rewrite E. intros [= <- <-]. rewrite E. simpl. by rewrite E.
  - unfold bindM at 1.
    pose proof (_minimize_alleles_sets r) as [d Hd].
    destruct (_minimize_alleles r) as [s [[]|e]]; simpl in *; [|done].
    unfold gets. rewrite Hd. simpl. intros [= <- <-].
    munfold. rewrite Hd. simpl. by rewrite Hd.
Qed.

Lemma VcfRecord_init_fresh line r :
  VcfRecord_init line = Ok r ->
  __ALLELES r = None /\ __DECOMPOSED_ALLELES r = None /\ __INFO_FIELDS r = None
  /\ __SPAN r = None /\ __CALLS r = None /\ _SAMPLE_GTS r = ∅
  /\ _got_gts r = false /\ _vep_allele r = [].
Proof.
  unfold VcfRecord_init. intros H.
  destruct (take 8 (py_split_max TAB line 9))
    as [|? [|? [|? [|? [|? [|? [|? [|? [|]]]]]]]]]; try done.
  destruct (py_int _); [|done]. by injection H as <-.
Qed.

(** X4.  For a record read from a line, the first access to
    DECOMPOSED_ALLELES returns one allele per comma-separated ALT allele,
    in ALT order, each the minimization of REF and that ALT from POS on
    the record's chromosome; the next access returns the same list and
    changes nothing, and the record still renders as the line. *)
Theorem DECOMPOSED_ALLELES_of_line (line : string) (r : VcfRecord) :
  VcfRecord_init line = Ok r ->
  let l := map (minimize (CHROM r) (POS r) (REF r)) (py_split "," (ALT r)) in
  exists r',
    DECOMPOSED_ALLELES r = (r', Ok l)
    /\ DECOMPOSED_ALLELES r' = (r', Ok l)
    /\ length l = length (py_split "," (ALT r))
    /\ __str__ r' = line.
Proof.
  intros H l.
  destruct (VcfRecord_init_fresh _ _ H) as (Ha & Hd & _).
  pose proof (DECOMPOSED_ALLELES_fresh r Ha Hd) as Hres.
  pose proof (VcfRecord_init_str _ _ H) as Hstr.
  apply (DECOMPOSED_ALLELES_renders line) in Hstr.
  destruct (DECOMPOSED_ALLELES r) as [r' res] eqn:E. simpl in Hres, Hstr. subst res.
  exists r'. split; [done|]. split; [exact (DECOMPOSED_ALLELES_memoizes r r' _ E)|].
  split; [apply length_map | exact Hstr].
Qed.

Lemma DECOMPOSED_ALLELES_of_line_witness :
  exists r,
    VcfRecord_init multi_allelic_line = Ok r
    /\ map (minimize (CHROM r) (POS r) (REF r)) (py_split "," (ALT r))
       = [AltAllele.mk "1" 100 "CA" "C"; AltAllele.mk "1" 100 "CATG" "C";
          AltAllele.mk "1" 101 "A" "ATG"]
    /\ exists r',
         DECOMPOSED_ALLELES r
         = (r', Ok (map (minimize (CHROM r) (POS r) (REF r)) (py_split "," (ALT r))))
         /\ DECOMPOSED_ALLELES r'
            = (r', Ok (map (minimize (CHROM r) (POS r) (REF r)) (py_split "," (ALT r))))
         /\ length (map (minimize (CHROM r) (POS r) (REF r)) (py_split "," (ALT r)))
            = length (py_split "," (ALT r))
         /\ __str__ r' = multi_allelic_line.
Proof.
  eexists. split; [reflexivity|]. split; [reflexivity|].
  exact (DECOMPOSED_ALLELES_of_line multi_allelic_line _ eq_refl).
Defined.

(** ** Reading a record from a line *)

(** The first [n] pieces of a split with a limit of [n] cuts are those of
    the split without a limit. *)
Lemma py_split_max_take sep s n :
  take n (py_split_max sep s n) = take n (py_split sep s).
Proof.
  revert n. induction s as [|c s IH]; intros n; [reflexivity|].
  simpl. destruct n as [|n]; [reflexivity|].
  destruct (Ascii.eqb c sep).
  - simpl. by rewrite IH.
  - specialize (IH (S n)).
    pose proof (py_split_max_nonempty sep s (S n)) as H1.
    pose proof (py_split_nonempty sep s) as H2.
    destruct (py_split_max sep s (S n)) as [|w ws]; [done|].
    destruct (py_split sep s) as [|w' ws']; [done|].
    simpl in *. by injection IH as -> ->.
Qed.

Lemma py_split_max_length_min sep s n :
  length (py_split_max sep s n) = Nat.min (S n) (length (py_split sep s)).
Proof.
  revert n. induction s as [|c s IH]; intros n;
    [cbn [py_split_max py_split length]; lia|].
  cbn [py_split_max py_split]. destruct n as [|n].
  { pose proof (py_split_nonempty sep s) as H2.
    destruct (Ascii.eqb c sep); [cbn [length]; lia|].
    destruct (py_split sep s); [done|]. cbn [length]. lia. }
  destruct (Ascii.eqb c sep).
  - cbn [length]. rewrite IH. lia.
  - specialize (IH (S n)).
    pose proof (py_split_max_nonempty sep s (S n)) as H1.
    pose proof (py_split_nonempty sep s) as H2.
    destruct (py_split_max sep s (S n)) as [|w ws]; [done|].
    destruct (py_split sep s) as [|w' ws']; [done|].
    cbn [length] in *. lia.
Qed.

Lemma VcfRecord_init_take8 line :
  take 8 (py_split_max TAB line 9) = take 8 (py_split TAB line).
Proof.
  change 8 with (Nat.min 8 9). rewrite <- !take_take.
  by rewrite py_split_max_take.
Qed.

Lemma VcfRecord_init_lookup8 line :
  py_split_max TAB line 9 !! 8 = py_split TAB line !! 8.
Proof.
  rewrite <- (lookup_take_lt (py_split_max TAB line 9) 9 8) by lia.
  rewrite <- (lookup_take_lt (py_split TAB line) 9 8) by lia.
  by rewrite py_split_max_take.
Qed.

Lemma VcfRecord_init_ParseError line :
  VcfRecord_init line = Raise ParseError <-> length (py_split TAB line) < 8.
Proof.
  unfold VcfRecord_init. rewrite VcfRecord_init_take8.
  pose proof (length_take (py_split TAB line) 8) as Hl.
  destruct (take 8 (py_split TAB line))
    as [|? [|pos [|? [|? [|? [|? [|? [|? [|]]]]]]]]]; cbn [length] in Hl;
    try (split; [intros _; lia | done]); try (split; [done | intros; lia]).
  destruct (py_int pos); (split; [done | intros; lia]).
Qed.

Lemma VcfRecord_init_ValueError line :
  VcfRecord_init line = Raise ValueError
  <-> exists pos, py_split TAB line !! 1 = Some pos /\ py_int pos = None
                  /\ 8 <= length (py_split TAB line).
Proof.
  unfold VcfRecord_init. rewrite VcfRecord_init_take8.
  pose proof (length_take (py_split TAB line) 8) as Hl.
  pose proof (lookup_take_lt (py_split TAB line) 8 1 ltac:(lia)) as H1.
  destruct (take 8 (py_split TAB line))
    as [|? [|pos [|? [|? [|? [|? [|? [|? [|]]]]]]]]]; cbn [length] in Hl;
    simpl in H1;
    try (split; [done | intros (? & ? & ? & ?); lia]).
  destruct (py_int pos) eqn:E; split; try done.
  - intros (p & Hp & Hn & _). rewrite <- H1 in Hp. injection Hp as <-. congruence.
  - intros _. exists pos. split; [done|]. split; [done|lia].
Qed.

(** The raw columns of a record: at least eight, the eighth being INFO. *)
Lemma VcfRecord_init_INFO_column line r :
  VcfRecord_init line = Ok r ->
  7 < length (cols r) /\ cols r !! 7 = Some (INFO r).
Proof.
  intros H. pose proof (VcfRecord_init_cols _ _ H) as Hc.
  unfold VcfRecord_init in H.
  assert (H7 : take 8 (py_split_max TAB line 9) !! 7 = cols r !! 7).
  { rewrite Hc. apply lookup_take_lt. lia. }
  destruct (take 8 (py_split_max TAB line 9))
    as [|? [|pos [|? [|? [|? [|? [|? [|info [|]]]]]]]]]; try done.
  destruct (py_int pos) as [p|]; [|done].
  injection H as <-. simpl in *. split; [|done].
  symmetry in H7. by apply lookup_lt_Some in H7.
Qed.

(** X5.  Constructing a record raises a ParseError exactly when the line
    has fewer than eight tab-separated fields, a ValueError exactly when
    it has eight or more and the second one is not an integer literal, and
    no other exception. *)
Theorem VcfRecord_init_errors (line : string) :
  (VcfRecord_init line = Raise ParseError <-> length (py_split TAB line) < 8)
  /\ (VcfRecord_init line = Raise ValueError
      <-> exists pos, py_split TAB line !! 1 = Some pos /\ py_int pos = None
                      /\ 8 <= length (py_split TAB line))
  /\ (forall e, VcfRecord_init line = Raise e -> e = ParseError \/ e = ValueError).
Proof.
  split; [apply VcfRecord_init_ParseError|].
  split; [apply VcfRecord_init_ValueError|].
  intros e. unfold VcfRecord_init.
  destruct (take 8 (py_split_max TAB line 9))
    as [|? [|pos [|? [|? [|? [|? [|? [|? [|]]]]]]]]];
    try (intros [= <-]; by left).
  destruct (py_int pos); [done|]. intros [= <-]. by right.
Qed.

(** X6.  The attributes of a record read from a line are the first eight
    tab-separated fields of the line, POS converted to an integer, and
    QUAL converted to a float when float accepts the sixth field and left
    as the field itself when it does not; FORMAT is the ninth field when
    there is one and GT_FORMAT its colon-separated keys; the raw columns
    are at most ten, the tenth holding all sample columns in one piece. *)
Theorem VcfRecord_init_fields (line : string) (r : VcfRecord) :
  VcfRecord_init line = Ok r ->
  exists pos qual,
    take 8 (py_split TAB line)
    = [CHROM r; pos; ID r; REF r; ALT r; qual; FILTER r; INFO r]
    /\ py_int pos = Some (POS r)
    /\ QUAL r = (if py_float_accepts qual then QFloat qual else QStr qual)
    /\ FORMAT r = py_split TAB line !! 8
    /\ GT_FORMAT r = py_split ":" <$> FORMAT r
    /\ length (cols r) = Nat.min 10 (length (py_split TAB line))
    /\ take 9 (cols r) = take 9 (py_split TAB line).
Proof.
  intros H. pose proof (VcfRecord_init_cols _ _ H) as Hc.
  unfold VcfRecord_init in H. rewrite VcfRecord_init_take8 in H.
  destruct (take 8 (py_split TAB line))
    as [|? [|pos [|? [|? [|? [|qual [|? [|? [|]]]]]]]]]; try done.
  destruct (py_int pos) as [p|] eqn:E; [|done].
  injection H as <-. cbn [CHROM POS ID REF ALT QUAL FILTER INFO FORMAT GT_FORMAT cols].
  exists pos, qual.
  rewrite VcfRecord_init_lookup8.
  repeat split; try done; [apply py_split_max_length_min | apply py_split_max_take].
Qed.

Lemma VcfRecord_init_fields_witness :
  exists r,
    VcfRecord_init C8_line = Ok r
    /\ length (py_split TAB C8_line) = 11
    /\ QUAL r = QStr "."
    /\ exists pos qual,
         take 8 (py_split TAB C8_line)
         = [CHROM r; pos; ID r; REF r; ALT r; qual; FILTER r; INFO r]
         /\ py_int pos = Some (POS r)
         /\ QUAL r = (if py_float_accepts qual then QFloat qual else QStr qual)
         /\ FORMAT r = py_split TAB C8_line !! 8
         /\ GT_FORMAT r = py_split ":" <$> FORMAT r
         /\ length (cols r) = Nat.min 10 (length (py_split TAB C8_line))
         /\ take 9 (cols r) = take 9 (py_split TAB C8_line).
Proof.
  eexists. split; [reflexivity|]. split; [reflexivity|].
  split; [reflexivity|].
  exact (VcfRecord_init_fields C8_line _ eq_refl).
Defined.

(** A quality of 50 is stored as a float; what float accepts and what it
    does not. *)
Example QUAL_converted :
  (exists r, VcfRecord_init multi_allelic_line = Ok r /\ QUAL r = QFloat "50")
  /\ map py_float_accepts
       ["50"; "."; "1e3"; "inf"; "5."; "-.5"; "1_0.5"; "1_.5"; "PASS"; ""; " 7 "]
     = [true; false; true; true; true; true; true; false; false; false; true].
Proof. split; [eexists; split; reflexivity | reflexivity]. Qed.

(** ** Ordered dictionaries *)

Section odict_facts.
Context {V : Type}.
Implicit Types (d e : list (string * V)) (k : string) (v : V).

Lemma od_get_app k d e :
  od_get k (d ++ e) = match od_get k d with Some v => Some v | None => od_get k e end.
Proof.
  induction d as [|[k0 v0] d IH]; [reflexivity|].
  simpl. by destruct (String.eqb k0 k).
Qed.

Lemma od_get_set k k' v d :
  od_get k (od_set k' v d) = if String.eqb k' k then Some v else od_get k d.
Proof.
  induction d as [|[k0 v0] d IH]; [reflexivity|].
  simpl. destruct (String.eqb_spec k0 k') as [->|Hne]; simpl.
  - by destruct (String.eqb k' k).
  - rewrite IH. destruct (String.eqb_spec k0 k) as [->|Hne'].
    + by rewrite (proj2 (String.eqb_neq k' k)) by congruence.
    + reflexivity.
Qed.

Lemma od_get_update k d e :
  od_get k (od_update d e)
  = match od_get k (rev e) with Some v => Some v | None => od_get k d end.
Proof.
  unfold od_update. revert d. induction e as [|[k0 v0] e IH]; intros d; [reflexivity|].
  simpl. rewrite IH, od_get_app, od_get_set. simpl.
  destruct (od_get k (rev e)); [reflexivity|].
  by destruct (String.eqb k0 k).
Qed.

Lemma od_get_None k d : od_get k d = None <-> k ∉ map fst d.
Proof.
  induction d as [|[k0 v0] d IH]; simpl.
  - split; [intros _; apply not_elem_of_nil | done].
  - rewrite not_elem_of_cons. destruct (String.eqb_spec k0 k) as [->|Hne].
    + split; [done | intros [? _]; done].
    + rewrite IH. split; [intros ?; split; congruence | tauto].
Qed.

Lemma od_get_Some_elem k v d : od_get k d = Some v -> (k, v) ∈ d.
Proof.
  induction d as [|[k0 v0] d IH]; simpl; [done|].
  destruct (String.eqb_spec k0 k) as [->|Hne].
  - intros [= ->]. apply elem_of_cons. by left.
  - intros H. apply elem_of_cons. right. by apply IH.
Qed.

Lemma od_get_NoDup k v d : NoDup (map fst d) -> (k, v) ∈ d -> od_get k d = Some v.
Proof.
  induction d as [|[k0 v0] d IH]; simpl; intros Hnd Hin.
  - by apply elem_of_nil in Hin.
  - apply NoDup_cons in Hnd as [Hk Hnd].
    apply elem_of_cons in Hin as [[= -> ->]|Hin].
    + by rewrite String.eqb_refl.
    + destruct (String.eqb_spec k0 k) as [->|Hne]; [|by apply IH].
      exfalso. apply Hk. apply list_elem_of_In, in_map_iff.
      exists (k, v). split; [done | by apply list_elem_of_In].
Qed.

Lemma od_set_fresh k v d : k ∉ map fst d -> od_set k v d = d ++ [(k, v)].
Proof.
  induction d as [|[k0 v0] d IH]; [reflexivity|].
  simpl. rewrite not_elem_of_cons. intros [Hne Hk].
  rewrite (proj2 (String.eqb_neq k0 k)) by congruence. by rewrite IH.
Qed.

Lemma od_set_keys k v d :
  map fst (od_set k v d)
  = if od_mem k d then map fst d else map fst d ++ [k].
Proof.
  unfold od_mem. induction d as [|[k0 v0] d IH]; [reflexivity|].
  simpl. destruct (String.eqb_spec k0 k) as [->|Hne]; [reflexivity|].
  simpl. rewrite IH. by destruct (od_get k d).
Qed.

Lemma od_mem_true k d : od_mem k d = true <-> k ∈ map fst d.
Proof.
  unfold od_mem. pose proof (od_get_None k d) as H.
  destruct (od_get k d).
  - split; [intros _|done]. destruct (decide (k ∈ map fst d)); [done|].
    by apply H in n.
  - split; [done|]. intros Hin. by apply H in Hin.
Qed.

Lemma od_set_NoDup k v d : NoDup (map fst d) -> NoDup (map fst (od_set k v d)).
Proof.
  intros H. rewrite od_set_keys.
  destruct (od_mem k d) eqn:E; [done|].
  apply NoDup_app. split; [done|]. split; [|apply NoDup_singleton].
  intros x Hx Hk. apply list_elem_of_singleton in Hk as ->.
  apply od_mem_true in Hx. congruence.
Qed.

Lemma od_update_NoDup d e : NoDup (map fst d) -> NoDup (map fst (od_update d e)).
Proof.
  unfold od_update. revert d. induction e as [|[k0 v0] e IH]; intros d H; [done|].
  simpl. apply IH. by apply od_set_NoDup.
Qed.

Lemma od_update_fresh d e : NoDup (map fst (d ++ e)) -> od_update d e = d ++ e.
Proof.
  unfold od_update. revert d. induction e as [|[k0 v0] e IH]; intros d H.
  - by rewrite app_nil_r.
  - simpl. rewrite od_set_fresh.
    + rewrite IH; [exact (eq_sym (app_assoc d [(k0, v0)] e))|].
      by rewrite <- (app_assoc d [(k0, v0)] e).
    + rewrite map_app in H. apply NoDup_app in H as (_ & H & _).
      intros Hk. apply (H _ Hk). simpl. apply elem_of_cons. by left.
Qed.

Lemma od_update_keys k d e :
  k ∈ map fst (od_update d e) <-> k ∈ map fst d \/ k ∈ map fst e.
Proof.
  pose proof (od_get_None k (rev e)) as Hr.
  rewrite map_rev, list_elem_of_In, <- in_rev, <- list_elem_of_In in Hr.
  split.
  - intros H. apply od_mem_true in H. unfold od_mem in H.
    rewrite od_get_update in H.
    destruct (od_get k (rev e)) eqn:E1.
    + right. destruct (decide (k ∈ map fst e)) as [|n]; [done|].
      apply Hr in n. congruence.
    + left. apply od_mem_true. unfold od_mem. by destruct (od_get k d).
  - intros H. apply od_mem_true. unfold od_mem. rewrite od_get_update.
    destruct (od_get k (rev e)) eqn:E1; [done|]. destruct H as [H|H].
    + apply od_mem_true in H. unfold od_mem in H. by destruct (od_get k d).
    + exfalso. by apply (proj1 Hr).
Qed.
End odict_facts.

(** ** The structured INFO view *)

(** X7.  The INFO mapping of a record read from a line holds every key
    of the semicolon-separated tokens once; a key that occurs more than
    once holds the value of its last token; the mapping is cached, so the
    next access returns it without decoding. *)
Theorem INFO_FIELDS_of_line (line : string) (r : VcfRecord) :
  VcfRecord_init line = Ok r ->
  let items := map info_item (py_split ";" (INFO r)) in
  exists d,
    INFO_FIELDS r = (set___INFO_FIELDS (Some d) r, Ok d)
    /\ INFO_FIELDS (set___INFO_FIELDS (Some d) r) = (set___INFO_FIELDS (Some d) r, Ok d)
    /\ NoDup (map fst d)
    /\ (forall k, od_get k d = od_get k (rev items))
    /\ (forall k, k ∈ map fst d <-> k ∈ map fst items).
Proof.
  intros H items.
  destruct (VcfRecord_init_fresh _ _ H) as (_ & _ & Hi & _).
  exists (od_update [] items).
  split; [|split; [|split; [|split]]].
  - rewrite INFO_FIELDS_value. unfold info_view. by rewrite Hi.
  - reflexivity.
  - apply od_update_NoDup. apply NoDup_nil_2.
  - intros k. rewrite od_get_update. by destruct (od_get k (rev items)).
  - intros k. rewrite od_update_keys. simpl. rewrite elem_of_nil. tauto.
Qed.

Lemma INFO_FIELDS_of_line_witness :
  exists r,
    VcfRecord_init repeated_key_line = Ok r
    /\ exists d,
         INFO_FIELDS r = (set___INFO_FIELDS (Some d) r, Ok d)
         /\ INFO_FIELDS (set___INFO_FIELDS (Some d) r)
            = (set___INFO_FIELDS (Some d) r, Ok d)
         /\ NoDup (map fst d)
         /\ (forall k, od_get k d
                       = od_get k (rev (map info_item (py_split ";" (INFO r)))))
         /\ (forall k, k ∈ map fst d
                       <-> k ∈ map fst (map info_item (py_split ";" (INFO r)))).
Proof.
  eexists. split; [reflexivity|].
  exact (INFO_FIELDS_of_line repeated_key_line _ eq_refl).
Defined.

Example INFO_FIELDS_repeated_key :
  exists r,
    VcfRecord_init repeated_key_line = Ok r
    /\ (INFO_FIELDS r).2
       = Ok [("DP", VAtom (AStr "7")); ("DB", VAtom (ABool true))].
Proof. eexists. split; reflexivity. Qed.

Lemma py_split_max_1_eq s :
  has_char "=" s = true -> exists f v, py_split_max "=" s 1 = [f; v].
Proof.
  unfold has_char. induction s as [|c s IH]; [done|].
  cbn [chars existsb py_split_max].
  destruct (Ascii.eqb_spec c "=") as [->|Hne].
  - intros _. destruct s; by do 2 eexists.
  - rewrite (proj2 (Ascii.eqb_neq "=" c)) by congruence.
    cbn [orb]. intros H. destruct (IH H) as (f & v & ->). by do 2 eexists.
Qed.

Lemma info_tokens_info_item tok :
  has_char "=" tok = true -> info_tokens (info_item tok) = [tok].
Proof.
  intros H. unfold info_item.
  pose proof (py_join_split_max "=" tok 1) as Hj.
  destruct (py_split_max_1_eq tok H) as (f & v & E). rewrite E in *.
  simpl in Hj. unfold info_tokens. simpl. f_equal. exact Hj.
Qed.

Lemma flat_map_info_tokens toks :
  (forall tok, tok ∈ toks -> has_char "=" tok = true) ->
  flat_map info_tokens (map info_item toks) = toks.
Proof.
  induction toks as [|t toks IH]; intros H; [reflexivity|].
  simpl. rewrite info_tokens_info_item by (apply H, elem_of_cons; by left).
  simpl. f_equal. apply IH. intros tok Ht. apply H, elem_of_cons. by right.
Qed.

Lemma add_info_fields_empty h b r :
  add_info_fields h ∅ b r = _rewrite_info_string r.
Proof. reflexivity. Qed.

(** X8.  Rewriting the INFO column from the structured view reproduces
    the column when every token has the form key=value and no key is
    repeated: add_info_fields with nothing to add returns, and leaves the
    INFO attribute and the rendered record as they were read. *)
Theorem rewrite_info_round_trip (h : VcfHeader) (b : bool) (line : string)
    (r : VcfRecord) :
  VcfRecord_init line = Ok r ->
  Forall (fun tok => has_char "=" tok = true) (py_split ";" (INFO r)) ->
  NoDup (map (fun tok => (info_item tok).1) (py_split ";" (INFO r))) ->
  (add_info_fields h ∅ b r).2 = Ok tt
  /\ INFO (add_info_fields h ∅ b r).1 = INFO r
  /\ __str__ (add_info_fields h ∅ b r).1 = line.
Proof.
  intros H Htok Hnd. rewrite Forall_forall in Htok.
  destruct (VcfRecord_init_fresh _ _ H) as (_ & _ & Hi & _).
  destruct (VcfRecord_init_INFO_column _ _ H) as [_ H7].
  assert (Hview : py_join ";" (flat_map info_tokens (info_view r)) = INFO r).
  { unfold info_view. rewrite Hi. rewrite od_update_fresh.
    - simpl. rewrite flat_map_info_tokens by done. apply (py_join_split ";").
    - simpl. by rewrite map_map. }
  rewrite add_info_fields_empty, _rewrite_info_string_unfold. cbv zeta.
  rewrite Hview.
  assert (Hlt : (7 <? length (cols r))%nat = true).
  { apply Nat.ltb_lt. by apply lookup_lt_Some in H7. }
  rewrite Hlt. simpl. split; [done|]. split; [done|].
  unfold __str__. simpl. rewrite list_insert_id by done.
  by apply VcfRecord_init_str.
Qed.

Lemma rewrite_info_round_trip_witness :
  exists r,
    VcfRecord_init multi_allelic_line = Ok r
    /\ (add_info_fields (plain_header essential_columns) ∅ true r).2 = Ok tt
    /\ INFO (add_info_fields (plain_header essential_columns) ∅ true r).1 = INFO r
    /\ __str__ (add_info_fields (plain_header essential_columns) ∅ true r).1
       = multi_allelic_line.
Proof.
  eexists. split; [reflexivity|].
  apply (rewrite_info_round_trip (plain_header essential_columns) true
           multi_allelic_line _ eq_refl).
  - repeat constructor.
  - apply (bool_decide_unpack _). reflexivity.
Defined.

(** ** Adding INFO fields, continued *)

Lemma fmap_fst_map {A B} (l : list (A * B)) : l.*1 = map fst l.
Proof. reflexivity. Qed.

Lemma insert_sorted_perm {V} (kv : string * V) l : insert_sorted kv l ≡ₚ kv :: l.
Proof.
  induction l as [|kv' l IH]; [done|].
  simpl. destruct (String.leb kv.1 kv'.1); [done|].
  rewrite IH. apply perm_swap.
Qed.

Lemma sorted_items_perm {V} (m : gmap string V) : sorted_items m ≡ₚ map_to_list m.
Proof.
  unfold sorted_items. induction (map_to_list m) as [|kv l IH]; [done|].
  simpl. by rewrite insert_sorted_perm, IH.
Qed.

Lemma od_get_sorted_items {V} (m : gmap string V) k :
  od_get k (rev (sorted_items m)) = m !! k.
Proof.
  assert (Hp : rev (sorted_items m) ≡ₚ map_to_list m).
  { rewrite <- sorted_items_perm. symmetry. apply Permutation_rev. }
  assert (Hnd : NoDup (map fst (rev (sorted_items m)))).
  { rewrite <- fmap_fst_map, Hp. apply NoDup_fst_map_to_list. }
  destruct (m !! k) as [v|] eqn:E.
  - apply od_get_NoDup; [done|]. rewrite Hp. by apply elem_of_map_to_list.
  - apply od_get_None. intros Hin.
    apply list_elem_of_In, in_map_iff in Hin as ([k' v] & Hk & Hin).
    simpl in Hk. subst k'. apply list_elem_of_In in Hin. rewrite Hp in Hin.
    apply elem_of_map_to_list in Hin. congruence.
Qed.

Lemma INFO_FIELDS_setitem_value k v r :
  INFO_FIELDS_setitem k v r
  = (set___INFO_FIELDS (Some (od_set k v (info_view r))) r, Ok tt).
Proof.
  unfold INFO_FIELDS_setitem. unfold bindM at 1. rewrite INFO_FIELDS_value.
  reflexivity.
Qed.

(** The loop of [add_info_fields] without [append_existing]. *)
Lemma add_info_fields_loop h (l : list (string * pyval)) r :
  exists r',
    forM_ l (fun kv =>
      do existing <- ret false ;;
      if existing : bool then _append_to_existing_info h kv.1 kv.2
      else INFO_FIELDS_setitem kv.1 kv.2) r = (r', Ok tt)
    /\ info_view r' = od_update (info_view r) l
    /\ cols r' = cols r.
Proof.
  revert r. induction l as [|kv l IH]; intros r.
  - exists r. done.
  - destruct (IH (set___INFO_FIELDS (Some (od_set kv.1 kv.2 (info_view r))) r))
      as (r' & H1 & H2 & H3).
    exists r'. split; [|split; [exact H2 | exact H3]].
    simpl. unfold bindM at 1. unfold bindM at 1, ret at 1.
    rewrite INFO_FIELDS_setitem_value. exact H1.
Qed.

(** Without [append_existing] the call comes down to rewriting the INFO
    column of a record whose view took the given items. *)
Lemma add_info_fields_rewrites h info r :
  exists r1, add_info_fields h info false r = _rewrite_info_string r1
             /\ info_view r1 = od_update (info_view r) (sorted_items info)
             /\ cols r1 = cols r.
Proof.
  destruct (add_info_fields_loop h (sorted_items info) r) as (r1 & H1 & H2 & H3).
  exists r1. split; [|done]. unfold add_info_fields. cbv iota.
  unfold bindM at 1. by rewrite H1.
Qed.

(** X9.  Without append_existing, add_info_fields on a record with at
    least eight raw columns always returns; afterwards the structured view
    holds every given key with the given value and every other key with
    the value it had, and the INFO attribute and the eighth raw column
    hold the tokens of that view joined with semicolons. *)
Theorem add_info_fields_sets (h : VcfHeader) (info : gmap string pyval)
    (r : VcfRecord) :
  7 < length (cols r) ->
  let r' := (add_info_fields h info false r).1 in
  (add_info_fields h info false r).2 = Ok tt
  /\ (forall k, od_get k (info_view r')
                = match info !! k with
                  | Some v => Some v
                  | None => od_get k (info_view r)
                  end)
  /\ INFO r' = py_join ";" (flat_map info_tokens (info_view r'))
  /\ cols r' = <[7 := INFO r']> (cols r).
Proof.
  intros Hlen. cbv zeta.
  destruct (add_info_fields_rewrites h info r) as (r1 & -> & H2 & H3).
  rewrite _rewrite_info_string_unfold. cbv zeta.
  rewrite H3. rewrite (proj2 (Nat.ltb_lt _ _) Hlen). simpl.
  split; [done|]. split; [|done].
  intros k.
  match goal with
  | |- od_get k (info_view ?x) = _ => change (info_view x) with (info_view r1)
  end.
  rewrite H2, od_get_update, od_get_sorted_items.
  by destruct (info !! k).
Qed.

Lemma add_info_fields_sets_witness :
  exists r,
    VcfRecord_init C10_line = Ok r
    /\ 7 < length (cols r)
    /\ (add_info_fields (plain_header essential_columns) C2_info false r).2 = Ok tt
    /\ (forall k,
          od_get k (info_view
                      (add_info_fields (plain_header essential_columns)
                         C2_info false r).1)
          = match C2_info !! k with
            | Some v => Some v
            | None => od_get k (info_view r)
            end)
    /\ INFO (add_info_fields (plain_header essential_columns) C2_info false r).1
       = py_join ";"
           (flat_map info_tokens
              (info_view (add_info_fields (plain_header essential_columns)
                            C2_info false r).1))
    /\ cols (add_info_fields (plain_header essential_columns) C2_info false r).1
       = <[7 := INFO (add_info_fields (plain_header essential_columns)
                        C2_info false r).1]> (cols r).
Proof.
  eexists. split; [reflexivity|].
  match goal with
  | |- 7 < length (cols ?r) /\ _ =>
      assert (H : 7 < length (cols r)) by (vm_compute; lia);
      split; [exact H|];
      exact (add_info_fields_sets (plain_header essential_columns) C2_info r H)
  end.
Defined.

Lemma INFO_FIELDS_same r0 : preserves (same_but_INFO r0) INFO_FIELDS.
Proof. unfold INFO_FIELDS. pres ltac:(intros ? H; exact H). Qed.

Lemma _rewrite_info_string_same r0 : preserves (same_but_INFO r0) _rewrite_info_string.
Proof.
  intros s Hs. rewrite _rewrite_info_string_unfold. cbv zeta.
  destruct (7 <? length (cols s))%nat; [|exact Hs].
  destruct Hs as (H1 & H2 & H3). unfold same_but_INFO. simpl.
  rewrite length_insert. split; [done|]. split; [|done].
  intros i Hi. rewrite list_lookup_insert_ne by done. by apply H2.
Qed.

(** X10.  Whatever the mapping and the flag, and whether it returns or
    raises, add_info_fields writes nothing but the INFO attribute, the
    structured view and the eighth raw column: the number of raw columns,
    every other raw column, the other attributes and every other cache
    are as before. *)
Theorem add_info_fields_frame (h : VcfHeader) (info : gmap string pyval)
    (append_existing : bool) (r : VcfRecord) :
  same_but_INFO r (add_info_fields h info append_existing r).1.
Proof.
  assert (Hp : preserves (same_but_INFO r) (add_info_fields h info append_existing)).
  { unfold add_info_fields. apply preserves_bind; [|intros _; apply _rewrite_info_string_same].
    unfold _append_to_existing_info, INFO_FIELDS_setitem, INFO_FIELDS_getitem.
    pres ltac:(intros ? H; exact H); apply INFO_FIELDS_same. }
  apply Hp. unfold same_but_INFO. repeat split; done.
Qed.

Lemma INFO_FIELDS_same_text r0 : preserves (same_text r0) INFO_FIELDS.
Proof. unfold INFO_FIELDS. pres ltac:(intros ? H; exact H). Qed.

(** X11.  On a record with at least eight raw columns add_info_fields can
    raise only with append_existing, and then the raw columns and the INFO
    attribute are those before the call: the text is rewritten only after
    every field was merged. *)
Theorem add_info_fields_failure (h : VcfHeader) (info : gmap string pyval)
    (append_existing : bool) (r : VcfRecord) (e : exn) :
  7 < length (cols r) ->
  (add_info_fields h info append_existing r).2 = Raise e ->
  append_existing = true
  /\ same_text r (add_info_fields h info append_existing r).1.
Proof.
  intros Hlen Hr. split.
  { destruct append_existing; [done|]. exfalso. revert Hr.
    destruct (add_info_fields_rewrites h info r) as (r1 & -> & _ & H3).
    rewrite _rewrite_info_string_unfold. cbv zeta.
    by rewrite H3, (proj2 (Nat.ltb_lt _ _) Hlen). }
  revert Hr. unfold add_info_fields.
  set (loop := forM_ _ _).
  assert (Hp : preserves (same_text r) loop).
  { subst loop.
    unfold _append_to_existing_info, INFO_FIELDS_setitem, INFO_FIELDS_getitem.
    pres ltac:(intros ? H; exact H); apply INFO_FIELDS_same_text. }
  specialize (Hp r (conj eq_refl eq_refl)).
  unfold bindM. destruct (loop r) as [s [[]|e']]; simpl in *; [|done].
  rewrite _rewrite_info_string_unfold. cbv zeta.
  destruct Hp as [Hc _]. rewrite Hc, (proj2 (Nat.ltb_lt _ _) Hlen). done.
Qed.

Lemma add_info_fields_failure_witness :
  exists r,
    VcfRecord_init C10_line = Ok r
    /\ (add_info_fields (plain_header essential_columns)
          {[ "DP" := VAtom (AStr "5") ]} true r).2 = Raise KeyError
    /\ true = true
    /\ same_text r (add_info_fields (plain_header essential_columns)
                      {[ "DP" := VAtom (AStr "5") ]} true r).1.
Proof.
  eexists. split; [reflexivity|]. split; [reflexivity|].
  match goal with
  | |- _ /\ same_text ?r _ =>
      assert (H : 7 < length (cols r)) by (vm_compute; lia);
      exact (add_info_fields_failure (plain_header essential_columns)
               {[ "DP" := VAtom (AStr "5") ]} true r KeyError H eq_refl)
  end.
Defined.

(** ** Merging into an existing INFO field *)

Lemma has_char_cons c x s :
  has_char c (String x s) = Ascii.eqb x c || has_char c s.
Proof. unfold has_char. cbn [chars existsb]. by rewrite Ascii.eqb_sym. Qed.

Lemma has_char_app c a b : has_char c (a +:+ b) = has_char c a || has_char c b.
Proof.
  induction a as [|x a IH]; [reflexivity|].
  change (String x a +:+ b) with (String x (a +:+ b)).
  rewrite !has_char_cons, IH. apply orb_assoc.
Qed.

Lemma py_split_no_sep sep s :
  Forall (fun x => has_char sep x = false) (py_split sep s).
Proof.
  induction s as [|c s IH]; [by repeat constructor|].
  cbn [py_split]. destruct (Ascii.eqb c sep) eqn:E.
  - constructor; [reflexivity | exact IH].
  - pose proof (py_split_nonempty sep s) as Hne.
    destruct (py_split sep s) as [|w ws]; [done|].
    apply Forall_cons in IH as [Hw Hws]. constructor; [|done].
    by rewrite has_char_cons, E, Hw.
Qed.

Lemma py_split_plain sep x : has_char sep x = false -> py_split sep x = [x].
Proof.
  induction x as [|c x IH]; [done|].
  rewrite has_char_cons. intros H. apply orb_false_iff in H as [Hc Hx].
  cbn [py_split]. rewrite Hc, (IH Hx). reflexivity.
Qed.

Lemma py_split_app sep x rest :
  has_char sep x = false ->
  py_split sep (x +:+ String sep rest) = x :: py_split sep rest.
Proof.
  induction x as [|c x IH]; intros H.
  - change ("" +:+ String sep rest) with (String sep rest).
    cbn [py_split]. by rewrite Ascii.eqb_refl.
  - rewrite has_char_cons in H. apply orb_false_iff in H as [Hc Hx].
    change (String c x +:+ String sep rest) with (String c (x +:+ String sep rest)).
    cbn [py_split]. rewrite Hc, (IH Hx). reflexivity.
Qed.

Lemma py_split_join sep l :
  l <> [] -> Forall (fun x => has_char sep x = false) l ->
  py_split sep (py_join (str1 sep) l) = l.
Proof.
  induction l as [|x l IH]; [done|]. intros _ H.
  apply Forall_cons in H as [Hx Hl].
  destruct l as [|y l].
  - simpl. by apply py_split_plain.
  - rewrite py_join_cons by done.
    change (str1 sep +:+ py_join (str1 sep) (y :: l))
      with (String sep (py_join (str1 sep) (y :: l))).
    rewrite py_split_app by done. by rewrite IH.
Qed.

Lemma zip_list_length {A B} (a : list A) (b : list B) :
  length (zip_list a b) = Nat.min (length a) (length b).
Proof.
  revert b. induction a as [|x a IH]; intros [|y b]; simpl; try done.
  by rewrite IH.
Qed.

Lemma zip_list_Forall {A B} (P : A -> Prop) (Q : B -> Prop) a b :
  Forall P a -> Forall Q b -> Forall (fun x => P x.1 /\ Q x.2) (zip_list a b).
Proof.
  intros Ha. revert b. induction Ha as [|x a Hx Ha IH]; intros b Hb; [constructor|].
  destruct Hb as [|y b Hy Hb]; simpl; [constructor|].
  constructor; [done | by apply IH].
Qed.

Lemma append_undeclared_unfold h field old new d r :
  undeclared_INFO h field ->
  __INFO_FIELDS r = Some d ->
  od_get field d = Some (VAtom (AStr old)) ->
  _append_to_existing_info h field (VAtom (AStr new)) r
  = if negb (length (py_split "," old) =? length (py_split "," new))%nat
    then (r, Raise ParseError)
    else (set___INFO_FIELDS
            (Some (od_set field
                     (VAtom (AStr (py_join ","
                        (map (fun x : string * string => x.1 +:+ "|" +:+ x.2)
                             (zip_list (py_split "," old) (py_split "," new))))))
                     d)) r, Ok tt).
Proof.
  intros (decls & Hm & Hu) Hd Hget.
  assert (Hview : info_view r = d) by (unfold info_view; by rewrite Hd).
  assert (Hr : set___INFO_FIELDS (Some d) r = r).
  { destruct r; simpl in *; by subst. }
  assert (Hgetitem : INFO_FIELDS_getitem field r = (r, Ok (VAtom (AStr old)))).
  { unfold INFO_FIELDS_getitem. unfold bindM. rewrite INFO_FIELDS_value.
    rewrite Hview, Hr, Hget. reflexivity. }
  unfold _append_to_existing_info. unfold bindM at 1, liftR at 1.
  rewrite Hm. unfold od_mem. rewrite Hu.
  unfold bindM at 1. rewrite Hgetitem.
  unfold bindM at 1, liftR at 1.
  change (py_str (VAtom (AStr new))) with new.
  destruct (negb _); [reflexivity|].
  rewrite INFO_FIELDS_setitem_value, Hview. reflexivity.
Qed.

Lemma merged_split olds news :
  olds <> [] -> length olds = length news ->
  Forall (fun x => has_char "," x = false) olds ->
  Forall (fun x => has_char "," x = false) news ->
  py_split "," (py_join "," (map (fun x : string * string => x.1 +:+ "|" +:+ x.2)
                                 (zip_list olds news)))
  = map (fun x : string * string => x.1 +:+ "|" +:+ x.2) (zip_list olds news).
Proof.
  intros Hne Heq Ho Hn. apply (py_split_join ",").
  - intros E. apply (f_equal (@length _)) in E.
    rewrite length_map, zip_list_length, <- Heq, Nat.min_id in E.
    by destruct olds.
  - apply Forall_map.
    eapply Forall_impl; [exact (zip_list_Forall _ _ _ _ Ho Hn)|].
    intros [o n] [Ho' Hn']. simpl in *.
    rewrite !has_char_app, Ho', Hn'. reflexivity.
Qed.

(** X12.  Appending a string to an INFO field that holds a string and
    that the header's INFO declarations do not name merges by position:
    when the old and the new value have the same number of comma-separated
    values, the field becomes the old values, each joined to the new value
    at its position with a bar, so the number of values stays the same;
    when the numbers differ a ParseError is raised and the record is
    unchanged. *)
Theorem append_merges_by_position (h : VcfHeader) (field old new : string)
    (d : list (string * pyval)) (r : VcfRecord) :
  undeclared_INFO h field ->
  __INFO_FIELDS r = Some d ->
  od_get field d = Some (VAtom (AStr old)) ->
  let olds := py_split "," old in
  let news := py_split "," new in
  (length olds <> length news ->
   _append_to_existing_info h field (VAtom (AStr new)) r = (r, Raise ParseError))
  /\ (length olds = length news ->
      exists merged,
        _append_to_existing_info h field (VAtom (AStr new)) r
        = (set___INFO_FIELDS (Some (od_set field (VAtom (AStr merged)) d)) r, Ok tt)
        /\ py_split "," merged
           = map (fun x => x.1 +:+ "|" +:+ x.2) (zip_list olds news)
        /\ length (py_split "," merged) = length olds).
Proof.
  intros Hu Hd Hget olds news.
  rewrite (append_undeclared_unfold h field old new d r Hu Hd Hget).
  fold olds news. split.
  - intros Hne. by rewrite (proj2 (Nat.eqb_neq _ _) Hne).
  - intros Heq. rewrite (proj2 (Nat.eqb_eq _ _) Heq). cbn [negb].
    eexists. split; [reflexivity|].
    rewrite merged_split; try done.
    + split; [done|]. by rewrite length_map, zip_list_length, <- Heq, Nat.min_id.
    + apply py_split_nonempty.
    + apply py_split_no_sep.
    + apply py_split_no_sep.
Qed.

Lemma append_merges_by_position_witness :
  exists r0,
    VcfRecord_init multi_allelic_line = Ok r0
    /\ undeclared_INFO (header_declaring "DP" "1" "Integer") "AF"
    /\ (_append_to_existing_info (header_declaring "DP" "1" "Integer") "AF"
          (VAtom (AStr "7,8,9")) (INFO_FIELDS r0).1).2 = Ok tt
    /\ od_get "AF" (info_view
                      (_append_to_existing_info (header_declaring "DP" "1" "Integer")
                         "AF" (VAtom (AStr "7,8,9")) (INFO_FIELDS r0).1).1)
       = Some (VAtom (AStr "0.5|7,0.1|8,0.2|9"))
    /\ (length (py_split "," "0.5,0.1,0.2") <> length (py_split "," "7,8") ->
        _append_to_existing_info (header_declaring "DP" "1" "Integer") "AF"
          (VAtom (AStr "7,8")) (INFO_FIELDS r0).1
        = ((INFO_FIELDS r0).1, Raise ParseError)).
Proof.
  eexists. split; [reflexivity|].
  assert (Hu : undeclared_INFO (header_declaring "DP" "1" "Integer") "AF").
  { eexists. split; reflexivity. }
  split; [exact Hu|]. split; [reflexivity|]. split; [reflexivity|].
  match goal with
  | |- _ -> _ _ _ _ (INFO_FIELDS ?r0).1 = _ =>
      exact (proj1 (append_merges_by_position
                      (header_declaring "DP" "1" "Integer") "AF"
                      "0.5,0.1,0.2" "7,8" _ (INFO_FIELDS r0).1 Hu eq_refl eq_refl))
  end.
Defined.

(** ** Sample columns *)

Lemma VcfRecord_init_full_cols line r :
  VcfRecord_init line = Ok r -> 10 <= length (py_split TAB line) ->
  full_cols r = py_split TAB line.
Proof.
  intros H Hlen. pose proof (VcfRecord_init_cols _ _ H) as Hc.
  assert (Hlong : length (cols r) = 10).
  { rewrite Hc, py_split_max_length_min. lia. }
  unfold full_cols.
  destruct (list_pop (cols r)) as [[l x]|] eqn:Hpop.
  - apply list_pop_Some in Hpop. apply (py_split_max_last _ _ 9). by rewrite <- Hc.
  - unfold list_pop in Hpop. destruct (rev (cols r)) eqn:E; [|done].
    apply (f_equal (@length _)) in E. rewrite length_rev in E. simpl in E. lia.
Qed.

(** With distinct names the sample at place [j] has the index [k + j]. *)
Lemma enumerate_from_lookup (names : list string) (k j : nat)
    (m : gmap string nat) s :
  NoDup names -> names !! j = Some s ->
  fold_left (fun m kv => <[kv.1 := kv.2]> m) (enumerate_from k names) m !! s
  = Some (k + j).
Proof.
  revert k j m. induction names as [|x names IH]; intros k j m Hnd Hj; [done|].
  apply NoDup_cons in Hnd as [Hx Hnd]. simpl.
  destruct j as [|j]; simpl in Hj.
  - injection Hj as ->.
    destruct (enumerate_lookup names (S k) (<[s := k]> m) s) as [_ H].
    rewrite (H Hx), lookup_insert_eq. f_equal. lia.
  - rewrite (IH (S k) j _ Hnd Hj). f_equal. lia.
Qed.

(** X13.  For a record read from a line that has a field for every column
    of a header with distinct sample names, the first access to CALLS
    maps the sample at place j of the header to field 9+j of the line and
    maps nothing else; it also replaces the raw columns, whose tenth piece
    held all sample columns, by the fields of the line. *)
Theorem CALLS_of_line (meta col_header : list string) (line : string)
    (r : VcfRecord) :
  VcfRecord_init line = Ok r ->
  9 < length col_header <= length (py_split TAB line) ->
  NoDup (drop 9 col_header) ->
  exists c,
    CALLS (blank_header meta col_header) r
    = (set___CALLS (Some c) (set_cols (py_split TAB line) r), Ok c)
    /\ (forall j s, drop 9 col_header !! j = Some s ->
                    c !! s = py_split TAB line !! (9 + j))
    /\ (forall s, s ∉ drop 9 col_header -> c !! s = None).
Proof.
  intros Hinit [Hl Hc] Hnd.
  pose proof (VcfRecord_init_genotyped meta col_header line r Hinit Hl Hc)
    as (Hp & _ & Hcalls & _).
  pose proof (VcfRecord_init_full_cols line r Hinit ltac:(lia)) as Hfull.
  assert (Hdrop : drop 9 col_header <> []).
  { intros E. apply (f_equal (@length _)) in E. rewrite length_drop in E.
    simpl in E. lia. }
  assert (Hs : samples (blank_header meta col_header) = Some (drop 9 col_header)
               /\ sample_cols (blank_header meta col_header)
                  = Some (dict_of (enumerate_from 9 (drop 9 col_header)))).
  { unfold blank_header. simpl. by destruct (drop 9 col_header). }
  destruct Hs as [Hs Hsc].
  eexists. split; [|split].
  - rewrite (CALLS_splits _ r Hp Hcalls). cbv zeta. by rewrite Hfull.
  - intros j s Hj. rewrite Hs. simpl.
    rewrite (dict_of_map_lookup
               (fun s => default "" (sample_column (blank_header meta col_header) r s))).
    rewrite decide_True by (by eapply list_elem_of_lookup_2).
    unfold sample_column. rewrite Hsc. unfold dict_of.
    rewrite (enumerate_from_lookup _ 9 j ∅ s Hnd Hj), Hfull.
    destruct (py_split TAB line !! (9 + j)) eqn:E; [done|].
    apply lookup_ge_None in E. apply lookup_lt_Some in Hj.
    rewrite length_drop in Hj. lia.
  - intros s Hn. rewrite Hs. simpl.
    rewrite (dict_of_map_lookup
               (fun s => default "" (sample_column (blank_header meta col_header) r s))).
    by rewrite decide_False.
Qed.

Lemma CALLS_of_line_witness :
  exists r c,
    VcfRecord_init C8_line = Ok r
    /\ CALLS (blank_header [] two_sample_columns) r
       = (set___CALLS (Some c) (set_cols (py_split TAB C8_line) r), Ok c)
    /\ c !! "S2" = Some "0/0:.:."
    /\ (forall j s, drop 9 two_sample_columns !! j = Some s ->
                    c !! s = py_split TAB C8_line !! (9 + j))
    /\ (forall s, s ∉ drop 9 two_sample_columns -> c !! s = None).
Proof.
  eexists.
  assert (Hl : 9 < length two_sample_columns <= length (py_split TAB C8_line))
    by (vm_compute; lia).
  assert (Hn : NoDup (drop 9 two_sample_columns))
    by (apply (bool_decide_unpack _); reflexivity).
  destruct (CALLS_of_line [] two_sample_columns C8_line _ eq_refl Hl Hn)
    as (c & H1 & H2 & H3).
  exists c. split; [reflexivity|]. split; [exact H1|].
  split; [exact (H2 1 "S2" eq_refl)|]. split; [exact H2 | exact H3].
Defined.

(** The columns of a record read from a line, once the last piece is
    split, are the fields of the line. *)
Lemma VcfRecord_init_all_cols line r :
  VcfRecord_init line = Ok r -> full_cols r = py_split TAB line.
Proof.
  intros H. pose proof (VcfRecord_init_cols _ _ H) as Hc.
  unfold full_cols.
  destruct (list_pop (cols r)) as [[l x]|] eqn:Hpop.
  - apply list_pop_Some in Hpop. apply (py_split_max_last _ _ 9). by rewrite <- Hc.
  - exfalso. unfold VcfRecord_init in H. rewrite <- Hc in H.
    unfold list_pop in Hpop. destruct (rev (cols r)) eqn:E; [|done].
    apply (f_equal (@rev _)) in E. rewrite rev_involutive in E.
    by rewrite E in H.
Qed.

Lemma mapM_raises {S A B} (f : A -> M S B) (xs : list A) (s : S) (e : exn) :
  (forall x, x ∈ xs -> (exists y, f x s = (s, Ok y)) \/ f x s = (s, Raise e)) ->
  (exists x, x ∈ xs /\ f x s = (s, Raise e)) ->
  mapM f xs s = (s, Raise e).
Proof.
  induction xs as [|x xs IH]; intros Hall (x0 & Hin & Hx0).
  - by apply elem_of_nil in Hin.
  - cbn [mapM]. unfold bindM at 1.
    destruct (Hall x ltac:(apply elem_of_cons; by left)) as [[y Hy]|Hr].
    + rewrite Hy. unfold bindM at 1.
      apply elem_of_cons in Hin as [->|Hin]; [congruence|].
      rewrite IH; [reflexivity| |by exists x0].
      intros z Hz. apply Hall, elem_of_cons. by right.
    + by rewrite Hr.
Qed.

Lemma enumerate_from_app k (a b : list string) :
  enumerate_from k (a ++ b)
  = enumerate_from k a ++ enumerate_from (k + length a) b.
Proof.
  revert k. induction a as [|x a IH]; intros k; simpl.
  - by rewrite Nat.add_0_r.
  - rewrite IH. do 3 f_equal. lia.
Qed.

Lemma enumerate_from_last k (names : list string) x :
  dict_of (enumerate_from k (names ++ [x])) !! x = Some (k + length names).
Proof.
  unfold dict_of. rewrite enumerate_from_app, fold_left_app. simpl.
  apply lookup_insert_eq.
Qed.

Lemma enumerate_from_keys k (names : list string) (m : gmap string nat) s :
  s ∈ names \/ is_Some (m !! s) ->
  is_Some (fold_left (fun m kv => <[kv.1 := kv.2]> m) (enumerate_from k names) m !! s).
Proof.
  revert k m. induction names as [|x names IH]; intros k m [Hin|Hm]; simpl.
  - by apply elem_of_nil in Hin.
  - done.
  - apply IH. apply elem_of_cons in Hin as [->|Hin]; [right|by left].
    rewrite lookup_insert_eq. by eexists.
  - apply IH. right. destruct (decide (x = s)) as [->|Hne].
    + rewrite lookup_insert_eq. by eexists.
    + by rewrite lookup_insert_ne.
Qed.

Lemma enumerate_from_known k (names : list string) s :
  s ∈ names -> is_Some (dict_of (enumerate_from k names) !! s).
Proof. intros H. apply enumerate_from_keys. by left. Qed.

(** The first access to [CALLS] on a record read from a line that is
    shorter than a column header with samples. *)
Lemma CALLS_short_line meta col_header line r :
  VcfRecord_init line = Ok r ->
  9 < length col_header ->
  length (py_split TAB line) < length col_header ->
  CALLS (blank_header meta col_header) r
  = (set_cols (py_split TAB line) r, Raise IndexError).
Proof.
  intros Hinit Hlen Hshort.
  destruct (VcfRecord_init_fresh _ _ Hinit) as (_ & _ & _ & _ & Hcalls & _).
  pose proof (VcfRecord_init_all_cols _ _ Hinit) as Hfull.
  assert (Hnames : exists names x, drop 9 col_header = names ++ [x]).
  { destruct (drop 9 col_header) as [|y l] eqn:E using rev_ind.
    - apply (f_equal (@length _)) in E. rewrite length_drop in E. simpl in E. lia.
    - by exists l, y. }
  destruct Hnames as (names & x & Hn).
  assert (Hnl : 9 + length names = length col_header - 1).
  { apply (f_equal (@length _)) in Hn.
    rewrite length_drop, length_app in Hn. simpl in Hn. lia. }
  assert (Hs : samples (blank_header meta col_header) = Some (names ++ [x])
               /\ sample_cols (blank_header meta col_header)
                  = Some (dict_of (enumerate_from 9 (names ++ [x])))).
  { unfold blank_header. simpl. rewrite Hn. by destruct names. }
  destruct Hs as [Hs Hsc].
  assert (Hsize : (size (dict_of (enumerate_from 9 (names ++ [x]))) =? 0)%nat = false).
  { apply Nat.eqb_neq. intros Hz. apply map_size_empty_iff in Hz.
    pose proof (enumerate_from_last 9 names x) as Hl.
    by rewrite Hz, lookup_empty in Hl. }
  unfold full_cols in Hfull.
  destruct (list_pop (cols r)) as [[l c]|] eqn:Hpop.
  2:{ exfalso. pose proof (VcfRecord_init_cols _ _ Hinit) as Hc.
      unfold VcfRecord_init in Hinit. rewrite <- Hc in Hinit.
      unfold list_pop in Hpop. destruct (rev (cols r)) eqn:E; [|done].
      apply (f_equal (@rev _)) in E. rewrite rev_involutive in E.
      by rewrite E in Hinit. }
  unfold CALLS. unfold bindM at 1, get at 1. rewrite Hcalls, Hsc, Hsize.
  cbn [negb]. cbv beta iota.
  unfold bindM at 1, liftR at 1. rewrite Hpop.
  unfold bindM at 1, modify at 1. cbn [fst snd].
  unfold bindM at 1, liftR at 1. rewrite Hs.
  unfold bindM at 1. rewrite Hfull.
  rewrite (mapM_raises _ _ _ IndexError); [reflexivity| |].
  - intros s Hin.
    destruct (enumerate_from_known 9 (names ++ [x]) s Hin) as [i Hi].
    unfold getitem. munfold. cbn [default]. unfold id. rewrite Hi.
    cbn [cols set_cols].
    destruct (py_split TAB line !! i); [left; by eexists | by right].
  - exists x. split; [apply elem_of_app; right; by apply list_elem_of_singleton|].
    unfold getitem. munfold. cbn [default]. unfold id. rewrite enumerate_from_last.
    cbn [cols set_cols].
    destruct (py_split TAB line !! (9 + length names)) eqn:E; [|done].
    apply lookup_lt_Some in E. lia.
Qed.

(** X14.  Asking a record read from a line for the call of a sample that
    the column header does not name: when the header names no sample, or
    the line has a field for every column of the header, a ParseError is
    raised; when the header names samples and the line has fewer fields
    than the header has columns, the decoding of the sample columns fails
    first and an IndexError is raised. *)
Theorem get_sample_call_unknown (meta col_header : list string) (line : string)
    (r : VcfRecord) (s : string) :
  VcfRecord_init line = Ok r ->
  s ∉ drop 9 col_header ->
  (length col_header <= 9 \/ length col_header <= length (py_split TAB line) ->
   (get_sample_call (blank_header meta col_header) s r).2 = Raise ParseError)
  /\ (9 < length col_header /\ length (py_split TAB line) < length col_header ->
      (get_sample_call (blank_header meta col_header) s r).2 = Raise IndexError).
Proof.
  intros Hinit Hs.
  destruct (VcfRecord_init_fresh _ _ Hinit) as (_ & _ & _ & _ & Hcalls & Hg & _).
  split.
  - intros Hc. unfold get_sample_call. unfold bindM at 1, get at 1.
    rewrite Hg, lookup_empty.
    destruct (Nat.le_gt_cases (length col_header) 9) as [Hshort|Hlong].
    + assert (Hd : drop 9 col_header = []) by (by apply drop_ge).
      unfold CALLS, blank_header. munfold. simpl. rewrite Hcalls, Hd. simpl.
      by rewrite lookup_empty.
    + destruct Hc as [Hc|Hc]; [lia|].
      pose proof (VcfRecord_init_genotyped meta col_header line r Hinit Hlong Hc)
        as (Hp & _).
      unfold bindM at 1. rewrite (CALLS_splits _ r Hp Hcalls). cbv zeta.
      rewrite (dict_of_map_lookup
                 (fun s => default "" (sample_column (blank_header meta col_header) r s))).
      assert (Hsm : default [] (samples (blank_header meta col_header))
                    = drop 9 col_header).
      { unfold blank_header. simpl. by destruct (drop 9 col_header). }
      rewrite Hsm, decide_False by done. reflexivity.
  - intros [Hlong Hshort]. unfold get_sample_call. unfold bindM at 1, get at 1.
    rewrite Hg, lookup_empty. unfold bindM at 1.
    by rewrite (CALLS_short_line meta col_header line r Hinit Hlong Hshort).
Qed.

Lemma get_sample_call_unknown_witness :
  exists r r',
    VcfRecord_init C8_line = Ok r
    /\ VcfRecord_init C6_line = Ok r'
    /\ (get_sample_call (blank_header [] two_sample_columns) "S3" r).2
       = Raise ParseError
    /\ (get_sample_call (blank_header [] essential_columns) "S1" r).2
       = Raise ParseError
    /\ (get_sample_call (blank_header [] two_sample_columns) "S3" r').2
       = Raise IndexError.
Proof.
  do 2 eexists. split; [reflexivity|]. split; [reflexivity|].
  assert (Hs3 : "S3" ∉ drop 9 two_sample_columns)
    by (apply (bool_decide_unpack _); reflexivity).
  assert (Hs1 : "S1" ∉ drop 9 essential_columns)
    by (apply (bool_decide_unpack _); reflexivity).
  split; [|split].
  - apply (proj1 (get_sample_call_unknown [] two_sample_columns C8_line _ "S3"
                    eq_refl Hs3)).
    right. vm_compute. lia.
  - apply (proj1 (get_sample_call_unknown [] essential_columns C8_line _ "S1"
                    eq_refl Hs1)).
    left. vm_compute. lia.
  - apply (proj2 (get_sample_call_unknown [] two_sample_columns C6_line _ "S3"
                    eq_refl Hs3)).
    vm_compute. lia.
Defined.

Lemma sample_dicts_keys h r s :
  is_Some (sample_dicts h r !! s) <-> s ∈ default [] (samples h).
Proof.
  unfold sample_dicts.
  rewrite (dict_of_map_lookup
             (fun s => call_dict (default [] (GT_FORMAT r))
                                 (default "" (sample_column h r s)))).
  destruct (decide (s ∈ default [] (samples h))).
  - split; [done | by eexists].
  - split; [by intros [? ?] | done].
Qed.

(** X15.  For a record read from a line that has a field for every column
    of a header with samples, sample_calls returns a dictionary whose keys
    are exactly the sample names of the header, each with the FORMAT keys
    paired with the colon-separated values of the sample's column; a
    second call returns the same dictionary and changes nothing, and the
    record still renders as the line. *)
Theorem sample_calls_of_line (meta col_header : list string) (line : string)
    (r : VcfRecord) :
  VcfRecord_init line = Ok r ->
  9 < length col_header <= length (py_split TAB line) ->
  let h := blank_header meta col_header in
  exists r' D,
    sample_calls h r = (r', Ok D)
    /\ sample_calls h r' = (r', Ok D)
    /\ (forall s, is_Some (D !! s) <-> s ∈ drop 9 col_header)
    /\ (forall s, s ∈ drop 9 col_header ->
          exists call,
            sample_column h r s = Some call
            /\ D !! s = Some (dict_of (zip_list (default [] (GT_FORMAT r))
                                                (py_split ":" call))))
    /\ __str__ r' = line.
Proof.
  intros Hinit [Hl Hc].
  pose proof (VcfRecord_init_genotyped meta col_header line r Hinit Hl Hc) as G.
  assert (Hsm : default [] (samples (blank_header meta col_header))
                = drop 9 col_header).
  { unfold blank_header. simpl. by destruct (drop 9 col_header). }
  cbv zeta. revert G Hsm. generalize (blank_header meta col_header). intros h G Hsm.
  destruct (genotyped_sample_calls h r G) as (r' & H1 & H2 & _).
  exists r', (sample_dicts h r).
  split; [done|]. split; [done|]. split; [|split].
  - intros s. by rewrite sample_dicts_keys, Hsm.
  - intros s Hin.
    destruct G as ((names & Hn1 & Hn2 & Hn3) & _).
    assert (names = drop 9 col_header) as ->.
    { rewrite Hn1 in Hsm. exact Hsm. }
    destruct (Hn3 s Hin) as [c Hcs]. exists c. split; [done|].
    unfold sample_dicts.
    rewrite (dict_of_map_lookup
               (fun s => call_dict (default [] (GT_FORMAT r))
                                   (default "" (sample_column h r s)))).
    rewrite decide_True by (by rewrite Hsm).
    by rewrite Hcs.
  - pose proof (VcfRecord_init_str _ _ Hinit) as Hstr.
    apply (sample_calls_renders h line) in Hstr. by rewrite H1 in Hstr.
Qed.

Lemma sample_calls_of_line_witness :
  exists r r' D,
    VcfRecord_init C8_line = Ok r
    /\ sample_calls (blank_header [] two_sample_columns) r = (r', Ok D)
    /\ sample_calls (blank_header [] two_sample_columns) r' = (r', Ok D)
    /\ (forall s, is_Some (D !! s) <-> s ∈ drop 9 two_sample_columns)
    /\ (forall s, s ∈ drop 9 two_sample_columns ->
          exists call,
            sample_column (blank_header [] two_sample_columns) r s = Some call
            /\ D !! s = Some (dict_of (zip_list (default [] (GT_FORMAT r))
                                                (py_split ":" call))))
    /\ __str__ r' = C8_line.
Proof.
  eexists.
  assert (Hl : 9 < length two_sample_columns <= length (py_split TAB C8_line))
    by (vm_compute; lia).
  destruct (sample_calls_of_line [] two_sample_columns C8_line _ eq_refl Hl)
    as (r' & D & H).
  exists r', D. split; [reflexivity | exact H].
Defined.

(** ** Phasing, continued *)

Lemma both_have_sym k r1 r2 : both_have k r1 r2 = both_have k r2 r1.
Proof. unfold both_have. apply andb_comm. Qed.

Lemma phased_together_sym d1 d2 a b :
  phased_together d1 d2 a b = phased_together d2 d1 b a.
Proof.
  unfold phased_together.
  destruct (d1 ≫= (.!! "PID")) as [pid1|], (d2 ≫= (.!! "PID")) as [pid2|],
           (d1 ≫= (.!! "PGT")) as [pgt1|], (d2 ≫= (.!! "PGT")) as [pgt2|];
    try reflexivity.
  rewrite (String.eqb_sym pid1 pid2).
  destruct (String.eqb pid2 pid1); simpl; [|reflexivity].
  destruct (String.eqb pgt1 "."), (String.eqb pgt2 "."); simpl; try reflexivity.
  destruct (list_index (py_str_int a) (py_split "|" pgt1)),
           (list_index (py_str_int b) (py_split "|" pgt2)); try reflexivity.
  apply Nat.eqb_sym.
Qed.

Lemma sample_dicts_unknown h r s :
  s ∉ default [] (samples h) -> sample_dicts h r !! s = None.
Proof.
  intros H. unfold sample_dicts.
  rewrite (dict_of_map_lookup
             (fun s => call_dict (default [] (GT_FORMAT r))
                                 (default "" (sample_column h r s)))).
  by rewrite decide_False.
Qed.

(** X16.  For two records read from lines that have a field for every
    column of their header, under headers with samples, in_cis_with
    raises nothing; it is symmetric: exchanging the two records together
    with the two allele numbers gives the same answer; and for a sample
    that the header does not name the answer is false. *)
Theorem in_cis_with_symmetric (h h' : VcfHeader) (line1 line2 : string)
    (r1 r2 : VcfRecord) (sample : string) (a b : Z) :
  samples_indexed h -> samples_indexed h' ->
  VcfRecord_init line1 = Ok r1 -> VcfRecord_init line2 = Ok r2 ->
  9 < length (col_header h) <= length (py_split TAB line1) ->
  9 < length (col_header h') <= length (py_split TAB line2) ->
  (exists v, (in_cis_with fst_ref snd_ref h h' sample a b (r1, r2)).2 = Ok v)
  /\ (in_cis_with fst_ref snd_ref h h' sample a b (r1, r2)).2
     = (in_cis_with fst_ref snd_ref h' h sample b a (r2, r1)).2
  /\ (sample ∉ default [] (samples h) ->
      (in_cis_with fst_ref snd_ref h h' sample a b (r1, r2)).2 = Ok false).
Proof.
  intros Hs Hs' H1 H2 Hl1 Hl2.
  rewrite (in_cis_with_lines h h' line1 line2 r1 r2 sample a b) by done.
  rewrite (in_cis_with_lines h' h line2 line1 r2 r1 sample b a) by done.
  split; [by eexists|]. split.
  - by rewrite (both_have_sym "PID"), (both_have_sym "PGT"), phased_together_sym.
  - intros Hn. rewrite (sample_dicts_unknown h r1 sample Hn).
    by rewrite !andb_false_r.
Qed.

Lemma in_cis_with_symmetric_witness :
  exists r1 r2,
    VcfRecord_init (C4_record "100" "0|1") = Ok r1
    /\ VcfRecord_init (C4_record "105" "1|0") = Ok r2
    /\ (in_cis_with fst_ref snd_ref C4_header C4_header "S1" 1 0 (r1, r2)).2 = Ok true
    /\ (exists v, (in_cis_with fst_ref snd_ref C4_header C4_header "S1" 1 0
                     (r1, r2)).2 = Ok v)
    /\ (in_cis_with fst_ref snd_ref C4_header C4_header "S1" 1 0 (r1, r2)).2
       = (in_cis_with fst_ref snd_ref C4_header C4_header "S1" 0 1 (r2, r1)).2
    /\ ("S1" ∉ default [] (samples C4_header) ->
        (in_cis_with fst_ref snd_ref C4_header C4_header "S1" 1 0 (r1, r2)).2
        = Ok false).
Proof.
  do 2 eexists. split; [reflexivity|]. split; [reflexivity|].
  split; [reflexivity|].
  apply (in_cis_with_symmetric C4_header C4_header
           (C4_record "100" "0|1") (C4_record "105" "1|0"));
    first [reflexivity | split; reflexivity | vm_compute; lia].
Defined.

(** ** Parsed genotype fields, continued *)

Lemma registry_extends_refl field h : registry_extends field h h.
Proof. unfold registry_extends. repeat split; auto. Qed.

Lemma mapR_Raise {A B} (f : A -> result B) (xs : list A) e :
  mapR f xs = Raise e -> exists x, x ∈ xs /\ f x = Raise e.
Proof.
  induction xs as [|x xs IH]; [done|]. cbn [mapR].
  destruct (f x) as [y|e'] eqn:Ex.
  - destruct (mapR f xs) as [ys|e'']; [done|]. intros [= ->].
    destruct (IH eq_refl) as (z & Hz & Hf). exists z.
    split; [apply elem_of_cons; by right | done].
  - intros [= ->]. exists x. split; [apply elem_of_cons; by left | done].
Qed.

(** No conversion of a value raises a ParseError. *)
Lemma convert_not_ParseError fa c x : convert fa c x <> Raise ParseError.
Proof.
  destruct c as [[]|]; cbn [convert]; try done.
  - by destruct (fa x).
  - by destruct (py_int x).
Qed.

Lemma parse_GT_not_ParseError val : parse_GT val <> Raise ParseError.
Proof.
  destruct val as [val|]; [|done]. cbn [parse_GT].
  match goal with |- context [mapR ?g ?l] => destruct (mapR g l) end; [done|].
  by destruct (map _ _).
Qed.

Lemma parse_other_not_ParseError fa f val :
  parse_other fa f val <> Raise ParseError.
Proof.
  unfold parse_other.
  match goal with
  | |- match ?att with _ => _ end <> _ =>
      assert (Ha : att <> Raise ParseError); [|destruct att as [p|[]]; try done]
  end.
  - destruct (f.2), val as [v|]; try done.
    + destruct (mapR _ _) as [l|e] eqn:E; [done|]. cbn. intros [= ->].
      destruct (mapR_Raise _ _ _ E) as (x & _ & Hx).
      by apply convert_not_ParseError in Hx.
    + destruct (convert fa f.1 v) eqn:E; [done|]. cbn. intros [= ->].
      by apply convert_not_ParseError in E.
    + by destruct f.1 as [[]|].
  - by destruct (match val with Some v => _ | None => _ end).
  - by destruct (match val with Some v => _ | None => _ end).
  - by destruct (match val with Some v => _ | None => _ end).
Qed.

(** X17.  Whatever it returns or raises, _get_parsed_gt_fields changes
    nothing of the header but the FORMAT registry, and the registry only
    grows: every entry it had is kept, so a declaration of the header is
    never replaced by the table of common fields, and the only entry that
    can be added is the one of that table for the requested field.  When
    the registry already knows the field, the header is left as it was.
    When it does not and the table of common fields has the field, the
    registry holds the entry of the table afterwards, also when the
    conversion of a value raises.  When neither knows the field, a
    ParseError is raised and the header is left as it was. *)
Theorem _get_parsed_gt_fields_registry (float_accepts : string -> bool)
    (field : string) (values : list (option string)) (h : VcfHeader) :
  let out := _get_parsed_gt_fields float_accepts field values h in
  registry_extends field h out.1
  /\ (is_Some (_format_field_translater h !! field) -> out.1 = h)
  /\ (forall f, _format_field_translater h !! field = None ->
                od_get field COMMON_FORMAT = Some f ->
                _format_field_translater out.1 !! field = Some f
                /\ out.2 <> Raise ParseError)
  /\ (_format_field_translater h !! field = None ->
      od_get field COMMON_FORMAT = None ->
      out = (h, Raise ParseError)).
Proof.
  unfold _get_parsed_gt_fields. munfold. cbv beta iota zeta.
  destruct (_format_field_translater h !! field) as [f|] eqn:E;
    [|destruct (od_get field COMMON_FORMAT) as [f|] eqn:EC]; cbv beta iota.
  - match goal with
    | |- context [mapR ?g values] => destruct (mapR g values)
    end; cbn [fst snd];
      (split; [apply registry_extends_refl|]);
      (split; [done|]); (split; [by intros ? [=] | by intros [=]]).
  - assert (Hx : registry_extends field h
                   (set__format_field_translater
                      (<[field := f]> (_format_field_translater h)) h)).
    { unfold registry_extends. cbn. repeat split; try done.
      - intros k g Hk. rewrite lookup_insert_ne; [done|]. congruence.
      - intros k g. destruct (decide (field = k)) as [<-|Hne].
        + rewrite lookup_insert_eq. intros [= <-]. by right.
        + rewrite lookup_insert_ne by done. by left. }
    match goal with
    | |- context [mapR ?g values] => destruct (mapR g values) as [pv|e] eqn:Em
    end; cbn [fst snd].
    + split; [exact Hx|]. split; [by intros [? [=]]|].
      split; [|by intros _ [=]].
      intros g _ [= <-]. split; [cbn; by rewrite lookup_insert_eq | done].
    + split; [exact Hx|]. split; [by intros [? [=]]|].
      split; [|by intros _ [=]].
      intros g _ [= <-]. split; [cbn; by rewrite lookup_insert_eq|].
      intros [= ->]. destruct (mapR_Raise _ _ _ Em) as (val & _ & Hv).
      destruct (String.eqb field "GT");
        [by apply parse_GT_not_ParseError in Hv
        |by apply parse_other_not_ParseError in Hv].
  - split; [apply registry_extends_refl|]. split; [by intros [? [=]]|].
    split; [by intros ? _ [=] | done].
Qed.

Lemma _get_parsed_gt_fields_registry_witness :
  (_format_field_translater (blank_header [] two_sample_columns) !! "GT" = None
   /\ _format_field_translater
        (_get_parsed_gt_fields (fun _ => false) "GT" [Some "0/x"]
           (blank_header [] two_sample_columns)).1 !! "GT"
      = Some (Some Cstr, false)
   /\ (_get_parsed_gt_fields (fun _ => false) "GT" [Some "0/x"]
         (blank_header [] two_sample_columns)).2
      = Raise NameError)
  /\ _get_parsed_gt_fields (fun _ => false) "XX" [Some "1"]
       (blank_header [] two_sample_columns)
     = (blank_header [] two_sample_columns, Raise ParseError).
Proof.
  pose proof (_get_parsed_gt_fields_registry (fun _ => false) "GT" [Some "0/x"]
                (blank_header [] two_sample_columns))
    as (_ & _ & Hgt & _).
  pose proof (_get_parsed_gt_fields_registry (fun _ => false) "XX" [Some "1"]
                (blank_header [] two_sample_columns))
    as (_ & _ & _ & Hxx).
  split; [|exact (Hxx eq_refl eq_refl)].
  split; [reflexivity|].
  split; [exact (proj1 (Hgt _ eq_refl eq_refl)) | reflexivity].
Defined.

(** X18.  For a FORMAT field other than GT that the registry knows, an
    absent value and a dot parse as follows when the float conversion
    rejects the dot.  A field that is split gives a tuple with a single
    None for an absent value; for a dot it gives that tuple too, unless
    its class is str, where the tuple holds the text of the dot.  A field
    that is not split gives None for both, unless its class is str, where
    the dot stays the text of the dot and the absent value becomes the
    text None. *)
Theorem missing_FORMAT_values (float_accepts : string -> bool)
    (field : string) (c : option ctype) (split : bool) (h : VcfHeader) :
  float_accepts "." = false -> field <> "GT" ->
  _format_field_translater h !! field = Some (c, split) ->
  _get_parsed_gt_fields float_accepts field [None; Some "."] h
  = (h, Ok [parsed_absent c split; parsed_dot c split]).
Proof.
  intros Hf Hgt Hreg. unfold _get_parsed_gt_fields. munfold. rewrite Hreg.
  rewrite (proj2 (String.eqb_neq field "GT") Hgt).
  unfold parse_other, parsed_absent, parsed_dot.
  destruct c as [[| |]|], split; simpl; rewrite ?Hf; reflexivity.
Qed.

Lemma missing_FORMAT_values_witness :
  _get_parsed_gt_fields (fun _ => false) "FT" [None; Some "."]
    (header_with_format "FT" (Some Cstr, false))
  = (header_with_format "FT" (Some Cstr, false),
     Ok [PValue (Some (SStr "None")); PValue (Some (SStr "."))])
  /\ _get_parsed_gt_fields (fun _ => false) "DP" [None; Some "."]
       (header_with_format "DP" (Some Cint, false))
     = (header_with_format "DP" (Some Cint, false), Ok [PValue None; PValue None]).
Proof.
  split.
  - exact (missing_FORMAT_values (fun _ => false) "FT" (Some Cstr) false
             (header_with_format "FT" (Some Cstr, false))
             eq_refl ltac:(done) eq_refl).
  - exact (missing_FORMAT_values (fun _ => false) "DP" (Some Cint) false
             (header_with_format "DP" (Some Cint, false))
             eq_refl ltac:(done) eq_refl).
Defined.

Lemma mapR_convert_int_fails fa tokens x :
  x ∈ tokens -> py_int x = None ->
  mapR (convert fa (Some Cint)) tokens = Raise ValueError.
Proof.
  intros Hin Hx. induction tokens as [|t tokens IH]; [by apply elem_of_nil in Hin|].
  simpl. apply elem_of_cons in Hin as [<-|Hin].
  - by rewrite Hx.
  - destruct (py_int t); simpl; [|done]. by rewrite (IH Hin).
Qed.

(** X19.  A list-valued Integer FORMAT field does not accept a gap among
    its values: when the value is not the single dot and one of its
    comma-separated tokens is not an integer literal, as the dot in 10,.
    is not, a ValueError is raised and the header is unchanged. *)
Theorem Integer_list_with_gap (float_accepts : string -> bool)
    (field val tok : string) (h : VcfHeader) :
  field <> "GT" ->
  _format_field_translater h !! field = Some (Some Cint, true) ->
  val <> "." -> tok ∈ py_split "," val -> py_int tok = None ->
  _get_parsed_gt_fields float_accepts field [Some val] h = (h, Raise ValueError).
Proof.
  intros Hgt Hreg Hdot Hin Htok. unfold _get_parsed_gt_fields. munfold.
  rewrite Hreg, (proj2 (String.eqb_neq field "GT") Hgt).
  unfold parse_other. simpl.
  rewrite (mapR_convert_int_fails _ _ _ Hin Htok). simpl.
  by rewrite (proj2 (String.eqb_neq val ".") Hdot).
Qed.

Lemma Integer_list_with_gap_witness :
  _get_parsed_gt_fields (fun _ => false) "AD" [Some "10,."]
    (header_with_format "AD" (Some Cint, true))
  = (header_with_format "AD" (Some Cint, true), Raise ValueError).
Proof.
  apply (Integer_list_with_gap (fun _ => false) "AD" "10,." ".");
    try done.
  apply elem_of_cons. right. apply elem_of_cons. by left.
Defined.

(** ** Consequence annotations, continued *)

(** An index returned from inside the first loop is cached under the
    annotation's allele. *)
Lemma classify_alts_inl allele ref alts fl cache cache' i :
  classify_alts allele ref alts fl cache = (cache', inl i) ->
  od_get allele cache' = Some i.
Proof.
  revert fl cache. induction alts as [|[j alt] alts IH]; intros fl cache; [done|].
  cbn [classify_alts].
  destruct (String.eqb alt "*"); [apply IH|].
  destruct (_svalt_re_match alt), (_bnd_re_match alt); try apply IH.
  cbv zeta.
  match goal with
  | |- (if ?c then _ else _) = _ -> _ => destruct c
  end; [|apply IH].
  intros [= <- <-]. rewrite od_get_set. by rewrite String.eqb_refl.
Qed.

(** Whenever [_vep_to_alt] returns, the cache it leaves holds the index
    under the annotation's allele. *)
Lemma _vep_to_alt_result csq r r' i :
  _vep_to_alt csq r = (r', Ok i) ->
  exists a, od_get "Allele" csq = Some a /\ od_get a (_vep_allele r') = Some i.
Proof.
  unfold _vep_to_alt. unfold bindM at 1, liftR at 1.
  destruct (od_get "Allele" csq) as [a|] eqn:Ha; [|done].
  intros H. exists a. split; [done|]. revert H.
  unfold bindM at 1, get at 1.
  destruct (od_get a (_vep_allele r)) as [j|] eqn:Hj.
  { unfold ret. intros [= <- <-]. exact Hj. }
  unfold bindM at 1. destruct (ALLELES r) as [r1 [alleles|e]]; [|done].
  unfold bindM at 1, liftR at 1.
  destruct alleles as [|ref alleles]; [done|].
  destruct (classify_alts a ref _ _ _) as [cache outcome] eqn:EC.
  unfold bindM at 1, modify at 1.
  destruct outcome as [i0|fl].
  - unfold ret. intros [= <- <-]. simpl. by apply classify_alts_inl in EC.
  - unfold bindM at 1.
    match goal with
    | |- (let (s', r0) := ?m ?s in _) = _ -> _ => destruct (m s) as [r3 [[]|e]]
    end; [|done].
    unfold bindM, get.
    destruct (od_get a (_vep_allele r3)) as [i1|] eqn:E3; [|done].
    unfold ret. by intros [= <- <-].
Qed.

(** X20.  An index that _vep_to_alt returned for an annotation is returned
    again for it, whatever the alleles of the record and the path taken
    the first time, and the second call leaves the record as it is. *)
Theorem _vep_to_alt_memoizes (csq : list (string * string)) (r r' : VcfRecord)
    (i : nat) :
  _vep_to_alt csq r = (r', Ok i) -> _vep_to_alt csq r' = (r', Ok i).
Proof.
  intros H. destruct (_vep_to_alt_result csq r r' i H) as (a & Ha & Hi).
  unfold _vep_to_alt. munfold. by rewrite Ha, Hi.
Qed.

Lemma _vep_to_alt_memoizes_witness :
  exists r,
    VcfRecord_init C6_line = Ok r
    /\ (_vep_to_alt [("Allele", "T")] r).2 = Ok 2
    /\ _vep_allele (_vep_to_alt [("Allele", "T")] r).1 = [("-", 1); ("T", 2)]
    /\ _vep_to_alt [("Allele", "T")] (_vep_to_alt [("Allele", "T")] r).1
       = ((_vep_to_alt [("Allele", "T")] r).1, Ok 2).
Proof.
  eexists. split; [reflexivity|].
  match goal with
  | |- (?m ?r).2 = _ /\ _ =>
      assert (H2 : (m r).2 = Ok 2) by reflexivity;
      split; [exact H2|]; split; [reflexivity|];
      destruct (m r) as [r' res] eqn:E; cbn [fst snd] in *; subst res;
      exact (_vep_to_alt_memoizes _ r r' 2 E)
  end.
Defined.

(** A string of one character is neither a symbolic allele nor a
    breakend. *)
Lemma one_char_no_sv alt :
  String.length alt = 1 -> _svalt_re_match alt = None /\ _bnd_re_match alt = None.
Proof.
  destruct alt as [|c [|c' alt]]; try done. intros _. split.
  - unfold _svalt_re_match. destruct (Ascii.eqb_spec c "<") as [->|Hne]; [done|].
    destruct c as [[] [] [] [] [] [] [] []]; try done.
  - unfold _bnd_re_match. cbn [span]. destruct (is_base c); reflexivity.
Qed.

(** When REF and every ALT are one character long the first loop runs
    to its end, caches every ALT under its index, and reports neither a
    structural variant nor an indel nor a multi-nucleotide variant. *)
Lemma classify_alts_SNVs allele ref (alts : list (nat * string)) fl cache :
  String.length ref = 1 ->
  Forall (fun p => String.length p.2 = 1) alts ->
  is_indel fl = false ->
  exists fl',
    classify_alts allele ref alts fl cache
    = (od_update cache (map (fun p => (p.2, p.1)) alts), inr fl')
    /\ is_sv fl' = is_sv fl /\ is_indel fl' = false
    /\ is_mnv fl' = is_mnv fl.
Proof.
  intros Href Halts. revert fl cache.
  induction Halts as [|[i alt] alts Halt _ IH]; intros fl cache Hi.
  - exists fl. done.
  - simpl in Halt. cbn [classify_alts map].
    destruct (String.eqb alt "*").
    + destruct (IH (mk_vep_flags (is_sv fl) (is_snv fl) (is_indel fl) (is_mnv fl) true)
                   (od_set alt i cache) Hi) as (fl' & -> & H1 & H2 & H3).
      exists fl'. done.
    + destruct (one_char_no_sv alt Halt) as [-> ->]. cbv zeta.
      rewrite Halt, Href. cbn [Nat.eqb andb].
      destruct (negb (String.eqb alt ref)).
      * cbn [is_indel]. rewrite Hi. cbn [andb].
        destruct (IH (mk_vep_flags (is_sv fl) true false (is_mnv fl) (asterisk fl))
                     (od_set alt i cache) eq_refl) as (fl' & -> & H1 & H2 & H3).
        exists fl'. done.
      * rewrite Hi. cbn [andb].
        destruct (IH fl (od_set alt i cache) Hi) as (fl' & -> & H1 & H2 & H3).
        exists fl'. done.
Qed.

Lemma zip_seq_lookup (alts : list string) k j x :
  alts !! j = Some x -> (k + j, x) ∈ zip_list (seq k (length alts)) alts.
Proof.
  revert k j. induction alts as [|a alts IH]; intros k j H; [done|].
  simpl. destruct j as [|j]; simpl in H.
  - injection H as ->. rewrite Nat.add_0_r. apply elem_of_cons. by left.
  - apply elem_of_cons. right. replace (k + S j) with (S k + j) by lia.
    by apply IH.
Qed.

Lemma zip_seq_snd (alts : list string) k :
  map snd (zip_list (seq k (length alts)) alts) = alts.
Proof.
  revert k. induction alts as [|a alts IH]; intros k; [done|].
  simpl. by rewrite IH.
Qed.

Lemma Forall_zip_snd {A B} (P : B -> Prop) (a : list A) (b : list B) :
  Forall P b -> Forall (fun p => P p.2) (zip_list a b).
Proof.
  intros Hb. revert a. induction Hb as [|y b Hy Hb IH]; intros [|x a]; simpl;
    [constructor | constructor | constructor | constructor; [done | apply IH]].
Qed.

(** X21.  For a record read from a line whose REF and ALT alleles are
    single characters, the ALT alleles distinct, and an annotation without
    ALLELE_NUM: with one ALT allele the annotation is mapped to alt_index
    1 whatever its Allele is; with several, the annotation whose Allele is
    the ALT at place j is mapped to j+1, and an Allele that is no ALT of
    the record raises a KeyError. *)
Theorem csq_alt_index_SNVs (line : string) (r : VcfRecord)
    (d : list (string * string)) (allele : string) :
  VcfRecord_init line = Ok r ->
  String.length (REF r) = 1 ->
  Forall (fun alt => String.length alt = 1) (py_split "," (ALT r)) ->
  NoDup (py_split "," (ALT r)) ->
  od_get "ALLELE_NUM" d = None -> od_get "Allele" d = Some allele ->
  (length (py_split "," (ALT r)) = 1 -> (csq_alt_index d r).2 = Ok 1%Z)
  /\ (1 < length (py_split "," (ALT r)) ->
      (forall j, py_split "," (ALT r) !! j = Some allele ->
                 (csq_alt_index d r).2 = Ok (Z.of_nat (S j)))
      /\ (allele ∉ py_split "," (ALT r) -> (csq_alt_index d r).2 = Raise KeyError)).
Proof.
  intros Hinit Href Halts Hnd Hnum Hallele.
  destruct (VcfRecord_init_fresh _ _ Hinit) as (Ha & _ & _ & _ & _ & _ & _ & Hv).
  set (alts := py_split "," (ALT r)) in *.
  assert (HA : ALLELES r = (set___ALLELES (Some (REF r :: alts)) r, Ok (REF r :: alts))).
  { unfold ALLELES. munfold. by rewrite Ha. }
  split.
  - intros H1. unfold csq_alt_index. unfold bindM. rewrite HA.
    cbn [length]. rewrite H1. reflexivity.
  - intros Hlong.
    pose (r1 := set___ALLELES (Some (REF r :: alts)) r).
    assert (HA1 : ALLELES (set___ALLELES (Some (REF r :: alts)) r)
                  = (r1, Ok (REF r :: alts))) by reflexivity.
    destruct (classify_alts_SNVs allele (REF r)
                (zip_list (seq 1 (length alts)) alts)
                (mk_vep_flags false false false false false) []
                Href (Forall_zip_snd _ _ _ Halts) eq_refl)
      as (fl & Hcl & Hsv & Hin & Hmn).
    set (cache := od_update [] (map (fun p : nat * string => (p.2, p.1))
                                    (zip_list (seq 1 (length alts)) alts))) in *.
    assert (Hnd' : NoDup (map fst (map (fun p : nat * string => (p.2, p.1))
                                       (zip_list (seq 1 (length alts)) alts)))).
    { rewrite map_map. simpl. change (fun x : nat * string => x.2) with (@snd nat string).
      by rewrite zip_seq_snd. }
    assert (Hrun : csq_alt_index d r
                   = (set__vep_allele cache r1,
                      match od_get allele cache with
                      | Some i => Ok (Z.of_nat i)
                      | None => Raise KeyError
                      end)).
    { unfold csq_alt_index. unfold bindM at 1. rewrite HA.
      cbn [length]. destruct (length alts) as [|[|n]] eqn:El; try lia.
      cbn [Nat.eqb]. rewrite Hnum.
      unfold _vep_to_alt. unfold bindM at 1. unfold bindM at 1, liftR at 1.
      rewrite Hallele. unfold bindM at 1, get at 1.
      cbn [_vep_allele set___ALLELES]. rewrite Hv. cbn [od_get].
      unfold bindM at 1. rewrite HA1.
      unfold bindM at 1, liftR at 1. cbn [drop].
      rewrite !drop_0, El, Hcl.
      unfold bindM at 1, modify at 1.
      unfold bindM at 1. rewrite Hsv, Hin, Hmn. cbn [is_sv is_mnv andb orb negb].
      rewrite andb_false_r. cbn [andb].
      unfold ret at 1. unfold bindM at 1, get at 1.
      change (_vep_allele (set__vep_allele cache r1)) with cache.
      destruct (od_get allele cache); reflexivity. }
    rewrite Hrun. cbn [snd]. split.
    + intros j Hj. unfold cache. rewrite od_get_update.
      rewrite (od_get_NoDup allele (S j)).
      * reflexivity.
      * by rewrite map_rev, <- (Permutation_rev _).
      * rewrite list_elem_of_In, <- in_rev, in_map_iff.
        exists (S j, allele). split; [done|].
        apply list_elem_of_In. by apply (zip_seq_lookup alts 1 j).
    + intros Hn. unfold cache. rewrite od_get_update.
      assert (E : od_get allele
                    (rev (map (fun p : nat * string => (p.2, p.1))
                              (zip_list (seq 1 (length alts)) alts))) = None).
      { apply od_get_None. rewrite map_rev. intros Hx.
        rewrite list_elem_of_In, <- in_rev in Hx.
        rewrite map_map in Hx. simpl in Hx.
        change (fun x : nat * string => x.2) with (@snd nat string) in Hx.
        rewrite zip_seq_snd in Hx. by apply list_elem_of_In in Hx. }
      by rewrite E.
Qed.

Lemma csq_alt_index_SNVs_witness :
  exists r,
    VcfRecord_init snv_line = Ok r
    /\ (csq_alt_index [("Allele", "G"); ("Consequence", "x")] r).2 = Ok 2%Z
    /\ (csq_alt_index [("Allele", "N"); ("Consequence", "x")] r).2 = Raise KeyError.
Proof.
  eexists. split; [reflexivity|].
  match goal with
  | |- (csq_alt_index _ ?r).2 = _ /\ _ =>
      assert (Hf : Forall (fun alt => String.length alt = 1) (py_split "," (ALT r)))
        by (repeat constructor);
      assert (Hn : NoDup (py_split "," (ALT r)))
        by (apply (bool_decide_unpack _); reflexivity);
      assert (Hl : 1 < length (py_split "," (ALT r))) by (vm_compute; lia);
      split;
      [ exact (proj1 (proj2 (csq_alt_index_SNVs snv_line r
                               [("Allele", "G"); ("Consequence", "x")] "G"
                               eq_refl eq_refl Hf Hn eq_refl eq_refl) Hl)
                     1 eq_refl)
      | apply (proj2 (proj2 (csq_alt_index_SNVs snv_line r
                               [("Allele", "N"); ("Consequence", "x")] "N"
                               eq_refl eq_refl Hf Hn eq_refl eq_refl) Hl));
        apply (bool_decide_unpack _); reflexivity ]
  end.
Defined.

(** ** Reading the header of a file *)

Lemma _read_header_loop_meta acc metas rest :
  Forall (fun l => py_startswith l "##" = true) metas ->
  _read_header_loop acc (metas ++ rest) = _read_header_loop (acc ++ metas) rest.
Proof.
  intros H. revert acc. induction H as [|l metas Hl _ IH]; intros acc.
  - by rewrite app_nil_r.
  - change ((l :: metas) ++ rest) with (l :: (metas ++ rest)).
    cbn [_read_header_loop]. rewrite Hl, IH.
    by rewrite <- app_assoc.
Qed.

Lemma column_line_not_meta line :
  py_startswith line "#CHROM" = true -> py_startswith line "##" = false.
Proof.
  destruct line as [|c1 [|c2 line]]; cbn [py_startswith]; try done.
  - by rewrite andb_false_r.
  - intros H.
    apply andb_true_iff in H as [H1 H]. apply andb_true_iff in H as [H2 _].
    apply Ascii.eqb_eq in H1, H2. subst. reflexivity.
Qed.

(** X22.  When the reader yields metaheader lines (lines that start with
    two hashes) and then a line that starts with #CHROM, _read_header
    consumes exactly these lines, so that the reader is left at the first
    record, and constructs the header from the metaheader lines and the
    tab-separated names of that line; when the first line that is no
    metaheader line does not start with #CHROM, a HeaderError is raised. *)
Theorem _read_header_splits (parse_line : string -> M VcfHeader unit)
    (metas : list string) (line : string) (rest : list string) :
  Forall (fun l => py_startswith l "##" = true) metas ->
  (py_startswith line "#CHROM" = true ->
   _read_header parse_line (metas ++ line :: rest)
   = (rest,
      doR _ <- (VcfHeader_init parse_line metas (py_split TAB line)).2 ;;
      Ok (VcfHeader_init parse_line metas (py_split TAB line)).1))
  /\ (py_startswith line "##" = false -> py_startswith line "#CHROM" = false ->
      _read_header parse_line (metas ++ line :: rest) = (rest, Raise HeaderError)).
Proof.
  intros Hm. unfold _read_header.
  rewrite _read_header_loop_meta by done.
  cbn [_read_header_loop app]. split.
  - intros Hc. rewrite (column_line_not_meta line Hc), Hc.
    by destruct (VcfHeader_init parse_line metas (py_split TAB line)).
  - intros Hl Hc. by rewrite Hl, Hc.
Qed.

Lemma _read_header_splits_witness :
  _read_header (fun _ => ret tt) example_file
  = ([C8_line],
     doR _ <- (VcfHeader_init (fun _ => ret tt) example_metas
                 (py_split TAB example_columns)).2 ;;
     Ok (VcfHeader_init (fun _ => ret tt) example_metas
           (py_split TAB example_columns)).1)
  /\ samples (VcfHeader_init (fun _ => ret tt) example_metas
                (py_split TAB example_columns)).1 = Some ["S1"; "S2"]
  /\ _read_header (fun _ => ret tt) (example_metas ++ C8_line :: [])
     = ([], Raise HeaderError).
Proof.
  assert (Hm : Forall (fun l => py_startswith l "##" = true) example_metas)
    by (repeat constructor).
  split; [|split; [reflexivity|]].
  - exact (proj1 (_read_header_splits (fun _ => ret tt) example_metas
                    example_columns [C8_line] Hm) eq_refl).
  - exact (proj2 (_read_header_splits (fun _ => ret tt) example_metas
                    C8_line [] Hm) eq_refl eq_refl).
Defined.

(** X23.  When every line that the reader yields is a metaheader line, so
    that the file has no line of column names, _read_header consumes the
    reader and raises an IndexError, from the check of the first column
    name of an empty list, and not a HeaderError. *)
Theorem _read_header_no_columns (parse_line : string -> M VcfHeader unit)
    (lines : list string) :
  Forall (fun l => py_startswith l "##" = true) lines ->
  _read_header parse_line lines = ([], Raise IndexError).
Proof.
  intros H. unfold _read_header.
  rewrite <- (app_nil_r lines) at 1.
  rewrite _read_header_loop_meta by done. reflexivity.
Qed.

Lemma _read_header_no_columns_witness :
  _read_header (fun _ => ret tt) example_metas = ([], Raise IndexError).
Proof.
  apply _read_header_no_columns. repeat constructor.
Defined.

(** ** Sorting and rendering the metaheader *)

Lemma insert_str_perm x l : insert_str x l ≡ₚ x :: l.
Proof.
  induction l as [|y l IH]; [done|].
  simpl. destruct (String.leb x y); [done|].
  rewrite IH. apply perm_swap.
Qed.

Lemma py_sort_perm l : py_sort l ≡ₚ l.
Proof.
  induction l as [|x l IH]; [done|].
  simpl. by rewrite insert_str_perm, IH.
Qed.

Lemma insert_str_ascending x l : ascending l -> ascending (insert_str x l).
Proof.
  induction l as [|y l IH]; [done|]. intros Hl.
  cbn [insert_str]. destruct (String.leb x y) eqn:E; [done|].
  assert (Hyx : String.leb y x = true).
  { destruct (String.leb_total x y); congruence. }
  destruct l as [|z l]; [done|].
  destruct Hl as [Hyz Hl]. specialize (IH Hl).
  cbn [insert_str] in *. destruct (String.leb x z); done.
Qed.

Lemma py_sort_ascending l : ascending (py_sort l).
Proof.
  induction l as [|x l IH]; [done|]. simpl. by apply insert_str_ascending.
Qed.

Lemma py_sort_sorted l : ascending l -> py_sort l = l.
Proof.
  induction l as [|x l IH]; [done|]. intros Hl.
  destruct l as [|y l]; [done|]. destruct Hl as [Hxy Hl].
  change (py_sort (x :: y :: l)) with (insert_str x (py_sort (y :: l))).
  rewrite (IH Hl). cbn [insert_str]. by rewrite Hxy.
Qed.

Lemma py_sort_Forall (P : string -> Prop) l : Forall P l -> Forall P (py_sort l).
Proof. intros H. by rewrite py_sort_perm. Qed.

Lemma sort_loop_started lines iff pre post :
  iff <> [] ->
  sort_loop lines iff pre post
  = (iff ++ filter (fun l => is_inf_filt_form l = true) lines, pre,
     post ++ filter (fun l => is_inf_filt_form l = false) lines).
Proof.
  revert iff post. induction lines as [|line lines IH]; intros iff post Hne.
  - simpl. by rewrite !app_nil_r.
  - cbn [sort_loop]. destruct (is_inf_filt_form line) eqn:E.
    + rewrite IH by (by destruct iff).
      rewrite filter_cons_True by done. rewrite filter_cons_False by congruence.
      by rewrite <- app_assoc.
    + assert (Hl : (length iff =? 0)%nat = false) by (by destruct iff).
      rewrite Hl. cbn [negb]. rewrite IH by done.
      rewrite filter_cons_False by congruence. rewrite filter_cons_True by done.
      by rewrite <- app_assoc.
Qed.

Lemma filter_split_perm lines :
  lines ≡ₚ filter (fun l => is_inf_filt_form l = true) lines
           ++ filter (fun l => is_inf_filt_form l = false) lines.
Proof.
  induction lines as [|line lines IH]; [done|].
  destruct (is_inf_filt_form line) eqn:E.
  - rewrite filter_cons_True by done. rewrite filter_cons_False by congruence.
    simpl. by constructor.
  - rewrite filter_cons_False by congruence. rewrite filter_cons_True by done.
    rewrite <- Permutation_middle. by constructor.
Qed.

Lemma filter_all (b : bool) l :
  Forall (fun x => is_inf_filt_form x = b) l ->
  filter (fun x => is_inf_filt_form x = b) l = l.
Proof.
  induction 1 as [|x l Hx Hl IH]; [done|].
  rewrite filter_cons_True by done. by rewrite IH.
Qed.

Lemma filter_none (b : bool) l :
  Forall (fun x => is_inf_filt_form x = negb b) l ->
  filter (fun x => is_inf_filt_form x = b) l = [].
Proof.
  induction 1 as [|x l Hx Hl IH]; [done|].
  rewrite filter_cons_False; [done|]. rewrite Hx. by destruct b.
Qed.

(** A list that is already arranged is taken apart into its three parts. *)
Lemma sort_loop_arranged pre iff post pre0 :
  Forall (fun l => is_inf_filt_form l = false) pre ->
  Forall (fun l => is_inf_filt_form l = true) iff ->
  Forall (fun l => is_inf_filt_form l = false) post ->
  (iff = [] -> post = []) ->
  sort_loop (pre ++ iff ++ post) [] pre0 [] = (iff, pre0 ++ pre, post).
Proof.
  intros Hpre Hiff Hpost Hnone. revert pre0.
  induction Hpre as [|x pre Hx Hpre IH]; intros pre0.
  - rewrite app_nil_r. cbn [app]. destruct Hiff as [|y iff Hy Hiff].
    + by rewrite (Hnone eq_refl).
    + cbn [app sort_loop]. rewrite Hy. rewrite sort_loop_started by done.
      rewrite !filter_app. rewrite (filter_all true iff) by done.
      rewrite (filter_none true post) by done.
      rewrite (filter_none false iff) by done.
      rewrite (filter_all false post) by done.
      by rewrite app_nil_r.
  - cbn [app sort_loop]. rewrite Hx. cbn [length Nat.eqb negb].
    rewrite IH. by rewrite <- app_assoc.
Qed.

(** The loop takes the lines apart at the first FORMAT, FILTER or INFO
    line. *)
Lemma sort_loop_split lines pre0 :
  exists pre rest,
    lines = pre ++ rest
    /\ Forall (fun l => is_inf_filt_form l = false) pre
    /\ (forall l, head rest = Some l -> is_inf_filt_form l = true)
    /\ sort_loop lines [] pre0 []
       = (filter (fun l => is_inf_filt_form l = true) rest, pre0 ++ pre,
          filter (fun l => is_inf_filt_form l = false) rest).
Proof.
  revert pre0. induction lines as [|line lines IH]; intros pre0.
  - exists [], []. split; [done|]. split; [apply Forall_nil_2|].
    split; [intros l Hl; discriminate Hl|]. by rewrite app_nil_r.
  - destruct (is_inf_filt_form line) eqn:E.
    + exists [], (line :: lines). split; [done|]. split; [apply Forall_nil_2|].
      split; [by intros l [= <-]|].
      cbn [sort_loop]. rewrite E, sort_loop_started by done.
      rewrite filter_cons_True by done. rewrite filter_cons_False by congruence.
      by rewrite app_nil_r.
    + destruct (IH (pre0 ++ [line])) as (pre & rest & -> & Hpre & Hhd & Hrun).
      exists (line :: pre), rest. split; [done|]. split; [by constructor|].
      split; [done|].
      cbn [sort_loop]. rewrite E. cbn [length Nat.eqb negb].
      by rewrite Hrun, <- app_assoc.
Qed.

Lemma filter_is_Forall (b : bool) l :
  Forall (fun x => is_inf_filt_form x = b)
         (filter (fun x => is_inf_filt_form x = b) l).
Proof.
  apply Forall_forall. intros x Hx. by apply list_elem_of_filter in Hx as [? _].
Qed.

(** X24.  _sort_meta_header returns, sets the flag and changes nothing of
    the header but the lines.  The lines it leaves are: first, unchanged
    and in their order, the lines that stood before the first FORMAT,
    FILTER or INFO line; then the FORMAT, FILTER and INFO lines of the
    rest, in ascending order; then the other lines of the rest, in their
    order.  They are a rearrangement of the lines it found, and sorting
    again changes nothing. *)
Theorem _sort_meta_header_sorts (h : HeaderObject) :
  let lines := meta_header (attributes h) in
  let h' := (_sort_meta_header h).1 in
  (_sort_meta_header h).2 = Ok tt
  /\ _sorted_meta_header h' = true
  /\ attributes h' = set_meta_header (meta_header (attributes h')) (attributes h)
  /\ meta_header (attributes h') ≡ₚ lines
  /\ (exists pre rest iff,
        lines = pre ++ rest
        /\ Forall (fun l => is_inf_filt_form l = false) pre
        /\ (forall l, head rest = Some l -> is_inf_filt_form l = true)
        /\ iff ≡ₚ filter (fun l => is_inf_filt_form l = true) rest
        /\ ascending iff
        /\ meta_header (attributes h')
           = pre ++ iff ++ filter (fun l => is_inf_filt_form l = false) rest)
  /\ _sort_meta_header h' = (h', Ok tt).
Proof.
  cbv zeta.
  destruct (sort_loop_split (meta_header (attributes h)) [])
    as (pre & rest & Hl & Hpre & Hhd & Hloop).
  cbn [app] in Hloop.
  set (iff := filter (fun l => is_inf_filt_form l = true) rest) in *.
  set (post := filter (fun l => is_inf_filt_form l = false) rest) in *.
  assert (Hrun : _sort_meta_header h
                 = (mkHeaderObject
                      (set_meta_header (pre ++ py_sort iff ++ post) (attributes h))
                      true, Ok tt)).
  { unfold _sort_meta_header. munfold. by rewrite Hloop. }
  rewrite Hrun. cbn [fst snd attributes _sorted_meta_header meta_header set_meta_header].
  split; [done|]. split; [done|]. split; [done|].
  split.
  { rewrite Hl, py_sort_perm. apply Permutation_app_head. subst iff post.
    symmetry. apply filter_split_perm. }
  split.
  { exists pre, rest, (py_sort iff). split; [done|]. split; [done|].
    split; [done|]. split; [apply py_sort_perm|].
    split; [apply py_sort_ascending | done]. }
  unfold _sort_meta_header. munfold.
  cbn [attributes meta_header set_meta_header].
  pose proof (sort_loop_arranged pre (py_sort iff) post []) as Ha.
  cbn [app] in Ha. rewrite Ha.
  - rewrite (py_sort_sorted _ (py_sort_ascending iff)). reflexivity.
  - done.
  - apply py_sort_Forall. subst iff. apply (filter_is_Forall true).
  - subst post. apply (filter_is_Forall false).
  - intros E. assert (Hiff : iff = []).
    { apply Permutation_nil_r. by rewrite <- E, py_sort_perm. }
    subst iff post. destruct rest as [|l rest]; [done|].
    rewrite filter_cons_True in Hiff by (by apply Hhd). done.
Qed.

Example _sort_meta_header_sample :
  meta_header (attributes (_sort_meta_header
    (mkHeaderObject
       (blank_header ["##fileformat=VCFv4.2"; "##INFO=<ID=DP>"; "##contig=<ID=1>";
                      "##FORMAT=<ID=GT>"; "##FILTER=<ID=q10>"; "##INFO=<ID=AF>"]
                     essential_columns) false)).1)
  = ["##fileformat=VCFv4.2"; "##FILTER=<ID=q10>"; "##FORMAT=<ID=GT>";
     "##INFO=<ID=AF>"; "##INFO=<ID=DP>"; "##contig=<ID=1>"].
Proof. reflexivity. Qed.

Lemma _set_field_translation_keeps_lines m c field_type field :
  preserves (fun h => meta_header h = m /\ col_header h = c)
            (_set_field_translation field_type field).
Proof. unfold _set_field_translation. pres ltac:(intros ? H; exact H). Qed.

Lemma VcfHeader_init_keeps_lines parse_line m c :
  keeps_lines parse_line ->
  meta_header (VcfHeader_init parse_line m c).1 = m
  /\ col_header (VcfHeader_init parse_line m c).1 = c.
Proof.
  intros Hk. unfold VcfHeader_init.
  match goal with
  | |- meta_header (?f ?s).1 = _ /\ _ =>
      assert (Hp : preserves (fun h => meta_header h = m /\ col_header h = c) f)
  end.
  { unfold _parse_metadata.
    pres ltac:(intros ? H; exact H);
      first [apply Hk | apply _set_field_translation_keeps_lines]. }
  apply Hp. done.
Qed.

(** X25.  Round trip of the header text: for a header that _read_header
    built from metaheader lines and a line of column names, with a line
    parser that leaves the lines and the column names alone, __str__
    returns the metaheader lines and the line of column names as they
    were read, each ended by a newline, and changes nothing. *)
Theorem VcfHeader_str_round_trip (parse_line : string -> M VcfHeader unit)
    (metas : list string) (line : string) (rest : list string) (h : VcfHeader) :
  keeps_lines parse_line ->
  Forall (fun l => py_startswith l "##" = true) metas ->
  py_startswith line "#CHROM" = true ->
  _read_header parse_line (metas ++ line :: rest) = (rest, Ok h) ->
  VcfHeader_str (mkHeaderObject h true)
  = (mkHeaderObject h true,
     Ok (py_join (str1 NEWLINE) metas +:+ str1 NEWLINE +:+ line +:+ str1 NEWLINE)).
Proof.
  intros Hk Hm Hc Hread.
  unfold _read_header in Hread.
  rewrite _read_header_loop_meta in Hread by done.
  cbn [_read_header_loop app] in Hread.
  rewrite (column_line_not_meta line Hc), Hc in Hread.
  destruct (VcfHeader_init_keeps_lines parse_line metas (py_split TAB line) Hk)
    as [H1 H2].
  destruct (VcfHeader_init parse_line metas (py_split TAB line)) as [h0 [[]|e]];
    simpl in *; [|done].
  injection Hread as <-.
  unfold VcfHeader_str. munfold. simpl. rewrite H1, H2.
  by rewrite (py_join_split TAB).
Qed.

Lemma VcfHeader_str_round_trip_witness :
  VcfHeader_str
    (mkHeaderObject
       (VcfHeader_init (fun _ => ret tt) example_metas
          (py_split TAB example_columns)).1 true)
  = (mkHeaderObject
       (VcfHeader_init (fun _ => ret tt) example_metas
          (py_split TAB example_columns)).1 true,
     Ok (py_join (str1 NEWLINE) example_metas +:+ str1 NEWLINE
         +:+ example_columns +:+ str1 NEWLINE)).
Proof.
  apply (VcfHeader_str_round_trip (fun _ => ret tt) example_metas
           example_columns [C8_line]).
  - intros m c l s H. exact H.
  - repeat constructor.
  - reflexivity.
  - reflexivity.
Defined.

(** ** Adding IDs *)

Lemma VcfRecord_init_three line r : VcfRecord_init line = Ok r -> 2 < length (cols r).
Proof.
  intros H. destruct (VcfRecord_init_INFO_column _ _ H) as [Hl _]. lia.
Qed.

Lemma add_ids_unfold set_order ids replace r :
  2 < length (cols r) ->
  let id := if replace || String.eqb (ID r) "." then py_join ";" ids
            else py_join ";" (set_order (ids ++ py_split ";" (ID r))) in
  add_ids set_order ids replace r
  = (set_cols (<[2 := id]> (cols r)) (set_ID id r), Ok tt).
Proof.
  intros Hl. unfold add_ids. munfold. cbv zeta.
  destruct (replace || String.eqb (ID r) "."); simpl;
    by rewrite (proj2 (Nat.ltb_lt _ _) Hl).
Qed.

(** X26.  On a record read from a line, add_ids with replace, or on a
    record whose ID is the dot, returns and sets ID to the given IDs
    joined with semicolons, in the given order and with repetitions kept;
    the third raw column becomes that string and the other columns stay,
    so the record renders as the line with its third field replaced. *)
Theorem add_ids_replaces (set_order : list string -> list string)
    (ids : list string) (replace : bool) (line : string) (r : VcfRecord) :
  VcfRecord_init line = Ok r ->
  replace = true \/ ID r = "." ->
  let out := add_ids set_order ids replace r in
  out.2 = Ok tt
  /\ ID out.1 = py_join ";" ids
  /\ cols out.1 = <[2 := py_join ";" ids]> (cols r)
  /\ __str__ out.1
     = py_join (str1 TAB) (<[2 := py_join ";" ids]> (py_split_max TAB line 9)).
Proof.
  intros H Hr. cbv zeta.
  rewrite (add_ids_unfold set_order ids replace r (VcfRecord_init_three _ _ H)).
  cbv zeta.
  assert (E : replace || String.eqb (ID r) "." = true).
  { destruct Hr as [->| ->]; [done | by rewrite orb_true_r]. }
  rewrite E. simpl. split; [done|]. split; [done|]. split; [done|].
  unfold __str__. simpl. by rewrite (VcfRecord_init_cols _ _ H).
Qed.

Lemma add_ids_replaces_witness :
  exists r,
    VcfRecord_init multi_allelic_line = Ok r
    /\ (add_ids (fun l => l) ["b"; "a"; "b"] true r).2 = Ok tt
    /\ ID (add_ids (fun l => l) ["b"; "a"; "b"] true r).1 = "b;a;b"
    /\ cols (add_ids (fun l => l) ["b"; "a"; "b"] true r).1
       = <[2 := py_join ";" ["b"; "a"; "b"]]> (cols r)
    /\ __str__ (add_ids (fun l => l) ["b"; "a"; "b"] true r).1
       = py_join (str1 TAB)
           (<[2 := py_join ";" ["b"; "a"; "b"]]> (py_split_max TAB multi_allelic_line 9)).
Proof.
  eexists. split; [reflexivity|].
  exact (add_ids_replaces (fun l => l) ["b"; "a"; "b"] true multi_allelic_line _
           eq_refl (or_introl eq_refl)).
Defined.

(** X27.  On a record read from a line whose ID is not the dot, add_ids
    without replace returns and sets ID to the union of the given IDs
    and the semicolon-separated IDs of the record: when no given ID holds
    a semicolon, the IDs of the new ID field are pairwise distinct, and
    they are the given ones and the old ones; the third raw column holds
    the new ID.  The order of the IDs is that of a set and not
    determined. *)
Theorem add_ids_unions (set_order : list string -> list string)
    (ids : list string) (line : string) (r : VcfRecord) :
  enumerates_set set_order ->
  VcfRecord_init line = Ok r ->
  ID r <> "." ->
  Forall (fun x => has_char ";" x = false) ids ->
  let out := add_ids set_order ids false r in
  out.2 = Ok tt
  /\ NoDup (py_split ";" (ID out.1))
  /\ (forall x, x ∈ py_split ";" (ID out.1) <-> x ∈ ids \/ x ∈ py_split ";" (ID r))
  /\ cols out.1 = <[2 := ID out.1]> (cols r).
Proof.
  intros Hset H Hdot Hids. cbv zeta.
  rewrite (add_ids_unfold set_order ids false r (VcfRecord_init_three _ _ H)).
  cbv zeta. rewrite (proj2 (String.eqb_neq _ _) Hdot). simpl.
  destruct (Hset (ids ++ py_split ";" (ID r))) as [Hnd Hel].
  assert (Hsplit : py_split ";" (py_join ";" (set_order (ids ++ py_split ";" (ID r))))
                   = set_order (ids ++ py_split ";" (ID r))).
  { apply (py_split_join ";").
    - intros E. pose proof (py_split_nonempty ";" (ID r)) as Hne.
      destruct (py_split ";" (ID r)) as [|x l] eqn:Es; [done|].
      assert (Hx : x ∈ set_order (ids ++ x :: l)).
      { apply Hel. apply elem_of_app. right. apply elem_of_cons. by left. }
      rewrite E in Hx. by apply elem_of_nil in Hx.
    - apply Forall_forall. intros x Hx. apply Hel in Hx.
      apply elem_of_app in Hx as [Hx|Hx].
      + by apply (proj1 (Forall_forall _ _) Hids).
      + by apply (proj1 (Forall_forall _ _) (py_split_no_sep ";" (ID r))). }
  rewrite Hsplit. split; [done|]. split; [done|]. split; [|done].
  intros x. by rewrite Hel, elem_of_app.
Qed.

Lemma add_ids_unions_witness :
  exists r,
    VcfRecord_init multi_allelic_line = Ok r
    /\ ID (add_ids remove_dups ["rs2"; "rs1"; "rs2"] false r).1 = "rs2;rs1"
    /\ (add_ids remove_dups ["rs2"; "rs1"; "rs2"] false r).2 = Ok tt
    /\ NoDup (py_split ";" (ID (add_ids remove_dups ["rs2"; "rs1"; "rs2"] false r).1))
    /\ (forall x,
          x ∈ py_split ";" (ID (add_ids remove_dups ["rs2"; "rs1"; "rs2"] false r).1)
          <-> x ∈ ["rs2"; "rs1"; "rs2"] \/ x ∈ py_split ";" (ID r))
    /\ cols (add_ids remove_dups ["rs2"; "rs1"; "rs2"] false r).1
       = <[2 := ID (add_ids remove_dups ["rs2"; "rs1"; "rs2"] false r).1]> (cols r).
Proof.
  eexists. split; [reflexivity|]. split; [reflexivity|].
  apply (add_ids_unions remove_dups ["rs2"; "rs1"; "rs2"] multi_allelic_line _).
  - intros l. split; [apply NoDup_remove_dups | apply elem_of_remove_dups].
  - reflexivity.
  - done.
  - repeat constructor.
Defined.

(** ** The column names of a header *)

(** The loop over the essential column names returns when they are all
    there, raises an IndexError when the names run out before a wrong one
    is met, and a HeaderError at the first wrong name. *)
Lemma check_columns_cases expected i cols :
  match check_columns i expected cols with
  | Ok _ => take (length expected) (drop i cols) = expected
  | Raise IndexError => exists rest, rest <> [] /\ expected = drop i cols ++ rest
  | Raise HeaderError =>
      ~ (exists rest, expected = take (length expected) (drop i cols) ++ rest)
  | Raise _ => False
  end.
Proof.
  revert i. induction expected as [|c expected IH]; intros i; [done|].
  cbn [check_columns]. destruct (cols !! i) as [x|] eqn:E.
  - rewrite (drop_S _ _ _ E).
    destruct (String.eqb_spec x c) as [->|Hne].
    + specialize (IH (S i)).
      destruct (check_columns (S i) expected cols) as [[]|[]]; try done.
      * cbn [length take]. by rewrite IH.
      * intros [rest Hr]. apply IH. exists rest. cbn [length take app] in Hr.
        by injection Hr.
      * destruct IH as (rest & Hr1 & Hr2). exists rest. split; [done|].
        by rewrite Hr2.
    + intros [rest Hr]. cbn [length take app] in Hr. injection Hr as Hr _. done.
  - apply lookup_ge_None in E. rewrite drop_ge by done.
    exists (c :: expected). done.
Qed.

(** X28.  The check of the column names in VcfHeader.__init__: when the
    first eight names are the essential ones and a ninth name, if there
    is one, is FORMAT, construction goes on to parse the metaheader;
    otherwise it raises before any line is parsed, leaving the attributes
    as first assigned, an IndexError exactly when the names are a proper
    initial part of the essential names, and a HeaderError in every other
    case. *)
Theorem VcfHeader_init_column_check (parse_line : string -> M VcfHeader unit)
    (meta_header col_header : list string) :
  (valid_columns col_header ->
   VcfHeader_init parse_line meta_header col_header
   = _parse_metadata parse_line (blank_header meta_header col_header))
  /\ (~ valid_columns col_header ->
      exists e,
        VcfHeader_init parse_line meta_header col_header
        = (blank_header meta_header col_header, Raise e)
        /\ (e = IndexError \/ e = HeaderError)
        /\ (e = IndexError
            <-> exists rest, rest <> [] /\ essential_columns = col_header ++ rest)).
Proof.
  unfold VcfHeader_init, valid_columns.
  pose proof (check_columns_cases essential_columns 0 col_header) as Hc.
  rewrite drop_0 in Hc. change (length essential_columns) with 8 in Hc.
  unfold bindM at 1, liftR at 1.
  destruct (check_columns 0 essential_columns col_header) as [[]|e] eqn:Ec.
  - unfold bindM at 1. split.
    + intros [_ H9]. destruct (Nat.ltb_spec 8 (length col_header)) as [Hl|Hl];
        [|reflexivity].
      rewrite (H9 Hl). reflexivity.
    + intros Hnv. destruct (Nat.ltb_spec 8 (length col_header)) as [Hl|Hl].
      * destruct (lookup_lt_is_Some_2 col_header 8 Hl) as [c E8]. rewrite E8.
        destruct (String.eqb_spec c "FORMAT") as [->|Hne].
        { exfalso. apply Hnv. done. }
        exists HeaderError. split; [reflexivity|]. split; [by right|].
        split; [done|]. intros (rest & _ & Hr).
        apply (f_equal (@length _)) in Hr. rewrite length_app in Hr.
        cbn [length essential_columns] in Hr. lia.
      * exfalso. apply Hnv. split; [done|]. lia.
  - assert (Hnv : ~ (take 8 col_header = essential_columns
                     /\ (8 < length col_header -> col_header !! 8 = Some "FORMAT"))).
    { intros [Ht _]. destruct e; try done.
      - apply Hc. exists []. by rewrite Ht.
      - destruct Hc as (rest & Hr1 & Hr2).
        assert (Hl : length col_header < 8).
        { apply (f_equal (@length _)) in Hr2. rewrite length_app in Hr2.
          cbn [length essential_columns] in Hr2. destruct rest; [done|].
          cbn [length] in Hr2. lia. }
        apply (f_equal (@length _)) in Ht. rewrite length_take in Ht.
        cbn [length essential_columns] in Ht. lia. }
    split; [done|]. intros _. exists e. split; [reflexivity|].
    destruct e; try done.
    + split; [by right|]. split; [done|].
      intros (rest & _ & Hr). exfalso. apply Hc. exists rest.
      rewrite Hr at 1. f_equal. symmetry. apply take_ge.
      apply (f_equal (@length _)) in Hr. rewrite length_app in Hr.
      cbn [length essential_columns] in Hr. lia.
    + split; [by left|]. done.
Qed.

(** ** Fields of a sample call *)

Lemma fold_insert_zip_notin {V} (keys : list string) (vals : list V)
    (m : gmap string V) k :
  k ∉ keys ->
  fold_left (fun m kv => <[kv.1 := kv.2]> m) (zip_list keys vals) m !! k = m !! k.
Proof.
  revert vals m. induction keys as [|x keys IH]; intros vals m Hk; [done|].
  apply not_elem_of_cons in Hk as [Hne Hk].
  destruct vals as [|v vals]; [done|]. simpl.
  rewrite IH by done. by rewrite lookup_insert_ne.
Qed.

Lemma fold_insert_zip_lookup {V} (keys : list string) (vals : list V)
    (m : gmap string V) i k :
  NoDup keys -> keys !! i = Some k ->
  fold_left (fun m kv => <[kv.1 := kv.2]> m) (zip_list keys vals) m !! k
  = match vals !! i with Some v => Some v | None => m !! k end.
Proof.
  revert vals i m. induction keys as [|x keys IH]; intros vals i m Hnd Hi; [done|].
  apply NoDup_cons in Hnd as [Hx Hnd].
  destruct vals as [|v vals]; [done|].
  destruct i as [|i]; simpl in Hi |- *.
  - injection Hi as ->. rewrite fold_insert_zip_notin by done.
    apply lookup_insert_eq.
  - rewrite (IH vals i _ Hnd Hi). destruct (vals !! i); [done|].
    apply lookup_insert_ne. intros ->. apply Hx. by eapply list_elem_of_lookup_2.
Qed.

(** [dict(zip(keys, vals))] with distinct keys pairs by position. *)
Lemma dict_of_zip_lookup {V} (keys : list string) (vals : list V) i k :
  NoDup keys -> keys !! i = Some k ->
  dict_of (zip_list keys vals) !! k = vals !! i.
Proof.
  intros Hnd Hi. unfold dict_of. rewrite (fold_insert_zip_lookup _ _ _ i) by done.
  by destruct (vals !! i).
Qed.

(** X29.  For a record read from a line that has a field for every column
    of a header with distinct sample names, and distinct FORMAT keys: the
    call that get_sample_call returns for the sample at place j of the
    header maps the FORMAT key at place i to the colon-separated value at
    place i of field 9+j of the line, and holds no value for a key whose
    place is beyond the values of that field. *)
Theorem get_sample_call_field (meta col_header : list string) (line : string)
    (r : VcfRecord) (j i : nat) (s k : string) :
  VcfRecord_init line = Ok r ->
  9 < length col_header <= length (py_split TAB line) ->
  NoDup (drop 9 col_header) -> drop 9 col_header !! j = Some s ->
  NoDup (default [] (GT_FORMAT r)) -> default [] (GT_FORMAT r) !! i = Some k ->
  exists d,
    (get_sample_call (blank_header meta col_header) s r).2 = Ok d
    /\ d !! k = py_split TAB line !! (9 + j) ≫= (fun call => py_split ":" call !! i).
Proof.
  intros Hinit [Hl Hc] Hnd Hj Hndf Hi.
  pose proof (VcfRecord_init_genotyped meta col_header line r Hinit Hl Hc) as G.
  pose proof (VcfRecord_init_full_cols line r Hinit ltac:(lia)) as Hfull.
  assert (Hs : default [] (samples (blank_header meta col_header)) = drop 9 col_header
               /\ sample_cols (blank_header meta col_header)
                  = Some (dict_of (enumerate_from 9 (drop 9 col_header)))).
  { unfold blank_header. simpl. destruct (drop 9 col_header); [done|]. done. }
  destruct Hs as [Hs Hsc].
  assert (Hdec : decoding (blank_header meta col_header) r ∅ r).
  { destruct G as (_ & _ & Hcalls & _ & Hg).
    split; [done|]. split; [done|]. split; [by right|].
    intros ? ?. by rewrite lookup_empty. }
  destruct (decoding_get_sample_call _ r G ∅ r s Hdec) as (r' & Hget & _).
  { rewrite Hs. by eapply list_elem_of_lookup_2. }
  rewrite Hget. eexists. split; [reflexivity|].
  unfold gts_of, call_dict.
  rewrite (dict_of_zip_lookup _ _ i k Hndf Hi).
  unfold sample_column. rewrite Hsc. unfold dict_of at 1.
  rewrite (enumerate_from_lookup _ 9 j ∅ s Hnd Hj), Hfull.
  destruct (py_split TAB line !! (9 + j)) eqn:E; [done|].
  apply lookup_ge_None in E. apply lookup_lt_Some in Hj.
  rewrite length_drop in Hj. lia.
Qed.

Lemma get_sample_call_field_witness :
  exists r d,
    VcfRecord_init C8_line = Ok r
    /\ (get_sample_call (blank_header [] two_sample_columns) "S1" r).2 = Ok d
    /\ d !! "PGT"
       = py_split TAB C8_line !! (9 + 0) ≫= (fun call => py_split ":" call !! 2)
    /\ py_split TAB C8_line !! (9 + 0) ≫= (fun call => py_split ":" call !! 2)
       = Some "0|1".
Proof.
  eexists.
  assert (Hl : 9 < length two_sample_columns <= length (py_split TAB C8_line))
    by (vm_compute; lia).
  assert (Hn : NoDup (drop 9 two_sample_columns))
    by (apply (bool_decide_unpack _); reflexivity).
  assert (Hf : NoDup ["GT"; "PID"; "PGT"])
    by (apply (bool_decide_unpack _); reflexivity).
  destruct (get_sample_call_field [] two_sample_columns C8_line _ 0 2 "S1" "PGT"
              eq_refl Hl Hn eq_refl Hf eq_refl) as (d & H1 & H2).
  exists d. split; [reflexivity|]. split; [exact H1|]. split; [exact H2|].
  reflexivity.
Defined.

(** ** Genotypes *)

Lemma gt_tokens_unphase val : gt_tokens (unphase val) = gt_tokens val.
Proof.
  unfold gt_tokens. induction val as [|c val IH]; [reflexivity|].
  cbn [unphase re_split_class]. rewrite IH.
  destruct (Ascii.eqb_spec c "|") as [->|Hne]; [reflexivity|]. reflexivity.
Qed.

Lemma mapR_int_all (tokens : list string) (ns : list Z) :
  map py_int tokens = map Some ns ->
  mapR (fun x => match py_int x with
                 | Some n => Ok n
                 | None => Raise ValueError
                 end) tokens = Ok ns.
Proof.
  revert ns. induction tokens as [|t tokens IH]; intros [|n ns] H; try done.
  simpl in H. injection H as Ht H. simpl. rewrite Ht. simpl.
  by rewrite (IH ns H).
Qed.

(** X30.  A GT value whose tokens between slashes and bars are all
    integer literals parses to the tuple of these integers in order; and
    the phase is not kept: replacing the bars of any GT value by slashes
    does not change what is returned or raised. *)
Theorem GT_parsed_alleles (float_accepts : string -> bool) (h : VcfHeader)
    (val : string) :
  (forall ns, map py_int (gt_tokens val) = map Some ns ->
     (_get_parsed_gt_fields float_accepts "GT" [Some val] h).2
     = Ok [PTuple (map (fun n => Some (SInt n)) ns)])
  /\ (_get_parsed_gt_fields float_accepts "GT" [Some (unphase val)] h).2
     = (_get_parsed_gt_fields float_accepts "GT" [Some val] h).2.
Proof.
  rewrite !_get_parsed_gt_fields_GT. split.
  - intros ns H. unfold parse_GT. by rewrite (mapR_int_all _ _ H).
  - unfold parse_GT. by rewrite gt_tokens_unphase.
Qed.

Example GT_phase_dropped :
  parse_GT (Some "1|0") = Ok (PTuple [Some (SInt 1); Some (SInt 0)])
  /\ parse_GT (Some "1/0") = Ok (PTuple [Some (SInt 1); Some (SInt 0)]).
Proof. split; reflexivity. Qed.

